(** * Baymax Assistant: the retrieval-augmented generation pipeline

    A shallow embedding of [server/rag_build.py] (corpus normaliser and
    index builder), of [server/app.py] (cross-origin configuration,
    retrieval, prompt assembly and the chat, RAG and speech endpoints) and
    of the voice table of [server/tts_server.py], with the properties of the
    design document proved or refuted on it, and further properties read
    off the code. *)

From Stdlib Require Import List ZArith NArith Lia Bool String Ascii.
From Stdlib Require Import DecimalString Sorted.
From Stdlib Require DecimalFacts DecimalZ.
Import ListNotations.

Set Implicit Arguments.
Set Warnings "-register-all".
Set Default Goal Selector "!".

(** ** Python strings *)

Module PyStr.

(** A Python [str] is a sequence of Unicode code points. *)
Definition char := N.
Definition str := list char.

(** Literals are written as UTF-8 text and decoded to code points. *)
Fixpoint utf8_decode (bs : list N) : str :=
  match bs with
  | [] => []
  | b0 :: r0 =>
    if (b0 <? 128)%N then b0 :: utf8_decode r0
    else match r0 with
    | [] => [b0]
    | b1 :: r1 =>
      if (b0 <? 224)%N then ((b0 - 192) * 64 + (b1 - 128))%N :: utf8_decode r1
      else match r1 with
      | [] => [b0; b1]
      | b2 :: r2 =>
        if (b0 <? 240)%N
        then ((b0 - 224) * 4096 + (b1 - 128) * 64 + (b2 - 128))%N :: utf8_decode r2
        else match r2 with
        | [] => [b0; b1; b2]
        | b3 :: r3 =>
          ((b0 - 240) * 262144 + (b1 - 128) * 4096 + (b2 - 128) * 64 + (b3 - 128))%N
            :: utf8_decode r3
        end
      end
    end
  end.

Definition py (s : string) : str :=
  utf8_decode (map N_of_ascii (list_ascii_of_string s)).

Definition chr_comma : char := 44%N.
Definition chr_newline : char := 10%N.

Fixpoint str_eqb (a b : str) : bool :=
  match a, b with
  | [], [] => true
  | x :: a', y :: b' => (x =? y)%N && str_eqb a' b'
  | _, _ => false
  end.

(** [a < b] on strings: lexicographic on code points. *)
Fixpoint str_ltb (a b : str) : bool :=
  match a, b with
  | _, [] => false
  | [], _ :: _ => true
  | x :: a', y :: b' =>
    if (x <? y)%N then true else if (x =? y)%N then str_ltb a' b' else false
  end.

(** [str.isspace] on one code point (CPython's [_PyUnicode_IsWhitespace]). *)
Definition isspace (c : char) : bool :=
  ((9 <=? c) && (c <=? 13) || (28 <=? c) && (c <=? 32)
   || (c =? 133) || (c =? 160) || (c =? 5760)
   || (8192 <=? c) && (c <=? 8202)
   || (c =? 8232) || (c =? 8233) || (c =? 8239) || (c =? 8287) || (c =? 12288))%N.

Fixpoint lstrip (s : str) : str :=
  match s with
  | [] => []
  | c :: r => if isspace c then lstrip r else s
  end.

Definition rstrip (s : str) : str := rev (lstrip (rev s)).

(** [s.strip()] *)
Definition strip (s : str) : str := rstrip (lstrip s).

(** [s.split(sep)] for a one-character separator. *)
Fixpoint split (sep : char) (s : str) : list str :=
  match s with
  | [] => [[]]
  | c :: r =>
    if (c =? sep)%N then [] :: split sep r
    else match split sep r with
         | p :: ps => (c :: p) :: ps
         | [] => [[c]]
         end
  end.

(** [sep.join(parts)] on strings. *)
Fixpoint join (sep : str) (parts : list str) : str :=
  match parts with
  | [] => []
  | [p] => p
  | p :: ps => p ++ sep ++ join sep ps
  end.

(** [str(n)] for an integer. *)
Definition str_of_Z (n : Z) : str := py (NilZero.string_of_int (Z.to_int n)).

End PyStr.
Import PyStr.

(** ** Python values as [json.load] builds them

    Numbers are integers here: the knowledge files carry text, and the
    only thing the program would do with a float is print it (an embedding
    vector is kept abstract, see [vector] below). *)

Inductive json : Type :=
| JNull                                   (* None *)
| JBool (b : bool)
| JInt (n : Z)
| JStr (s : str)
| JList (l : list json)
| JDict (d : list (str * json)).          (* keys in insertion order *)

Definition dict := list (str * json).

(** [d.get(k)] as an option; [get] and [get_default] are the two call forms. *)
Fixpoint dict_get (k : str) (d : dict) : option json :=
  match d with
  | [] => None
  | (k', v) :: r => if str_eqb k k' then Some v else dict_get k r
  end.

Definition get (d : dict) (k : str) : json :=
  match dict_get k d with Some v => v | None => JNull end.

Definition get_default (d : dict) (k : str) (default : json) : json :=
  match dict_get k d with Some v => v | None => default end.

(** [d[k] = v]: an existing key keeps its place, a new key goes last. *)
Fixpoint dict_set (k : str) (v : json) (d : dict) : dict :=
  match d with
  | [] => [(k, v)]
  | (k', v') :: r => if str_eqb k k' then (k, v) :: r else (k', v') :: dict_set k v r
  end.

(** Truth value of an object, as [if x:] and [not x] take it. *)
Definition truthy (v : json) : bool :=
  match v with
  | JNull => false
  | JBool b => b
  | JInt n => negb (n =? 0)%Z
  | JStr s => match s with [] => false | _ => true end
  | JList l => match l with [] => false | _ => true end
  | JDict d => match d with [] => false | _ => true end
  end.

Definition isinstance_str (v : json) : bool :=
  match v with JStr _ => true | _ => false end.

(** ** Exceptions and results *)

Inductive exn : Type :=
| TypeError
| AttributeError
| IndexError
| KeyError
| RuntimeError (msg : str)
| HTTPException (status_code : Z) (detail : str)
| LibraryError (msg : str).   (* raised inside requests, json, chromadb or the
                                 completion client; [msg] is [str(exc)] *)

Inductive result (A : Type) : Type :=
| Ok (a : A)
| Raise (e : exn).
Arguments Ok {A} a.
Arguments Raise {A} e.

Definition rbind {A B} (r : result A) (k : A -> result B) : result B :=
  match r with
  | Ok a => k a
  | Raise e => Raise e
  end.

Notation "'let*' x ':=' e 'in' k" := (rbind e (fun x => k))
  (at level 10, x pattern, e at level 100, k at level 200).

(** A loop body run over a list, stopping at the first exception. *)
Fixpoint for_each {A B} (f : A -> result (list B)) (l : list A) : result (list B) :=
  match l with
  | [] => Ok []
  | a :: r =>
    let* out := f a in
    let* rest := for_each f r in
    Ok (out ++ rest)
  end.

(** [sep.join(items)] on arbitrary items: a non-string item is a [TypeError]. *)
Fixpoint as_strs (items : list json) : result (list str) :=
  match items with
  | [] => Ok []
  | JStr s :: r => let* ss := as_strs r in Ok (s :: ss)
  | _ :: _ => Raise TypeError
  end.

Definition join_items (sep : str) (items : list json) : result str :=
  let* ss := as_strs items in Ok (join sep ss).

(** ** The corpus normaliser ([rag_build.py]) *)

Section Normalizer.

(** [repr] of a [str]: quoting and escaping follow the Unicode character
    database, which is outside the program. *)
Variable str_repr : str -> str.

Fixpoint py_repr (v : json) : str :=
  match v with
  | JNull => py "None"
  | JBool true => py "True"
  | JBool false => py "False"
  | JInt n => str_of_Z n
  | JStr s => str_repr s
  | JList l => py "[" ++ join (py ", ") (map py_repr l) ++ py "]"
  | JDict d =>
    py "{" ++ join (py ", ")
                (map (fun kv => let '(k, x) := kv in str_repr k ++ py ": " ++ py_repr x) d)
           ++ py "}"
  end.

(** [str(v)], which is also what an f-string field [{v}] inserts. *)
Definition py_str (v : json) : str :=
  match v with
  | JStr s => s
  | _ => py_repr v
  end.

(** Lines 89-102: the lines collected in [text_parts] for one payload. *)
Definition text_parts (payload : json) : list str :=
  match payload with
  | JDict d =>
    flat_map (fun kv => let '(k, v) := kv in
                match v with
                | JList items => map (fun item => k ++ py ": " ++ py_str item) items
                | _ => [k ++ py ": " ++ py_str v]
                end) d
  | JList items => map py_str items
  | _ => [py_str payload]
  end.

(** Line 105. *)
Definition header (topic_name : json) (section : str) : str :=
  py "[" ++ py_str topic_name ++ py " / " ++ section ++ py "]".

(** Lines 108-112: [sources_str] of [flatten_kb]. *)
Definition sources_str (sources : json) : result str :=
  match sources with
  | JList items => join_items (py ", ") items
  | JStr s => Ok s
  | _ => Ok (py_str sources)
  end.

Definition passage : Type := str * dict.

(** One iteration of the outer loop of [flatten_kb]. *)
Definition flatten_topic (topic : dict) : result (list passage) :=
  let topic_id := get topic (py "topic_id") in
  let topic_name := get topic (py "topic_name") in
  let sources := get_default topic (py "sources") (JList []) in
  let data := get_default topic (py "data") (JDict []) in
  match data with
  | JDict sections =>
    for_each (fun sp => let '(section, payload) := sp in
      let content :=
        header topic_name section ++ [chr_newline]
          ++ join [chr_newline] (text_parts payload) in
      let* s := sources_str sources in
      let metadata :=
        [ (py "topic_id", topic_id);
          (py "topic_name", topic_name);
          (py "section", JStr section);
          (py "sources", JStr s) ] in
      Ok [(content, metadata)]) sections
  | _ => Ok []
  end.

(** [flatten_kb(topics)], the passages it yields in order; a topic that is
    not a mapping has no [.get] ([AttributeError]).  The generator is
    consumed to its end by its only caller before anything else happens,
    so an exception raised midway leaves nothing of the earlier passages. *)
Definition flatten_kb (topics : list json) : result (list passage) :=
  for_each (fun topic =>
    match topic with
    | JDict t => flatten_topic t
    | _ => Raise AttributeError
    end) topics.

(** Lines 153-158: what [meta] is after the [sources] conversion. *)
Definition convert_sources (meta : dict) : result dict :=
  let sources := get meta (py "sources") in
  if truthy sources then
    match sources with
    | JList items =>
      let* s := join_items (py ", ") items in
      Ok (dict_set (py "sources") (JStr s) meta)
    | JStr _ => Ok meta
    | _ => Ok (dict_set (py "sources") (JStr (py_str sources)) meta)
    end
  else Ok meta.

(** One iteration of the loop of [flatten_mb]. *)
Definition flatten_chunk (item : dict) : result (list passage) :=
  let text := get item (py "chunk_text") in
  let meta := get_default item (py "metadata") (JDict []) in
  if negb (truthy text) || negb (isinstance_str text) then Ok []
  else
    match text, meta with
    | JStr t, JDict m => let* m' := convert_sources m in Ok [(t, m')]
    | _, _ => Raise AttributeError
    end.

Definition flatten_mb (chunks : list json) : result (list passage) :=
  for_each (fun item =>
    match item with
    | JDict i => flatten_chunk i
    | _ => Raise AttributeError
    end) chunks.

End Normalizer.

(** ** Stateful code: a state and exception monad

    A computation takes the state, returns a value or raises, and leaves a
    state behind in both cases: what was written before an exception stays
    written. *)

Definition M (S A : Type) : Type := S -> result A * S.

Definition ret {S A} (a : A) : M S A := fun s => (Ok a, s).

Definition raise {S A} (e : exn) : M S A := fun s => (Raise e, s).

Definition bind {S A B} (m : M S A) (k : A -> M S B) : M S B :=
  fun s =>
    match m s with
    | (Ok a, s') => k a s'
    | (Raise e, s') => (Raise e, s')
    end.

Definition lift {S A} (r : result A) : M S A := fun s => (r, s).

Declare Scope monad_scope.
Delimit Scope monad_scope with monad.
Notation "x <- m ;; k" := (bind m (fun x => k))
  (at level 61, m at next level, right associativity) : monad_scope.
Notation "m ;; k" := (bind m (fun _ => k))
  (at level 61, right associativity) : monad_scope.

(** ** The embedding gateway and the vector index *)

Section Index.

(** An embedding vector is opaque to the program: it goes from the gateway
    to the store and back untouched. *)
Variable vector : Type.

(** What [requests.post(f"{OLLAMA_BASE_URL}/api/embeddings", json={...})]
    gives for a prompt: it raises (gateway unreachable), or answers with a
    status code, a body text and whatever
    [ollama_response.json()["embedding"]] evaluates to: a vector, or an
    exception with the given [str(exc)]. *)
Record response : Type := {
  status_code : Z;
  text : str;
  json_embedding : str + vector
}.

Inductive post_outcome : Type :=
| PostRaises (msg : str)
| Answered (r : response).

Record entry : Type := {
  entry_id : str;
  entry_embedding : vector;
  entry_document : str;
  entry_metadata : dict
}.

(** The persisted contents of the collection [health_kb]. *)
Definition collection := list entry.

(** A knowledge file as [load_kb] and [load_mb] find it. *)
Inductive file : Type :=
| Missing                       (* os.path.exists is false *)
| Unreadable                    (* open or json.load raises *)
| Content (data : json).

Definition load_kb (KB_FILE : file) : json :=
  match KB_FILE with
  | Missing => JList []
  | Unreadable => JList []
  | Content (JDict d) => get_default d (py "knowledge_base") (JList [])
  | Content _ => JList []       (* data.get raises, caught by the except *)
  end.

Definition load_mb (MB_FILE : file) : json :=
  match MB_FILE with
  | Missing => JList []
  | Unreadable => JList []
  | Content (JList l) => JList l
  | Content _ => JList []
  end.

(** [for x in v]: the items a loop over [v] visits. *)
Definition py_iter (v : json) : result (list json) :=
  match v with
  | JList l => Ok l
  | JDict d => Ok (map (fun kv => JStr (fst kv)) d)
  | JStr s => Ok (map (fun c => JStr [c]) s)
  | _ => Raise TypeError
  end.

(** [docs[i : i + batch_size] for i in range(0, len(docs), batch_size)] *)
Fixpoint batches_fuel {A} (fuel batch_size : nat) (l : list A) : list (list A) :=
  match fuel, l with
  | _, [] => []
  | O, _ => []
  | S fuel', _ => firstn batch_size l :: batches_fuel fuel' batch_size (skipn batch_size l)
  end.

Definition batches {A} (batch_size : nat) (l : list A) : list (list A) :=
  batches_fuel (List.length l) batch_size l.

Section Builder.

Variable str_repr : str -> str.
Variable requests_post : str -> post_outcome.

(** The store's side of [collection.delete(where={})] and of
    [collection.add(...)]: whether the call raises, which the library
    decides.  A delete that does not raise wipes the collection ("This will
    wipe the collection"); an add that does not raise appends the entries,
    except that identifiers stay unique: an entry whose identifier the
    collection already holds is not added again.  The library in use,
    chromadb, checks the filter before it looks at the collection and
    rejects the empty filter [{}] with a [ValueError]: there the delete of
    line 170 raises on every collection ([Sample.delete_rejects] below), and
    lines 171-173 ignore it. *)
Variable delete_raises : collection -> bool.
Variable add_raises : collection -> list entry -> option str.

Definition has_id (c : collection) (id : str) : bool :=
  existsb (fun e => str_eqb id (entry_id e)) c.

(** Lines 198-204, the body of the inner loop for one document: [inr] the
    embedding, or [inl msg] when it raises an exception [exc] with
    [str(exc) = msg]. *)
Definition embed_doc (doc : str) : str + vector :=
  match requests_post doc with
  | PostRaises msg => inl msg
  | Answered r =>
    if negb (status_code r =? 200)%Z then inl (py "Error from Ollama: " ++ text r)
    else json_embedding r
  end.

(** Lines 195-206, one batch under its [try]: any exception becomes a
    [RuntimeError]. *)
Fixpoint embed_batch (batch_docs : list str) : result (list vector) :=
  match batch_docs with
  | [] => Ok []
  | doc :: r =>
    match embed_doc doc with
    | inl msg => Raise (RuntimeError (py "Error generating embeddings: " ++ msg))
    | inr v => let* vs := embed_batch r in Ok (v :: vs)
    end
  end.

Definition embed_all (docs : list str) : result (list vector) :=
  for_each embed_batch (batches 64 docs).

(** [f"doc-{i}" for i in range(len(docs))] *)
Definition doc_ids (n : nat) : list str :=
  map (fun i => py "doc-" ++ str_of_Z (Z.of_nat i)) (seq 0 n).

Fixpoint make_entries (ids : list str) (embeddings : list vector)
    (docs : list str) (metas : list dict) : list entry :=
  match ids, embeddings, docs, metas with
  | i :: ids', e :: es', d :: ds', m :: ms' =>
    {| entry_id := i; entry_embedding := e; entry_document := d; entry_metadata := m |}
      :: make_entries ids' es' ds' ms'
  | _, _, _, _ => []
  end.

(** Lines 169-173. *)
Definition clear_collection : M collection unit :=
  fun c => if delete_raises c then (Ok tt, c) else (Ok tt, []).

(** Line 210. *)
Definition collection_add (docs : list str) (metas : list dict) (ids : list str)
    (embeddings : list vector) : M collection unit :=
  fun c =>
    let entries := make_entries ids embeddings docs metas in
    match add_raises c entries with
    | Some msg => (Raise (LibraryError msg), c)
    | None => (Ok tt, c ++ filter (fun e => negb (has_id c (entry_id e))) entries)
    end.

(** Lines 178-181 and 183-186: the passages of each source. *)
Definition kb_passages (KB_FILE : file) : result (list passage) :=
  let* topics := py_iter (load_kb KB_FILE) in flatten_kb str_repr topics.

Definition mb_passages (MB_FILE : file) : result (list passage) :=
  let* chunks := py_iter (load_mb MB_FILE) in flatten_mb str_repr chunks.

(** [build_index()], on the two knowledge files as they are on disk.
    Console messages are not part of the model. *)
Definition build_index (KB_FILE MB_FILE : file) : M collection unit :=
  (clear_collection ;;
   kb <- lift (kb_passages KB_FILE) ;;
   mb <- lift (mb_passages MB_FILE) ;;
   let docs := map fst (kb ++ mb) in
   let metas := map snd (kb ++ mb) in
   match docs with
   | [] => ret tt
   | _ :: _ =>
     embeddings <- lift (embed_all docs) ;;
     let ids := doc_ids (List.length docs) in
     collection_add docs metas ids embeddings
   end)%monad.

End Builder.

(** ** Retrieval and prompt assembly ([app.py]) *)

Definition BAYMAX_SYSTEM_PROMPT : str :=
  py "Anda adalah Baymax, asisten kesehatan pribadi yang tenang dan empatik. "
  ++ py "Anda tidak mendiagnosis penyakit, tidak meresepkan obat, dan tidak memberikan rekomendasi medis yang bersifat spesifik. "
  ++ py "Tugas Anda adalah memberikan informasi umum, tips gaya hidup, dan pertolongan awal yang aman berdasarkan pertanyaan pengguna atau konteks yang diberikan. "
  ++ py "Jika pertanyaan berkaitan dengan gejala berat, Anda harus menyarankan untuk berkonsultasi langsung dengan tenaga medis atau layanan darurat. "
  ++ py "Tulislah jawaban dalam Bahasa Indonesia dengan 2–4 kalimat, kemudian berikan 2–3 bullet point saran jika relevan. "
  ++ py "Akhiri jawaban dengan pertanyaan singkat atau harapan baik.".

Definition nl : str := [chr_newline].

(** The separator between passages, ["\n\n---\n"]. *)
Definition context_separator : str := nl ++ nl ++ py "---" ++ nl.

(** The closing instructions of the grounded prompt. *)
Definition PETUNJUK : str :=
  py "[PETUNJUK]" ++ nl
  ++ py "Gunakan informasi dari [KONTEKS] untuk menjawab pertanyaan. Jika konteks tidak relevan, berikan jawaban umum sesuai kebijaksanaan Anda. "
  ++ py "Selalu cantumkan bagian 'Sumber:' di akhir jawaban yang berisi nama lembaga, dipisahkan oleh koma, dari sumber yang digunakan. "
  ++ py "Jika Anda tidak dapat menemukan jawaban yang relevan atau yakin, katakan bahwa Anda tidak tahu dan sarankan untuk berkonsultasi dengan tenaga medis.".

(** Members of a [set]: hashable values, equal as [==] has them
    ([True == 1]). *)
Definition hashable (v : json) : bool :=
  match v with
  | JList _ | JDict _ => false
  | _ => true
  end.

Definition py_num (v : json) : option Z :=
  match v with
  | JBool b => Some (Z.b2z b)
  | JInt n => Some n
  | _ => None
  end.

Definition py_eqb (a b : json) : bool :=
  match a, b with
  | JNull, JNull => true
  | JStr s, JStr t => str_eqb s t
  | _, _ =>
    match py_num a, py_num b with
    | Some x, Some y => (x =? y)%Z
    | _, _ => false
    end
  end.

(** [a < b]; a string against a number, or [None] against anything, is a
    [TypeError]. *)
Definition py_lt (a b : json) : result bool :=
  match a, b with
  | JStr s, JStr t => Ok (str_ltb s t)
  | _, _ =>
    match py_num a, py_num b with
    | Some x, Some y => Ok (x <? y)%Z
    | _, _ => Raise TypeError
    end
  end.

(** [source_set.add(x)]; the set is kept as the list of its members. *)
Definition set_add (x : json) (source_set : list json) : list json :=
  if existsb (py_eqb x) source_set then source_set else source_set ++ [x].

(** [source_set.update(items)] *)
Fixpoint set_update (items : list json) (source_set : list json) : result (list json) :=
  match items with
  | [] => Ok source_set
  | x :: r =>
    if hashable x then set_update r (set_add x source_set) else Raise TypeError
  end.

(** [sorted(source_set)].  The members are pairwise different, so any
    comparison sort yields the same list, and fails on the same sets: those
    with two members that [<] cannot compare. *)
Fixpoint insert_sorted (x : json) (l : list json) : result (list json) :=
  match l with
  | [] => Ok [x]
  | y :: r =>
    let* b := py_lt x y in
    if b then Ok (x :: l)
    else let* r' := insert_sorted x r in Ok (y :: r')
  end.

Fixpoint py_sorted (l : list json) : result (list json) :=
  match l with
  | [] => Ok []
  | x :: r => let* r' := py_sorted r in insert_sorted x r'
  end.

(** Lines 214-223, one iteration of the loop over [context_metas]. *)
Definition collect_sources (meta : json) (source_set : list json) : result (list json) :=
  match meta with
  | JDict m =>
    let sources := get m (py "sources") in
    if negb (truthy sources) then Ok source_set
    else
      match sources with
      | JList items => set_update items source_set
      | JStr s =>
        Ok (fold_left (fun acc part => set_add (JStr (strip part)) acc)
                      (split chr_comma s) source_set)
      | _ => Ok source_set
      end
  | _ => Raise AttributeError
  end.

Fixpoint collect_all (metas : list json) (source_set : list json) : result (list json) :=
  match metas with
  | [] => Ok source_set
  | meta :: r => let* s := collect_sources meta source_set in collect_all r s
  end.

(** [build_rag_prompt(user_question, context_docs, context_metas)] *)
Definition build_rag_prompt (user_question : str) (context_docs context_metas : json)
    : result (str * list json) :=
  let* docs := py_iter context_docs in
  let* context_section := join_items context_separator docs in
  let* metas := py_iter context_metas in
  let* source_set := collect_all metas [] in
  let* sorted_sources := py_sorted source_set in
  let prompt :=
    BAYMAX_SYSTEM_PROMPT ++ nl ++ nl
    ++ py "[KONTEKS]" ++ nl
    ++ context_section ++ nl ++ nl
    ++ py "[PERTANYAAN PENGGUNA]" ++ nl
    ++ user_question ++ nl ++ nl
    ++ PETUNJUK in
  Ok (prompt, sorted_sources).

(** *** The endpoints *)

(** Calls to the outside, in the order they are made. *)
Inductive call : Type :=
| EmbeddingCall (prompt : str)
| QueryCall (query_emb : vector) (n_results : Z)
| GenerationCall (messages : list (str * str)).

(** What [groq_client.chat.completions.create] gives: it raises, or
    returns a completion, of which the program reads the [message.content]
    of its choices. *)
Inductive completion : Type :=
| CreateRaises (msg : str)
| Completed (choices : list json).

Section Endpoints.

Variable requests_post : str -> post_outcome.
(** [kb_collection.query(query_embeddings=[e], n_results=k, include=...)] *)
Variable kb_collection_query : vector -> Z -> result dict.
Variable groq_create : list (str * str) -> completion.

Definition called (c : call) : M (list call) unit :=
  fun calls => (Ok tt, calls ++ [c]).

(** [v[0]] *)
Definition getitem0 (v : json) : result json :=
  match v with
  | JList (x :: _) => Ok x
  | JStr (c :: _) => Ok (JStr [c])
  | JList [] | JStr [] => Raise IndexError
  | JDict _ => Raise KeyError           (* the keys are strings *)
  | _ => Raise TypeError
  end.

(** [retrieve_context(query, k)] *)
Definition retrieve_context (query : str) (k : Z) : M (list call) (json * json) :=
  (called (EmbeddingCall query) ;;
   match requests_post query with
   | PostRaises msg => raise (LibraryError msg)
   | Answered ollama_response =>
     if negb (status_code ollama_response =? 200)%Z then
       raise (HTTPException 500 (py "Error from Ollama: " ++ text ollama_response))
     else
       match json_embedding ollama_response with
       | inl msg => raise (LibraryError msg)
       | inr query_emb =>
         called (QueryCall query_emb k) ;;
         results <- lift (kb_collection_query query_emb k) ;;
         docs <- lift (getitem0 (get_default results (py "documents") (JList [JList []]))) ;;
         metas <- lift (getitem0 (get_default results (py "metadatas") (JList [JList []]))) ;;
         ret (docs, metas)
       end
   end)%monad.

(** [(body.message or "").strip()] *)
Definition question_of (message : option str) : str :=
  strip (match message with Some (c :: s) => c :: s | _ => [] end).

(** Lines 279-287 and 309-317. *)
Definition generate (messages : list (str * str)) : M (list call) json :=
  (called (GenerationCall messages) ;;
   match groq_create messages with
   | CreateRaises msg => raise (HTTPException 500 (py "Error from Groq: " ++ msg))
   | Completed (answer :: _) => ret answer
   | Completed [] => raise IndexError
   end)%monad.

(** [chat_endpoint(body)], on [body.message]; the value is the content of
    the [JSONResponse]. *)
Definition chat_endpoint (message : option str) : M (list call) json :=
  let question := question_of message in
  match question with
  | [] => raise (HTTPException 400 (py "Message cannot be empty."))
  | _ :: _ =>
    let messages := [ (py "system", BAYMAX_SYSTEM_PROMPT); (py "user", question) ] in
    (answer <- generate messages ;;
     ret (JDict [(py "text", answer)]))%monad
  end.

(** [rag_endpoint(body)] *)
Definition rag_endpoint (message : option str) : M (list call) json :=
  let question := question_of message in
  match question with
  | [] => raise (HTTPException 400 (py "Message cannot be empty."))
  | _ :: _ =>
    (dm <- retrieve_context question 4 ;;
     ps <- lift (build_rag_prompt question (fst dm) (snd dm)) ;;
     let messages := [ (py "system", fst ps) ] in
     answer <- generate messages ;;
     ret (JDict [(py "text", answer); (py "sources", JList (snd ps))]))%monad
  end.

(** What the client gets.  [ChatBody] and [RagBody] (lines 247-252) declare
    [message: str], a required field, and the endpoints take their body as
    such a model (lines 264-265 and 291-292): a body without [message] does
    not validate, and the framework answers 422 without calling the
    endpoint; an [HTTPException] becomes a JSON error with its status, any
    other exception a 500. *)
Inductive reply : Type :=
| JSONReply (status : Z) (content : json)
| ValidationErrorReply
| ServerErrorReply.

Definition reply_status (r : reply) : Z :=
  match r with
  | JSONReply s _ => s
  | ValidationErrorReply => 422
  | ServerErrorReply => 500
  end.

Definition respond (r : result json) : reply :=
  match r with
  | Ok content => JSONReply 200 content
  | Raise (HTTPException s detail) => JSONReply s (JDict [(py "detail", JStr detail)])
  | Raise _ => ServerErrorReply
  end.

(** A POST to a route whose body carries [message] (a string) or lacks it. *)
Definition post_route (endpoint : option str -> M (list call) json)
    (message : option str) : reply * list call :=
  match message with
  | None => (ValidationErrorReply, [])
  | Some m => let '(r, calls) := endpoint (Some m) [] in (respond r, calls)
  end.

Definition post_api_chat := post_route chat_endpoint.
Definition post_api_ask_rag := post_route rag_endpoint.

End Endpoints.

End Index.

Arguments PostRaises {vector} msg.
Arguments EmbeddingCall {vector} prompt.
Arguments GenerationCall {vector} messages.

(** ** Cross-origin configuration ([app.py], lines 49 and 59-77) *)

(** [os.environ.get("ALLOWED_HOSTS", "localhost,127.0.0.1").split(",")], on
    the value of the variable, [None] when it is not set. *)
Definition ALLOWED_HOSTS (env : option str) : list str :=
  split chr_comma (match env with Some s => s | None => py "localhost,127.0.0.1" end).

(** Line 70. *)
Definition allowed_origins (hosts : list str) : list str :=
  map (fun host => py "https://" ++ host) hosts
  ++ map (fun host => py "http://" ++ host) hosts.

(** The [allow_origins] handed to the middleware.  [DEBUG_MODE] is taken as
    it is: line 48 computes it with [str.lower], which follows the Unicode
    character database. *)
Definition allow_origins (DEBUG_MODE : bool) (env : option str) : list str :=
  if DEBUG_MODE then [py "*"] else allowed_origins (ALLOWED_HOSTS env).

(** ** Speech synthesis ([app.py]) *)

(** Calls to the speech services, in the order they are made: the local
    server with the [model], [input] and [voice] of its payload (the other
    two fields are constants), ElevenLabs with the voice of its URL and the
    [text] of its payload. *)
Inductive tts_call : Type :=
| LocalTTSCall (model input voice : str)
| ElevenLabsCall (voice_id text : str).

Section Speech.

(** The bytes of an audio clip are opaque to the program. *)
Variable audio : Type.

(** [str.lower], which follows the Unicode character database. *)
Variable str_lower : str -> str.

(** The environment, [None] for a variable that is not set. *)
Variable TTS_MODEL : str.
Variable ELEVENLABS_API_KEY : option str.
Variable VOICE_ID_PRO : option str.
Variable VOICE_ID_MAX : option str.
Variable VOICE_ID_KIDS : option str.

(** Lines 355-359: the post to the local server followed by
    [raise_for_status]: [inr] the content of the response, or [inl msg] when
    either raises an exception [exc] with [str(exc) = msg]. *)
Variable local_tts_post : str -> str -> str -> str + audio.

(** What ElevenLabs answers. *)
Record tts_response : Type := {
  tts_status_code : Z;
  tts_text : str;
  tts_content : audio
}.

(** Lines 388-389, on the key, the voice and the text: [inl msg] when the
    post raises. *)
Variable elevenlabs_post : str -> str -> str -> str + tts_response.

(** [v or default] on an optional string. *)
Definition or_default (v : option str) (default : str) : str :=
  match v with
  | Some (c :: s) => c :: s
  | _ => default
  end.

(** [get_voice_id(mode)] *)
Definition get_voice_id (mode : option str) : result str :=
  let m := str_lower (or_default mode (py "pro")) in
  let vid :=
    if str_eqb m (py "max") then VOICE_ID_MAX
    else if str_eqb m (py "kids") then VOICE_ID_KIDS
    else VOICE_ID_PRO in
  match vid with
  | Some (c :: s) => Ok (c :: s)
  | _ => Raise (HTTPException 500
                  (py "Voice ID for mode '" ++ m ++ py "' is not configured."))
  end.

Definition tts_called (c : tts_call) : M (list tts_call) unit :=
  fun calls => (Ok tt, calls ++ [c]).

(** Lines 338-342. *)
Definition local_voice (mode : str) : str :=
  if str_eqb mode (py "pro") then py "ardhi"
  else if str_eqb mode (py "max") then py "alloy"
  else py "gadis".

(** [tts_endpoint(body)], on [body.text] and [body.mode]; the value is the
    content of the [StreamingResponse]. *)
Definition tts_endpoint (text mode : option str) : M (list tts_call) audio :=
  let text := question_of text in
  match text with
  | [] => raise (HTTPException 400 (py "Text cannot be empty."))
  | _ :: _ =>
    let mode := or_default mode (py "pro") in
    let voice := local_voice mode in
    (tts_called (LocalTTSCall TTS_MODEL text voice) ;;
     match local_tts_post TTS_MODEL text voice with
     | inr content => ret content
     | inl local_error =>
       match ELEVENLABS_API_KEY with
       | Some (c :: key) =>
         voice_id <- lift (get_voice_id (Some mode)) ;;
         tts_called (ElevenLabsCall voice_id text) ;;
         match elevenlabs_post (c :: key) voice_id text with
         | inl ex => raise (HTTPException 500 (py "TTS error: " ++ ex))
         | inr response =>
           if negb (tts_status_code response =? 200)%Z then
             raise (HTTPException (tts_status_code response)
                      (py "ElevenLabs returned error: " ++ tts_text response))
           else ret (tts_content response)
         end
       | _ =>
         raise (HTTPException 500
                  (py "Local TTS failed and no ElevenLabs API key configured: "
                   ++ local_error))
       end
     end)%monad
  end.

End Speech.

(** ** The local speech server ([tts_server.py]) *)

(** Lines 20-30. *)
Definition VOICE_MAPPING : dict :=
  [ (py "alloy", JStr (py "en-US-AriaNeural"));
    (py "echo", JStr (py "en-US-AndrewNeural"));
    (py "fable", JStr (py "en-US-EmmaNeural"));
    (py "onyx", JStr (py "en-US-BrianNeural"));
    (py "nova", JStr (py "en-US-JennyNeural"));
    (py "shimmer", JStr (py "en-US-MichelleNeural"));
    (py "gadis", JStr (py "id-ID-GadisNeural"));
    (py "ardhi", JStr (py "id-ID-ArdhiNeural")) ].

(** Line 36: the voice [create_speech] speaks with, for the [voice] of the
    request. *)
Definition edge_voice (voice : str) : json :=
  get_default VOICE_MAPPING voice (JStr (py "en-US-AriaNeural")).

(** [list_voices()] *)
Definition list_voices : json :=
  JDict [ (py "data",
           JList (map (fun kv => let '(voice_id, voice_name) := kv in
                         JDict [ (py "id", JStr voice_id);
                                 (py "name", voice_name);
                                 (py "object", JStr (py "voice")) ])
                      VOICE_MAPPING)) ].

(** ** Sample data: one run of each scenario of the design document *)

Module Sample.

(** [repr] of a string without quotes, backslashes or control characters. *)
Definition plain_repr (s : str) : str := py "'" ++ s ++ py "'".

Definition demam_topic : dict :=
  [ (py "topic_id", JStr (py "demam"));
    (py "topic_name", JStr (py "Demam"));
    (py "sources", JList [JStr (py "WHO"); JStr (py "Kemenkes")]);
    (py "data",
     JDict [ (py "gejala",
              JDict [(py "tanda", JList [JStr (py "suhu tinggi"); JStr (py "lemas")])]) ]) ].

Definition demam : json := JDict demam_topic.

(** Scenario 1: the topic as the design document gives it. *)
Definition demam_bare : json :=
  JDict [ (py "topic_name", JStr (py "Demam"));
          (py "data",
           JDict [ (py "gejala",
                    JDict [(py "tanda", JList [JStr (py "suhu tinggi"); JStr (py "lemas")])]) ]) ].

Definition chunk_empty : json :=
  JDict [ (py "chunk_text", JStr (py "")); (py "metadata", JDict []) ].

Definition chunk_air : json :=
  JDict [ (py "chunk_text", JStr (py "Minum air putih cukup"));
          (py "metadata", JDict [(py "sources", JList [JStr (py "WHO"); JStr (py "Kemenkes")])]) ].

Definition meta_who : dict :=
  [ (py "section", JStr (py "hidrasi"));
    (py "sources", JList [JStr (py "WHO"); JStr (py "Kemenkes")]) ].

Definition chunk_no_sources : json :=
  JDict [ (py "chunk_text", JStr (py "Minum air putih cukup"));
          (py "metadata", JDict [(py "topic", JStr (py "hidrasi"))]) ].

Definition chunk_empty_sources : json :=
  JDict [ (py "chunk_text", JStr (py "Minum air putih cukup"));
          (py "metadata", JDict [(py "sources", JList [])]) ].

Definition KB_FILE : file := Content (JDict [(py "knowledge_base", JList [demam])]).
Definition MB_FILE : file := Content (JList [chunk_empty; chunk_air]).

(** Embedding vectors of the sample runs. *)
Definition vec : Type := list Z.

Definition ok_response (v : vec) : response vec :=
  {| status_code := 200; text := py "{...}"; json_embedding := inr v |}.

Definition gateway_up (prompt : str) : post_outcome vec :=
  Answered (ok_response [Z.of_nat (List.length prompt); 1%Z]).

Definition gateway_error (prompt : str) : post_outcome vec :=
  Answered {| status_code := 500; text := py "model not found"; json_embedding := inl (py "'embedding'") |}.

Definition gateway_down (prompt : str) : post_outcome vec :=
  PostRaises (py "Connection refused").

(** Two stores.  The first is the one the comments of [build_index]
    expect: the delete goes through and wipes the collection.  The second
    is the library in use: the delete with the empty filter raises,
    whatever the collection holds. *)
Definition delete_wipes (c : collection vec) : bool := false.
Definition delete_rejects (c : collection vec) : bool := true.
Definition add_accepts (c : collection vec) (es : list (entry vec)) : option str := None.

Definition old_entry : entry vec :=
  {| entry_id := py "doc-0"; entry_embedding := [7%Z; 7%Z];
     entry_document := py "[Batuk / gejala]"; entry_metadata := [(py "sources", JStr (py "WHO"))] |}.

Definition empty_results : dict :=
  [ (py "ids", JList [JList []]);
    (py "documents", JList [JList []]);
    (py "metadatas", JList [JList []]) ].

Definition query_empty (e : vec) (k : Z) : result dict := Ok empty_results.

Definition passages_of (r : result (list passage)) : list passage :=
  match r with
  | Ok ps => ps
  | Raise _ => []
  end.

Definition groq_answers (messages : list (str * str)) : completion :=
  Completed [JStr (py "Minumlah air putih yang cukup.")].

(** A topic whose [sources] holds a number among its names. *)
Definition batuk_topic : dict :=
  [ (py "topic_id", JStr (py "batuk"));
    (py "topic_name", JStr (py "Batuk"));
    (py "sources", JList [JStr (py "WHO"); JInt 2020]);
    (py "data", JDict [(py "gejala", JStr (py "batuk kering"))]) ].

Definition chunk_bab : dict :=
  [ (py "chunk_text", JStr (py "Berjemur pagi"));
    (py "metadata",
     JDict [ (py "sources", JList [JStr (py "WHO"); JStr (py "Kemenkes")]);
             (py "bab", JInt 3) ]) ].

Definition chunk_null_metadata : dict :=
  [ (py "chunk_text", JStr (py "Berjemur pagi")); (py "metadata", JNull) ].

(** A gateway that answers 500 for one passage and embeds the others. *)
Definition gateway_flaky (prompt : str) : post_outcome vec :=
  if str_eqb prompt (py "Minum air putih cukup") then gateway_error prompt
  else gateway_up prompt.

(** [str.lower] on the letters A to Z. *)
Definition lower_ascii (s : str) : str :=
  map (fun c => if (65 <=? c) && (c <=? 90) then c + 32 else c)%N s.

(** Audio clips of the sample runs, and the two speech services. *)
Definition clip : Type := list N.

Definition local_up (model input voice : str) : str + clip := inr [73; 68; 51]%N.

Definition local_down (model input voice : str) : str + clip :=
  inl (py "All connection attempts failed").

Definition elevenlabs_answers (status : Z) (key voice_id text : str)
    : str + tts_response clip :=
  inr {| tts_status_code := status; tts_text := py "{...}"; tts_content := [73; 68; 51]%N |}.

End Sample.

(** * The vocabulary of the properties *)

Definition str_lt (a b : str) : Prop := str_ltb a b = true.

(** The first line of a text. *)
Definition first_line (s : str) : str := hd [] (split chr_newline s).

(** The shapes [sources] arrives in: absent, one string, or a sequence of
    strings. *)
Definition sources_shape (x : option json) : Prop :=
  x = None \/ (exists s, x = Some (JStr s)) \/ (exists ss, x = Some (JList (map JStr ss))).

(** A topic whose [sources], when it is a sequence, holds only strings:
    [", ".join] raises on anything else. *)
Definition valid_topic (topic : dict) : Prop :=
  forall items, dict_get (py "sources") topic = Some (JList items) ->
                exists ss, items = map JStr ss.

(** "The [sources] field of every emitted metadata is a flat string", for
    one traversal on one input. *)
Definition sources_field_is_flat
    (flatten : list json -> result (list passage)) (records : list json) : Prop :=
  forall ps text meta,
    flatten records = Ok ps -> In (text, meta) ps ->
    exists s, dict_get (py "sources") meta = Some (JStr s).

(** A record whose [chunk_text] is missing, empty or not a string. *)
Definition malformed (item : dict) : Prop :=
  forall c t, dict_get (py "chunk_text") item <> Some (JStr (c :: t)).

(** The collection after the clearing step of a build. *)
Definition cleared {vector} (delete_raises : collection vector -> bool)
    (c : collection vector) : collection vector :=
  if delete_raises c then c else [].

(** A message that is absent, empty or made of whitespace only. *)
Definition blank (message : option str) : Prop :=
  match message with
  | None => True
  | Some s => forallb isspace s = true
  end.

(** The gateway is unreachable, or answers with a status other than 200. *)
Definition gateway_fails {vector} (requests_post : str -> post_outcome vector)
    (query : str) : Prop :=
  match requests_post query with
  | PostRaises _ => True
  | Answered r => status_code r <> 200%Z
  end.

(** An embedding request that fails: the gateway fails, or its answer
    holds no embedding. *)
Definition embedding_fails {vector} (requests_post : str -> post_outcome vector)
    (doc : str) : Prop :=
  gateway_fails requests_post doc \/
  exists r msg, requests_post doc = Answered r /\ json_embedding r = inl msg.

(** The message both endpoints raise for a blank message. *)
Definition empty_message_error : exn :=
  HTTPException 400 (py "Message cannot be empty.").

(** The text of the prompt, around a context section. *)
Definition grounded_prompt (user_question context_section : str) : str :=
  BAYMAX_SYSTEM_PROMPT ++ nl ++ nl
  ++ py "[KONTEKS]" ++ nl
  ++ context_section ++ nl ++ nl
  ++ py "[PERTANYAAN PENGGUNA]" ++ nl
  ++ user_question ++ nl ++ nl
  ++ PETUNJUK.

(** The prompt with nothing between the context heading and the question:
    the directive, the empty context section, the question, the closing
    instructions. *)
Definition directive_and_question (user_question : str) : str :=
  BAYMAX_SYSTEM_PROMPT ++ nl ++ nl
  ++ py "[KONTEKS]" ++ nl
  ++ py "" ++ nl ++ nl
  ++ py "[PERTANYAAN PENGGUNA]" ++ nl
  ++ user_question ++ nl ++ nl
  ++ PETUNJUK.

(** The names one [sources] string holds: split on commas, trimmed. *)
Definition names_of (sources : str) : list str := map strip (split chr_comma sources).

(** The [sources] strings of the attributions; an attribution without
    [sources], or with the empty string, names no source. *)
Definition sources_strings (metas : list dict) : list str :=
  flat_map (fun m => match dict_get (py "sources") m with
                     | Some (JStr (c :: s)) => [c :: s]
                     | _ => []
                     end) metas.

Definition all_names (metas : list dict) : list str :=
  flat_map names_of (sources_strings metas).

(** An attribution whose [sources] is a string, or absent. *)
Definition string_sources (m : dict) : Prop :=
  match dict_get (py "sources") m with
  | None | Some (JStr _) => True
  | Some _ => False
  end.

(** The set and the sort of [build_rag_prompt], on strings alone. *)
Definition add_name (acc : list str) (x : str) : list str :=
  if existsb (str_eqb x) acc then acc else acc ++ [x].

Fixpoint insert_name (x : str) (l : list str) : list str :=
  match l with
  | [] => [x]
  | y :: r => if str_ltb x y then x :: l else y :: insert_name x r
  end.

Definition sort_names (l : list str) : list str := fold_right insert_name [] l.

(** A source name that survives the trip through the index: not empty, no
    comma, no whitespace at either end. *)
Definition clean_name (s : str) : Prop :=
  s <> [] /\ ~ In chr_comma s /\ strip s = s.

(** An attribution whose [sources] is absent, a string, or a value that
    [if sources:] takes as false. *)
Definition normalised_sources (m : dict) : Prop :=
  match dict_get (py "sources") m with
  | None | Some (JStr _) => True
  | Some v => truthy v = false
  end.

(** The sections of a topic: the items of its [data] when that is a
    mapping. *)
Definition sections_of (topic : dict) : list (str * json) :=
  match get_default topic (py "data") (JDict []) with
  | JDict sections => sections
  | _ => []
  end.

(** A sequence with an item that is not a string. *)
Definition has_non_string (items : list json) : Prop :=
  exists x, In x items /\ isinstance_str x = false.

(** The text of a record of the flat source, when it is a mapping whose
    [chunk_text] is a string that is not empty. *)
Definition usable_text (item : json) : list str :=
  match item with
  | JDict i =>
    match dict_get (py "chunk_text") i with
    | Some (JStr (c :: t)) => [c :: t]
    | _ => []
    end
  | _ => []
  end.

(** A structured file that is missing, unreadable, not a mapping, or has
    no [knowledge_base]. *)
Definition without_topics (f : file) : Prop :=
  match f with
  | Content (JDict d) => dict_get (py "knowledge_base") d = None
  | _ => True
  end.

(** A flat file that is missing, unreadable, not a list, or the empty
    list. *)
Definition without_chunks (f : file) : Prop :=
  match f with
  | Content (JList (_ :: _)) => False
  | _ => True
  end.

(** The gateway answers the prompt [doc] with status 200 and the embedding
    [v]. *)
Definition answered_with {vector} (requests_post : str -> post_outcome vector)
    (doc : str) (v : vector) : Prop :=
  exists r, requests_post doc = Answered r /\ status_code r = 200%Z /\ json_embedding r = inr v.

(** * Properties *)

Unset Implicit Arguments.

(** ** Strings *)

Example py_literals :
  py "A, b" = [65; 44; 32; 98]%N /\ py "2–4" = [50; 8211; 52]%N.
Proof. split; vm_compute; reflexivity. Qed.

Example split_strip_join :
  split chr_comma (py "who, Kemenkes") = [py "who"; py " Kemenkes"] /\
  split chr_comma (py "") = [py ""] /\
  strip (py "  B A	 ") = py "B A" /\
  join (py ", ") [py "WHO"; py "Kemenkes"] = py "WHO, Kemenkes".
Proof. repeat split; vm_compute; reflexivity. Qed.

Example str_of_Z_decimal :
  str_of_Z 120 = py "120" /\ str_of_Z (-7) = py "-7" /\ str_of_Z 0 = py "0".
Proof. repeat split; vm_compute; reflexivity. Qed.

Example py_repr_nested :
  py_repr Sample.plain_repr (JDict [(py "a", JList [JInt 1; JStr (py "b"); JNull; JBool true])])
  = py "{'a': [1, 'b', None, True]}".
Proof. vm_compute. reflexivity. Qed.

Lemma str_eqb_refl (a : str) : str_eqb a a = true.
Proof.
  induction a as [|x a IH]; simpl; [reflexivity|].
  now rewrite N.eqb_refl, IH.
Qed.

Lemma str_eqb_eq (a b : str) : str_eqb a b = true <-> a = b.
Proof.
  split.
  - revert b. induction a as [|x a IH]; intros [|y b] H; simpl in H;
      try discriminate; [reflexivity|].
    apply andb_true_iff in H as [Hx Hr].
    apply N.eqb_eq in Hx. subst y. f_equal. now apply IH.
  - intros ->. apply str_eqb_refl.
Qed.

Lemma str_eqb_neq (a b : str) : str_eqb a b = false <-> a <> b.
Proof.
  rewrite <- str_eqb_eq. destruct (str_eqb a b); split; congruence.
Qed.

Lemma str_ltb_irrefl (a : str) : str_ltb a a = false.
Proof.
  induction a as [|x a IH]; simpl; [reflexivity|].
  now rewrite N.ltb_irrefl, N.eqb_refl.
Qed.

Lemma str_ltb_trans (a b c : str) :
  str_ltb a b = true -> str_ltb b c = true -> str_ltb a c = true.
Proof.
  revert b c. induction a as [|x a IH]; intros [|y b] [|z c]; simpl;
    try discriminate; try reflexivity.
  destruct (N.ltb_spec x y) as [Hxy|Hxy].
  - intros _. destruct (N.ltb_spec y z) as [Hyz|Hyz].
    + intros _. destruct (N.ltb_spec x z); [reflexivity | lia].
    + destruct (N.eqb_spec y z) as [->|]; [|discriminate].
      intros _. destruct (N.ltb_spec x z); [reflexivity | lia].
  - destruct (N.eqb_spec x y) as [->|]; [|discriminate].
    intros Hab. destruct (N.ltb_spec y z) as [Hyz|Hyz]; [reflexivity|].
    destruct (N.eqb_spec y z) as [->|]; [|discriminate].
    now apply IH.
Qed.

Lemma str_ltb_total (a b : str) :
  str_ltb a b = true \/ a = b \/ str_ltb b a = true.
Proof.
  revert b. induction a as [|x a IH]; intros [|y b]; simpl; auto.
  destruct (N.ltb_spec x y) as [Hxy|Hxy]; [now left|].
  destruct (N.ltb_spec y x) as [Hyx|Hyx]; [now right; right|].
  assert (x = y) as -> by lia.
  rewrite N.eqb_refl.
  destruct (IH b) as [H | [-> | H]]; auto.
Qed.

Lemma str_ltb_asym (a b : str) :
  str_ltb a b = true -> str_ltb b a = false.
Proof.
  intros H. destruct (str_ltb b a) eqn:E; [|reflexivity].
  rewrite <- (str_ltb_irrefl a). symmetry. eapply str_ltb_trans; eauto.
Qed.

Lemma lstrip_nil_iff (s : str) : lstrip s = [] <-> forallb isspace s = true.
Proof.
  induction s as [|c s IH]; simpl; [tauto|].
  destruct (isspace c); simpl; [exact IH|].
  split; discriminate.
Qed.

Lemma lstrip_head (s : str) c r : lstrip s = c :: r -> isspace c = false.
Proof.
  induction s as [|x s IH]; simpl; [discriminate|].
  destruct (isspace x) eqn:E; [exact IH|].
  intros H. injection H as -> _. exact E.
Qed.

(** The strings [strip] empties are those of whitespace only. *)
Lemma strip_nil_iff (s : str) : strip s = [] <-> forallb isspace s = true.
Proof.
  unfold strip, rstrip. split.
  - intros H.
    assert (Hl : lstrip (rev (lstrip s)) = []).
    { destruct (lstrip (rev (lstrip s))) as [|c0 r0]; [reflexivity|].
      simpl in H. now destruct (rev r0). }
    apply lstrip_nil_iff in Hl.
    destruct (lstrip s) as [|c r] eqn:E; [now apply lstrip_nil_iff|].
    apply lstrip_head in E.
    rewrite forallb_forall in Hl.
    rewrite (Hl c) in E; [discriminate|].
    apply in_rev. rewrite rev_involutive. now left.
  - intros H. apply lstrip_nil_iff in H. now rewrite H.
Qed.

Lemma split_app_sep (c : char) (a b : str) :
  ~ In c a -> split c (a ++ c :: b) = a :: split c b.
Proof.
  induction a as [|x a IH]; simpl; intros H.
  - now rewrite N.eqb_refl.
  - destruct (N.eqb_spec x c) as [->|Hx]; [tauto|].
    rewrite IH by tauto. reflexivity.
Qed.

Lemma first_line_app (h body : str) :
  ~ In chr_newline h -> first_line (h ++ nl ++ body) = h.
Proof.
  intros H. unfold first_line, nl. simpl.
  now rewrite split_app_sep.
Qed.

(** ** Loops and dictionaries *)

Lemma for_each_app {A B} (f : A -> result (list B)) (l1 l2 : list A) :
  for_each f (l1 ++ l2) =
  let* a := for_each f l1 in let* b := for_each f l2 in Ok (a ++ b).
Proof.
  induction l1 as [|x l1 IH]; simpl.
  - destruct (for_each f l2); reflexivity.
  - destruct (f x) as [o|e]; simpl; [|reflexivity].
    rewrite IH. destruct (for_each f l1) as [a|e]; simpl; [|reflexivity].
    destruct (for_each f l2) as [b|e]; simpl; [|reflexivity].
    now rewrite app_assoc.
Qed.

Lemma for_each_Ok_inv {A B} (f : A -> result (list B)) (l : list A) (out : list B) :
  for_each f l = Ok out ->
  (forall a, In a l -> exists o, f a = Ok o /\ incl o out) /\
  (forall b, In b out -> exists a o, In a l /\ f a = Ok o /\ In b o).
Proof.
  revert out. induction l as [|x l IH]; simpl; intros out H.
  - injection H as <-. split; [intros a []|intros b []].
  - destruct (f x) as [o|e] eqn:Ex; simpl in H; [|discriminate].
    destruct (for_each f l) as [rest|e] eqn:Er; simpl in H; [|discriminate].
    injection H as <-. destruct (IH rest eq_refl) as [IH1 IH2]. split.
    + intros a [<-|Ha].
      * exists o. split; [exact Ex|]. intros b Hb. apply in_or_app. now left.
      * destruct (IH1 a Ha) as (o' & Ho' & Hincl). exists o'. split; [exact Ho'|].
        intros b Hb. apply in_or_app. right. now apply Hincl.
    + intros b Hb. apply in_app_or in Hb as [Hb|Hb].
      * exists x, o. auto.
      * destruct (IH2 b Hb) as (a & o' & Ha & Ho' & Hin). exists a, o'. auto.
Qed.

Lemma for_each_total {A B} (f : A -> result (list B)) (l : list A) :
  (forall a, In a l -> exists o, f a = Ok o) -> exists out, for_each f l = Ok out.
Proof.
  induction l as [|x l IH]; simpl; intros H; [now exists []|].
  destruct (H x (or_introl eq_refl)) as [o ->]. simpl.
  destruct IH as [rest ->]; [intros a Ha; apply H; now right|].
  simpl. eauto.
Qed.

Lemma dict_get_set_same (k : str) (v : json) (d : dict) :
  dict_get k (dict_set k v d) = Some v.
Proof.
  induction d as [|[k' v'] d IH]; simpl.
  - now rewrite str_eqb_refl.
  - destruct (str_eqb k k') eqn:E; simpl.
    + now rewrite str_eqb_refl.
    + now rewrite E.
Qed.

Lemma as_strs_map_JStr (ss : list str) : as_strs (map JStr ss) = Ok ss.
Proof.
  induction ss as [|s ss IH]; simpl; [reflexivity|].
  now rewrite IH.
Qed.

Lemma join_items_strs (sep : str) (ss : list str) :
  join_items sep (map JStr ss) = Ok (join sep ss).
Proof. unfold join_items. now rewrite as_strs_map_JStr. Qed.

(** ** The structured source: [flatten_kb] *)

Section NormalizerFacts.

Variable str_repr : str -> str.

Lemma header_cons (topic_name : json) (section : str) :
  header str_repr topic_name section =
  91%N :: py_str str_repr topic_name ++ py " / " ++ section ++ py "]".
Proof. reflexivity. Qed.

Lemma sources_str_valid (topic : dict) :
  valid_topic topic ->
  exists s, sources_str str_repr (get_default topic (py "sources") (JList [])) = Ok s.
Proof.
  intros Hv. unfold get_default.
  destruct (dict_get (py "sources") topic) as [v|] eqn:E.
  - destruct v as [| | | |items|]; try (eexists; reflexivity).
    destruct (Hv items E) as [ss ->]. simpl. rewrite join_items_strs. eauto.
  - eexists. reflexivity.
Qed.

Lemma flatten_topic_total (topic : dict) :
  valid_topic topic -> exists out, flatten_topic str_repr topic = Ok out.
Proof.
  intros Hv. unfold flatten_topic.
  destruct (get_default topic (py "data") (JDict [])); eauto.
  apply for_each_total. intros [section payload] _.
  destruct (sources_str_valid topic Hv) as [s ->]. simpl. eauto.
Qed.

Lemma flatten_kb_total (topics : list dict) :
  Forall valid_topic topics -> exists ps, flatten_kb str_repr (map JDict topics) = Ok ps.
Proof.
  intros Hv. apply for_each_total. intros a Ha.
  apply in_map_iff in Ha as (topic & <- & Ht).
  rewrite Forall_forall in Hv. now apply flatten_topic_total, Hv.
Qed.

(** A key whose value is a sequence gives a run of lines, one per element. *)
Lemma text_parts_sequence_value (kvs : dict) (key : str) (items : list json) :
  In (key, JList items) kvs ->
  exists before after,
    text_parts str_repr (JDict kvs) =
    before ++ map (fun item => key ++ py ": " ++ py_str str_repr item) items ++ after.
Proof.
  intros Hin. apply in_split in Hin as (l1 & l2 & ->).
  simpl. rewrite flat_map_app. simpl. eauto.
Qed.

Lemma flatten_topic_texts (topic : dict) (out : list passage) text meta :
  flatten_topic str_repr topic = Ok out -> In (text, meta) out ->
  exists section payload,
    text = header str_repr (get topic (py "topic_name")) section ++ nl
           ++ join nl (text_parts str_repr payload).
Proof.
  unfold flatten_topic. intros H Hin.
  destruct (get_default topic (py "data") (JDict [])) as [| | | | |sections];
    try (injection H as <-; now destruct Hin).
  apply for_each_Ok_inv in H as [_ H]. destruct (H _ Hin) as ([section payload] & o & _ & Ho & Hino).
  destruct (sources_str str_repr _); simpl in Ho; [|discriminate].
  injection Ho as <-. destruct Hino as [Heq|[]]. injection Heq as <- _.
  now exists section, payload.
Qed.

Lemma flatten_topic_section (topic : dict) (out : list passage) sections section payload :
  flatten_topic str_repr topic = Ok out ->
  dict_get (py "data") topic = Some (JDict sections) ->
  In (section, payload) sections ->
  exists meta,
    In (header str_repr (get topic (py "topic_name")) section ++ nl
          ++ join nl (text_parts str_repr payload), meta) out.
Proof.
  unfold flatten_topic, get_default. intros H Hd Hin. rewrite Hd in H.
  apply for_each_Ok_inv in H as [H _]. destruct (H _ Hin) as (o & Ho & Hincl).
  destruct (sources_str str_repr _) as [s|]; simpl in Ho; [|discriminate].
  injection Ho as <-. eexists. apply Hincl. now left.
Qed.

End NormalizerFacts.

(** C3. For every topic and section of a valid structured source,
    [flatten_kb] emits a passage whose text is not empty and starts with the
    header line "[<topic_name> / <section>]", followed by the payload's
    lines; a mapping payload gives, for a key whose value is a sequence, one
    line "key: element" per element.  The topic "Demam" with section
    "gejala" and data {"tanda": ["suhu tinggi", "lemas"]} yields exactly one
    passage, with header "[Demam / gejala]" and the two lines
    "tanda: suhu tinggi" and "tanda: lemas". *)
Theorem flatten_kb_header_and_lines (str_repr : str -> str) :
  (forall topics : list dict,
     Forall valid_topic topics ->
     exists ps : list passage,
       flatten_kb str_repr (map JDict topics) = Ok ps /\
       (forall text meta, In (text, meta) ps -> text <> []) /\
       (forall topic name sections section payload,
          In topic topics ->
          dict_get (py "topic_name") topic = Some (JStr name) ->
          dict_get (py "data") topic = Some (JDict sections) ->
          In (section, payload) sections ->
          let head := py "[" ++ name ++ py " / " ++ section ++ py "]" in
          exists text meta,
            In (text, meta) ps /\
            text = head ++ nl ++ join nl (text_parts str_repr payload) /\
            (~ In chr_newline name -> ~ In chr_newline section -> first_line text = head) /\
            (forall kvs key items,
               payload = JDict kvs -> In (key, JList items) kvs ->
               exists before after,
                 text_parts str_repr payload =
                 before ++ map (fun item => key ++ py ": " ++ py_str str_repr item) items
                        ++ after)))
  /\ flatten_kb str_repr [Sample.demam_bare] =
     Ok [ (py "[Demam / gejala]" ++ nl ++ py "tanda: suhu tinggi" ++ nl ++ py "tanda: lemas",
           [ (py "topic_id", JNull);
             (py "topic_name", JStr (py "Demam"));
             (py "section", JStr (py "gejala"));
             (py "sources", JStr (py "")) ]) ].
Proof.
  split; [|vm_compute; reflexivity].
  intros topics Hv. destruct (flatten_kb_total str_repr topics Hv) as [ps Hps].
  exists ps. split; [exact Hps|].
  unfold flatten_kb in Hps. apply for_each_Ok_inv in Hps as [Hall Hfrom]. split.
  - intros text meta Hin.
    destruct (Hfrom _ Hin) as (a & o & Ha & Ho & Hino).
    apply in_map_iff in Ha as (topic & <- & _).
    destruct (flatten_topic_texts str_repr _ _ _ _ Ho Hino) as (section & payload & ->).
    rewrite header_cons. discriminate.
  - intros topic name sections section payload Ht Hname Hdata Hsec head.
    destruct (Hall (JDict topic)) as (o & Ho & Hincl); [now apply in_map|].
    destruct (flatten_topic_section str_repr _ _ _ _ _ Ho Hdata Hsec) as [meta Hmeta].
    assert (Hhead : header str_repr (get topic (py "topic_name")) section = head).
    { unfold header, get. now rewrite Hname. }
    rewrite Hhead in Hmeta.
    exists (head ++ nl ++ join nl (text_parts str_repr payload)), meta.
    split; [now apply Hincl|]. split; [reflexivity|]. split.
    + intros Hn Hs. apply first_line_app. subst head.
      rewrite !in_app_iff. intros [H|[H|[H|[H|H]]]]; try tauto;
        revert H; vm_compute; intuition discriminate.
    + intros kvs key items -> Hin. now apply text_parts_sequence_value.
Qed.

Lemma valid_demam_topic : Forall valid_topic [Sample.demam_topic].
Proof.
  constructor; [|constructor]. intros items H. vm_compute in H.
  injection H as <-. now exists [py "WHO"; py "Kemenkes"].
Qed.

Lemma flatten_kb_header_and_lines_witness :
  exists ps : list passage,
    flatten_kb Sample.plain_repr (map JDict [Sample.demam_topic]) = Ok ps /\
    (forall text meta, In (text, meta) ps -> text <> []).
Proof.
  destruct (proj1 (flatten_kb_header_and_lines Sample.plain_repr) [Sample.demam_topic])
    as (ps & Hps & Hne & _).
  - exact valid_demam_topic.
  - exists ps. split; [exact Hps | exact Hne].
Defined.

(** ** Sources normalisation *)

Section SourcesFacts.

Variable str_repr : str -> str.

Lemma convert_sources_str (meta : dict) (s : str) :
  dict_get (py "sources") meta = Some (JStr s) ->
  convert_sources str_repr meta = Ok meta.
Proof.
  intros H. unfold convert_sources, get. rewrite H.
  now destruct s.
Qed.

Lemma convert_sources_absent (meta : dict) :
  dict_get (py "sources") meta = None ->
  convert_sources str_repr meta = Ok meta.
Proof.
  intros H. unfold convert_sources, get. now rewrite H.
Qed.

Lemma convert_sources_strs (meta : dict) (s : str) (ss : list str) :
  dict_get (py "sources") meta = Some (JList (map JStr (s :: ss))) ->
  convert_sources str_repr meta =
  Ok (dict_set (py "sources") (JStr (join (py ", ") (s :: ss))) meta).
Proof.
  intros H. unfold convert_sources, get. rewrite H.
  cbn [truthy map]. change (JStr s :: map JStr ss) with (map JStr (s :: ss)).
  now rewrite join_items_strs.
Qed.

(** Whatever [meta] holds, a second conversion changes nothing. *)
Lemma convert_sources_idempotent (meta meta' : dict) :
  convert_sources str_repr meta = Ok meta' ->
  convert_sources str_repr meta' = Ok meta'.
Proof.
  unfold convert_sources at 1. unfold get.
  destruct (dict_get (py "sources") meta) as [v|] eqn:E.
  - destruct (truthy v) eqn:Ht.
    + destruct v as [|b|n|s|items|d].
      * discriminate.
      * intros H. injection H as <-.
        eapply convert_sources_str, dict_get_set_same.
      * intros H. injection H as <-.
        eapply convert_sources_str, dict_get_set_same.
      * intros H. injection H as <-. eapply convert_sources_str, E.
      * destruct (join_items (py ", ") items) as [s|e]; simpl; [|discriminate].
        intros H. injection H as <-.
        eapply convert_sources_str, dict_get_set_same.
      * intros H. injection H as <-.
        eapply convert_sources_str, dict_get_set_same.
    + intros H. injection H as <-.
      unfold convert_sources, get. now rewrite E, Ht.
  - simpl. intros H. injection H as <-. now apply convert_sources_absent.
Qed.

End SourcesFacts.

(** C4. Sources normalisation is idempotent.  For a mapping whose
    [sources] is a sequence of strings, a single string or absent, the
    normalisation of the structured traversal gives a string that it maps
    to itself, and the normalisation of the flat traversal gives a metadata
    mapping that it leaves as it is. *)
Theorem sources_normalization_idempotent (str_repr : str -> str) (d : dict) :
  sources_shape (dict_get (py "sources") d) ->
  (exists s,
     sources_str str_repr (get_default d (py "sources") (JList [])) = Ok s /\
     sources_str str_repr (JStr s) = Ok s) /\
  (exists meta',
     convert_sources str_repr d = Ok meta' /\
     convert_sources str_repr meta' = Ok meta').
Proof.
  intros Hshape. split.
  - destruct (sources_str_valid str_repr d) as [s Hs].
    + intros items Hitems. rewrite Hitems in Hshape.
      destruct Hshape as [H | [[s H] | [ss H]]]; try discriminate.
      injection H as ->. now exists ss.
    + exists s. split; [exact Hs | reflexivity].
  - assert (H : exists meta', convert_sources str_repr d = Ok meta').
    { destruct Hshape as [H | [[s H] | [ss H]]].
      - rewrite convert_sources_absent; eauto.
      - erewrite convert_sources_str; eauto.
      - destruct ss as [|s ss].
        + unfold convert_sources, get. rewrite H. simpl. eauto.
        + erewrite convert_sources_strs; eauto. }
    destruct H as [meta' H]. exists meta'. split; [exact H|].
    eapply convert_sources_idempotent, H.
Qed.

Lemma sources_normalization_idempotent_witness :
  (exists s,
     sources_str Sample.plain_repr
       (get_default Sample.meta_who (py "sources") (JList [])) = Ok s /\
     sources_str Sample.plain_repr (JStr s) = Ok s) /\
  (exists meta',
     convert_sources Sample.plain_repr Sample.meta_who = Ok meta' /\
     convert_sources Sample.plain_repr meta' = Ok meta').
Proof.
  apply sources_normalization_idempotent.
  right. right. exists [py "WHO"; py "Kemenkes"]. vm_compute. reflexivity.
Defined.

(** ** The [sources] field of emitted metadata *)

Section FlatFacts.

Variable str_repr : str -> str.

Lemma flatten_kb_sources_flat (topics : list json) :
  sources_field_is_flat (flatten_kb str_repr) topics.
Proof.
  intros ps text meta Hps Hin. unfold flatten_kb in Hps.
  apply for_each_Ok_inv in Hps as [_ Hfrom].
  destruct (Hfrom _ Hin) as (a & o & _ & Ho & Hino).
  destruct a as [| | | | |topic]; try discriminate.
  unfold flatten_topic in Ho.
  destruct (get_default topic (py "data") (JDict [])) as [| | | | |sections];
    try (injection Ho as <-; now destruct Hino).
  apply for_each_Ok_inv in Ho as [_ Ho].
  destruct (Ho _ Hino) as ([section payload] & o' & _ & Ho' & Hin').
  destruct (sources_str str_repr _) as [s|]; simpl in Ho'; [|discriminate].
  injection Ho' as <-. destruct Hin' as [Heq|[]]. injection Heq as _ <-.
  now exists s.
Qed.

(** Each passage of [flatten_mb] comes from one record of the input. *)
Lemma flatten_mb_origin (chunks : list json) (ps : list passage) text meta :
  flatten_mb str_repr chunks = Ok ps -> In (text, meta) ps ->
  exists item m,
    In (JDict item) chunks /\
    get item (py "chunk_text") = JStr text /\ text <> [] /\
    get_default item (py "metadata") (JDict []) = JDict m /\
    convert_sources str_repr m = Ok meta.
Proof.
  intros Hps Hin. unfold flatten_mb in Hps.
  apply for_each_Ok_inv in Hps as [_ Hfrom].
  destruct (Hfrom _ Hin) as (a & o & Ha & Ho & Hino).
  destruct a as [| | | | |item]; try discriminate.
  unfold flatten_chunk in Ho.
  destruct (get item (py "chunk_text")) as [| | |t| |] eqn:Et;
    try (cbn [truthy isinstance_str negb] in Ho; rewrite orb_true_r in Ho;
         injection Ho as <-; now destruct Hino).
  destruct t as [|c t]; [injection Ho as <-; now destruct Hino|].
  cbn [truthy isinstance_str negb orb] in Ho.
  destruct (get_default item (py "metadata") (JDict [])) as [| | | | |m] eqn:Em;
    try discriminate.
  destruct (convert_sources str_repr m) as [m'|] eqn:Ec; simpl in Ho; [|discriminate].
  injection Ho as <-. destruct Hino as [Heq|[]]. injection Heq as <- <-.
  exists item, m. repeat split; auto. discriminate.
Qed.

End FlatFacts.

(** C5, as the code has it.  Every record of the structured traversal
    carries a [sources] string, whatever the topic's [sources] was.  A record
    of the flat traversal carries a [sources] string when the input record
    had one string or a sequence of at least one string (joined with ", "),
    and carries no [sources] field at all when the input record had none. *)
Theorem emitted_sources_flat (str_repr : str -> str) :
  (forall topics : list json, sources_field_is_flat (flatten_kb str_repr) topics) /\
  (forall (chunks : list json) ps text meta,
     flatten_mb str_repr chunks = Ok ps -> In (text, meta) ps ->
     exists item m,
       In (JDict item) chunks /\
       get item (py "chunk_text") = JStr text /\
       get_default item (py "metadata") (JDict []) = JDict m /\
       (forall s, dict_get (py "sources") m = Some (JStr s) ->
                  dict_get (py "sources") meta = Some (JStr s)) /\
       (forall s ss, dict_get (py "sources") m = Some (JList (map JStr (s :: ss))) ->
                     dict_get (py "sources") meta = Some (JStr (join (py ", ") (s :: ss)))) /\
       (dict_get (py "sources") m = None -> dict_get (py "sources") meta = None)).
Proof.
  split; [apply flatten_kb_sources_flat|].
  intros chunks ps text meta Hps Hin.
  destruct (flatten_mb_origin str_repr _ _ _ _ Hps Hin) as (item & m & Hi & Ht & _ & Hm & Hc).
  exists item, m. repeat split; auto.
  - intros s Hs. rewrite (convert_sources_str str_repr _ _ Hs) in Hc.
    injection Hc as <-. exact Hs.
  - intros s ss Hs. rewrite (convert_sources_strs str_repr _ _ _ Hs) in Hc.
    injection Hc as <-. apply dict_get_set_same.
  - intros Hs. rewrite (convert_sources_absent str_repr _ Hs) in Hc.
    injection Hc as <-. exact Hs.
Qed.

Lemma emitted_sources_flat_witness :
  exists item m,
    In (JDict item) [Sample.chunk_air] /\
    get item (py "chunk_text") = JStr (py "Minum air putih cukup") /\
    get_default item (py "metadata") (JDict []) = JDict m /\
    (forall s, dict_get (py "sources") m = Some (JStr s) ->
               dict_get (py "sources") [(py "sources", JStr (py "WHO, Kemenkes"))]
               = Some (JStr s)) /\
    (forall s ss, dict_get (py "sources") m = Some (JList (map JStr (s :: ss))) ->
                  dict_get (py "sources") [(py "sources", JStr (py "WHO, Kemenkes"))]
                  = Some (JStr (join (py ", ") (s :: ss)))) /\
    (dict_get (py "sources") m = None ->
     dict_get (py "sources") [(py "sources", JStr (py "WHO, Kemenkes"))] = None).
Proof.
  apply (proj2 (emitted_sources_flat Sample.plain_repr) [Sample.chunk_air]
           [(py "Minum air putih cukup", [(py "sources", JStr (py "WHO, Kemenkes"))])]).
  - vm_compute. reflexivity.
  - now left.
Defined.

(** C5 as stated fails on the flat traversal: a record without [sources]
    is emitted with no [sources] field, and a record whose [sources] is the
    empty sequence is emitted with that sequence as it came. *)
Lemma flatten_mb_sources_not_flat :
  ~ sources_field_is_flat (flatten_mb Sample.plain_repr) [Sample.chunk_no_sources] /\
  ~ sources_field_is_flat (flatten_mb Sample.plain_repr) [Sample.chunk_empty_sources].
Proof.
  split; intros H.
  - destruct (H [(py "Minum air putih cukup", [(py "topic", JStr (py "hidrasi"))])]
                (py "Minum air putih cukup") [(py "topic", JStr (py "hidrasi"))])
      as [s Hs]; [vm_compute; reflexivity | now left |].
    vm_compute in Hs. discriminate.
  - destruct (H [(py "Minum air putih cukup", [(py "sources", JList [])])]
                (py "Minum air putih cukup") [(py "sources", JList [])])
      as [s Hs]; [vm_compute; reflexivity | now left |].
    vm_compute in Hs. discriminate.
Qed.

(** ** The flat source: [flatten_mb] *)

Section FlatTraversal.

Variable str_repr : str -> str.

Lemma flatten_chunk_malformed (item : dict) :
  malformed item -> flatten_chunk str_repr item = Ok [].
Proof.
  unfold malformed, flatten_chunk, get. intros H.
  destruct (dict_get (py "chunk_text") item) as [[| | |[|c t]| |]|];
    cbn [truthy isinstance_str negb]; rewrite ?orb_true_r; try reflexivity.
  now destruct (H c t).
Qed.

(** A malformed record contributes nothing and stops nothing. *)
Lemma flatten_mb_skips (before after : list json) (item : dict) :
  malformed item ->
  flatten_mb str_repr (before ++ JDict item :: after) =
  flatten_mb str_repr (before ++ after).
Proof.
  intros H. unfold flatten_mb. rewrite !for_each_app. cbn [for_each].
  rewrite (flatten_chunk_malformed item H).
  destruct (for_each _ before) as [a|e]; simpl; [|reflexivity].
  now destruct (for_each _ after).
Qed.

(** A record with a text and a sequence of at least one source. *)
Lemma flatten_chunk_verbatim (item m : dict) (c : char) (t s : str) (ss : list str) :
  dict_get (py "chunk_text") item = Some (JStr (c :: t)) ->
  dict_get (py "metadata") item = Some (JDict m) ->
  dict_get (py "sources") m = Some (JList (map JStr (s :: ss))) ->
  flatten_chunk str_repr item =
  Ok [(c :: t, dict_set (py "sources") (JStr (join (py ", ") (s :: ss))) m)].
Proof.
  intros Ht Hm Hs. unfold flatten_chunk, get, get_default. rewrite Ht, Hm.
  cbn [truthy isinstance_str negb orb].
  now rewrite (convert_sources_strs str_repr _ _ _ Hs).
Qed.

(** Scenario 2 of the design document. *)
Lemma flatten_mb_scenario :
  flatten_mb str_repr [Sample.chunk_empty; Sample.chunk_air] =
  Ok [(py "Minum air putih cukup", [(py "sources", JStr (py "WHO, Kemenkes"))])].
Proof. vm_compute. reflexivity. Qed.

End FlatTraversal.

(** C6.  A record of the flat source with a text and the empty list as
    [sources]: the text passes through, but the list-valued [sources] is
    not joined; the record is emitted with its metadata untouched, the
    empty list standing where [", ".join] of it, the empty string, was to
    be.  So it is on the record
    {"chunk_text": "Minum air putih cukup", "metadata": {"sources": []}}. *)
Theorem flatten_mb_empty_sources_list (str_repr : str -> str) :
  (forall (item m : dict) (c : char) (t : str),
     dict_get (py "chunk_text") item = Some (JStr (c :: t)) ->
     dict_get (py "metadata") item = Some (JDict m) ->
     dict_get (py "sources") m = Some (JList []) ->
     flatten_mb str_repr [JDict item] = Ok [(c :: t, m)]) /\
  flatten_mb str_repr [Sample.chunk_empty_sources] =
    Ok [(py "Minum air putih cukup", [(py "sources", JList [])])] /\
  join_items (py ", ") [] = Ok (py "") /\
  JList [] <> JStr (py "").
Proof.
  split; [|split; [vm_compute; reflexivity|]; split; [vm_compute; reflexivity | discriminate]].
  intros item m c t Ht Hm Hs.
  unfold flatten_mb. cbn [for_each]. unfold flatten_chunk, get, get_default.
  rewrite Ht, Hm. cbn [truthy isinstance_str negb orb].
  unfold convert_sources, get. rewrite Hs. reflexivity.
Qed.

Lemma flatten_mb_empty_sources_list_witness :
  flatten_mb Sample.plain_repr
    [JDict [ (py "chunk_text", JStr (py "Berjemur pagi"));
             (py "metadata", JDict [(py "sources", JList []); (py "bab", JInt 3)]) ]]
  = Ok [(py "Berjemur pagi", [(py "sources", JList []); (py "bab", JInt 3)])].
Proof.
  apply (proj1 (flatten_mb_empty_sources_list Sample.plain_repr)).
  - vm_compute. reflexivity.
  - vm_compute. reflexivity.
  - vm_compute. reflexivity.
Defined.

(** ** The index builder *)

Lemma batches_fuel_concat {A} (batch_size fuel : nat) (l : list A) :
  0 < batch_size -> List.length l <= fuel ->
  List.concat (batches_fuel fuel batch_size l) = l.
Proof.
  intros Hb. revert l. induction fuel as [|fuel IH]; intros l Hl.
  - destruct l; [reflexivity | simpl in Hl; lia].
  - destruct l as [|x l]; [reflexivity|].
    cbn [batches_fuel List.concat]. rewrite IH.
    + apply firstn_skipn.
    + rewrite length_skipn.
      change (List.length (x :: l)) with (S (List.length l)) in *. lia.
Qed.

(** The batches, put end to end, are the documents in their order. *)
Lemma batches_concat {A} (batch_size : nat) (l : list A) :
  0 < batch_size -> List.concat (batches batch_size l) = l.
Proof. intros Hb. now apply batches_fuel_concat. Qed.

Section BuilderFacts.

Variable vector : Type.
Variable str_repr : str -> str.
Variable requests_post : str -> post_outcome vector.
Variable delete_raises : collection vector -> bool.
Variable add_raises : collection vector -> list (entry vector) -> option str.

Lemma embed_batch_app (a b : list str) :
  embed_batch requests_post (a ++ b) =
  let* x := embed_batch requests_post a in let* y := embed_batch requests_post b in Ok (x ++ y).
Proof.
  induction a as [|doc a IH]; simpl.
  - now destruct (embed_batch requests_post b).
  - destruct (embed_doc requests_post doc) as [msg|v]; [reflexivity|].
    rewrite IH. destruct (embed_batch requests_post a) as [x|e]; simpl; [|reflexivity].
    now destruct (embed_batch requests_post b).
Qed.

(** Batching changes nothing: one request per document, in input order. *)
Lemma embed_all_sequential (docs : list str) : embed_all requests_post docs = embed_batch requests_post docs.
Proof.
  unfold embed_all.
  rewrite <- (batches_concat 64 docs) at 2 by lia.
  induction (batches 64 docs) as [|b bs IH]; simpl; [reflexivity|].
  rewrite embed_batch_app, IH. reflexivity.
Qed.

Lemma embed_batch_failure (docs : list str) (doc msg : str) :
  In doc docs -> embed_doc requests_post doc = inl msg ->
  exists msg', embed_batch requests_post docs =
               Raise (RuntimeError (py "Error generating embeddings: " ++ msg')).
Proof.
  induction docs as [|d docs IH]; intros Hin Hdoc; [destruct Hin|].
  cbn [embed_batch].
  destruct (embed_doc requests_post d) as [m|v] eqn:Ed; [eauto|].
  destruct Hin as [->|Hin]; [congruence|].
  destruct (IH Hin Hdoc) as [msg' ->]. simpl. eauto.
Qed.

Lemma embed_batch_success (docs : list str) :
  (forall doc, In doc docs -> exists v, embed_doc requests_post doc = inr v) ->
  exists vs, embed_batch requests_post docs = Ok vs.
Proof.
  induction docs as [|d docs IH]; intros H; [now exists []|].
  cbn [embed_batch]. destruct (H d (or_introl eq_refl)) as [v ->].
  destruct IH as [vs ->]; [intros doc Hd; apply H; now right|].
  simpl. eauto.
Qed.

Lemma embed_batch_length (docs : list str) (vs : list vector) :
  embed_batch requests_post docs = Ok vs -> List.length vs = List.length docs.
Proof.
  revert vs. induction docs as [|d docs IH]; intros vs H; simpl in H.
  - now injection H as <-.
  - destruct (embed_doc requests_post d) as [m|v]; [discriminate|].
    destruct (embed_batch requests_post docs) as [vs'|e]; simpl in H; [|discriminate].
    injection H as <-. simpl. now rewrite (IH vs' eq_refl).
Qed.

Lemma doc_ids_length (n : nat) : List.length (doc_ids n) = n.
Proof. unfold doc_ids. now rewrite length_map, length_seq. Qed.

Lemma doc_ids_nth (n i : nat) :
  i < n -> nth_error (doc_ids n) i = Some (py "doc-" ++ str_of_Z (Z.of_nat i)).
Proof.
  intros Hi. unfold doc_ids. rewrite nth_error_map, nth_error_seq.
  destruct (Nat.ltb_spec i n); [reflexivity | lia].
Qed.

Lemma make_entries_fields (n : nat) :
  forall ids (es : list vector) docs metas,
    List.length ids = n -> List.length es = n ->
    List.length docs = n -> List.length metas = n ->
    map (@entry_id vector) (make_entries ids es docs metas) = ids /\
    map (@entry_embedding vector) (make_entries ids es docs metas) = es /\
    map (@entry_document vector) (make_entries ids es docs metas) = docs /\
    map (@entry_metadata vector) (make_entries ids es docs metas) = metas.
Proof.
  induction n as [|n IH]; intros [|i ids] [|e es] [|d docs] [|m metas];
    simpl; try discriminate; intros H1 H2 H3 H4; [repeat split|].
  destruct (IH ids es docs metas) as (Hi & He & Hd & Hm); try lia.
  rewrite Hi, He, Hd, Hm. repeat split.
Qed.

Lemma embed_doc_fails (doc : str) :
  embedding_fails requests_post doc <-> exists msg, embed_doc requests_post doc = inl msg.
Proof.
  unfold embedding_fails, gateway_fails, embed_doc.
  destruct (requests_post doc) as [m|r].
  - split; [eauto | intros _; now left].
  - destruct (Z.eqb_spec (status_code r) 200) as [E|E]; cbn [negb].
    + split.
      * intros [H | (r' & msg & Hr & Hmsg)]; [contradiction|].
        injection Hr as <-. eauto.
      * intros [msg Hmsg]. right. eauto.
    + split; [eauto | intros _; now left].
Qed.

(** C1.  If the embedding request of any passage fails (the gateway is
    unreachable, answers with a status other than 200, or its answer holds
    no embedding), [build_index] aborts with a [RuntimeError], and nothing
    of the new build is persisted: the collection is left as the clearing
    step at the start of the build left it.  On the store in use the delete
    of the clearing step raises (the empty filter is rejected) and is
    ignored, so the collection holds after the failed build what it held
    before it; the same is true, on any store, of a collection that was
    empty. *)
Theorem build_index_embed_failure (KB_FILE MB_FILE : file) (c : collection vector)
    (kb mb : list passage) (doc : str) :
  kb_passages str_repr KB_FILE = Ok kb ->
  mb_passages str_repr MB_FILE = Ok mb ->
  In doc (map fst (kb ++ mb)) ->
  embedding_fails requests_post doc ->
  exists msg,
    build_index str_repr requests_post delete_raises add_raises KB_FILE MB_FILE c =
    (Raise (RuntimeError (py "Error generating embeddings: " ++ msg)),
     if delete_raises c then c else []) /\
    (delete_raises c = true \/ c = [] ->
     build_index str_repr requests_post delete_raises add_raises KB_FILE MB_FILE c =
     (Raise (RuntimeError (py "Error generating embeddings: " ++ msg)), c)).
Proof.
  intros Hkb Hmb Hin Hdoc. apply embed_doc_fails in Hdoc as [msg0 Hdoc].
  destruct (embed_batch_failure _ _ _ Hin Hdoc) as [msg Hfail].
  exists msg.
  assert (H : build_index str_repr requests_post delete_raises add_raises KB_FILE MB_FILE c =
              (Raise (RuntimeError (py "Error generating embeddings: " ++ msg)),
               if delete_raises c then c else [])).
  { unfold build_index, bind, clear_collection, lift.
    rewrite Hkb, Hmb.
    destruct (map fst (kb ++ mb)) as [|d ds] eqn:Ed; [destruct Hin|].
    rewrite embed_all_sequential, Hfail.
    now destruct (delete_raises c). }
  split; [exact H|].
  intros [Hd | ->]; rewrite H; [now rewrite Hd | now destruct (delete_raises [])].
Qed.

Lemma filter_fresh_nil (new : collection vector) :
  filter (fun e => negb (has_id (@nil (entry vector)) (entry_id e))) new = new.
Proof.
  induction new as [|e new IH]; [reflexivity|].
  cbn [filter]. change (has_id (@nil (entry vector)) (entry_id e)) with false.
  cbn [negb]. now rewrite IH.
Qed.

Lemma has_id_In (c : collection vector) (id : str) :
  has_id c id = true <-> In id (map (@entry_id vector) c).
Proof.
  unfold has_id. rewrite existsb_exists, in_map_iff. split.
  - intros (e & He & E). apply str_eqb_eq in E. eauto.
  - intros (e & E & He). exists e. split; [exact He|]. apply str_eqb_eq. now symmetry.
Qed.

Lemma filter_fresh_known (c new : collection vector) :
  incl (map (@entry_id vector) new) (map (@entry_id vector) c) ->
  filter (fun e => negb (has_id c (entry_id e))) new = [].
Proof.
  induction new as [|e new IH]; intros H; simpl; [reflexivity|].
  assert (He : has_id c (entry_id e) = true) by (apply has_id_In, H; now left).
  rewrite He. simpl. apply IH. intros x Hx. apply H. now right.
Qed.

(** A build that ends well has made one entry per passage, in input
    order, and has added to the cleared collection those whose identifier
    it did not hold. *)
Lemma build_index_Ok_inv (KB_FILE MB_FILE : file) (c c' : collection vector) :
  build_index str_repr requests_post delete_raises add_raises KB_FILE MB_FILE c = (Ok tt, c') ->
  exists kb mb new,
    kb_passages str_repr KB_FILE = Ok kb /\
    mb_passages str_repr MB_FILE = Ok mb /\
    c' = cleared delete_raises c
         ++ filter (fun e => negb (has_id (cleared delete_raises c) (entry_id e))) new /\
    map (@entry_document vector) new = map fst (kb ++ mb) /\
    map (@entry_metadata vector) new = map snd (kb ++ mb) /\
    map (@entry_id vector) new = doc_ids (List.length (kb ++ mb)).
Proof.
  unfold build_index, bind, clear_collection, lift, ret, collection_add.
  intros H.
  destruct (kb_passages str_repr KB_FILE) as [kb|e] eqn:Hkb;
    [|destruct (delete_raises c); discriminate].
  destruct (mb_passages str_repr MB_FILE) as [mb|e] eqn:Hmb;
    [|destruct (delete_raises c); discriminate].
  exists kb, mb.
  assert (Hc : (if delete_raises c then (Ok tt, c) else (Ok tt, []))
               = (@Ok unit tt, cleared delete_raises c))
    by (unfold cleared; now destruct (delete_raises c)).
  rewrite Hc in H. clear Hc.
  destruct (map fst (kb ++ mb)) as [|d ds] eqn:Ed.
  - injection H as <-. exists []. simpl. rewrite app_nil_r.
    apply map_eq_nil in Ed. rewrite Ed. repeat split.
  - rewrite <- Ed in H. rewrite embed_all_sequential in H.
    destruct (embed_batch requests_post (map fst (kb ++ mb))) as [vs|e] eqn:Hvs; [|discriminate].
    destruct (add_raises _ _); [discriminate|].
    injection H as <-. eexists. split; [reflexivity|]. split; [reflexivity|].
    split; [reflexivity|]. rewrite <- ?Ed.
    apply embed_batch_length in Hvs. rewrite length_map in Hvs.
    destruct (make_entries_fields (List.length (kb ++ mb))
                (doc_ids (List.length (map fst (kb ++ mb)))) vs
                (map fst (kb ++ mb)) (map snd (kb ++ mb)))
      as (Hi & _ & Hd & Hm); rewrite ?doc_ids_length, ?length_map; auto.
    rewrite length_map in Hi, Hd, Hm. auto.
Qed.

(** A build whose requests all succeed, and whose entries the store
    accepts, ends well. *)
Lemma build_index_succeeds (KB_FILE MB_FILE : file) (c : collection vector)
    (kb mb : list passage) :
  kb_passages str_repr KB_FILE = Ok kb ->
  mb_passages str_repr MB_FILE = Ok mb ->
  (forall doc, In doc (map fst (kb ++ mb)) -> exists v, embed_doc requests_post doc = inr v) ->
  (forall entries, add_raises (cleared delete_raises c) entries = None) ->
  exists c', build_index str_repr requests_post delete_raises add_raises KB_FILE MB_FILE c
             = (Ok tt, c').
Proof.
  intros Hkb Hmb Hemb Hadd.
  unfold build_index, bind, clear_collection, lift, ret, collection_add.
  assert (Hc : (if delete_raises c then (Ok tt, c) else (Ok tt, []))
               = (@Ok unit tt, cleared delete_raises c))
    by (unfold cleared; now destruct (delete_raises c)).
  rewrite Hc, Hkb, Hmb.
  destruct (map fst (kb ++ mb)) as [|d ds] eqn:Ed; [eauto|].
  rewrite embed_all_sequential.
  destruct (embed_batch_success (d :: ds) Hemb) as [vs ->].
  rewrite Hadd. eauto.
Qed.

End BuilderFacts.

(** The gateway answers 500 while the collection holds an entry of an
    earlier build: the build aborts and the entry is still there. *)
Lemma build_index_embed_failure_witness :
  exists msg,
    build_index Sample.plain_repr Sample.gateway_error Sample.delete_rejects
      Sample.add_accepts Sample.KB_FILE Sample.MB_FILE [Sample.old_entry] =
    (Raise (RuntimeError (py "Error generating embeddings: " ++ msg)), [Sample.old_entry]).
Proof.
  destruct (build_index_embed_failure Sample.vec Sample.plain_repr Sample.gateway_error
              Sample.delete_rejects Sample.add_accepts Sample.KB_FILE Sample.MB_FILE
              [Sample.old_entry]
              (Sample.passages_of (kb_passages Sample.plain_repr Sample.KB_FILE))
              (Sample.passages_of (mb_passages Sample.plain_repr Sample.MB_FILE))
              (py "Minum air putih cukup")) as (msg & _ & H).
  - vm_compute. reflexivity.
  - vm_compute. reflexivity.
  - vm_compute. right. left. reflexivity.
  - left. vm_compute. discriminate.
  - exists msg. apply H. left. reflexivity.
Defined.

(** After an add, the collection holds every identifier it was handed. *)
Lemma ids_held_after_add (vector : Type) (c new : collection vector) :
  incl (map (@entry_id vector) new)
       (map (@entry_id vector) (c ++ filter (fun e => negb (has_id c (entry_id e))) new)).
Proof.
  intros x Hx. apply in_map_iff in Hx as (e & <- & He).
  rewrite map_app, in_app_iff.
  destruct (has_id c (entry_id e)) eqn:Eh.
  - left. now apply has_id_In.
  - right. apply in_map, filter_In. split; [exact He | now rewrite Eh].
Qed.

(** C9.  Two builds, one after the other, on the same knowledge files,
    whatever the gateway answers, both ending well, on a store whose delete
    does not raise on a collection that holds entries only to go through
    on the next build (the library in use raises every time).  Each build
    hands to the store one entry per passage of the two sources, in input
    order, with the passage's text and metadata, and the entry of the
    passage at position [i] has the identifier "doc-<i>".  The collection
    holds the same texts and the same metadata after the second build as
    after the first, whatever it held before the first; when the second
    delete raises it is the same collection, entry for entry.  When the
    clearing step of the first build empties the collection, the
    collection holds, both times, exactly the entries of the passages, the
    one at position [i] under "doc-<i>". *)
Theorem rebuild_same_content (vector : Type) (str_repr : str -> str)
    (post1 post2 : str -> post_outcome vector)
    (del1 del2 : collection vector -> bool)
    (add1 add2 : collection vector -> list (entry vector) -> option str)
    (KB_FILE MB_FILE : file) (c0 c1 c2 : collection vector) :
  (del1 c0 = true -> c0 = [] \/ del2 c1 = true) ->
  build_index str_repr post1 del1 add1 KB_FILE MB_FILE c0 = (Ok tt, c1) ->
  build_index str_repr post2 del2 add2 KB_FILE MB_FILE c1 = (Ok tt, c2) ->
  exists (kb mb : list passage) (new1 new2 : collection vector),
    kb_passages str_repr KB_FILE = Ok kb /\
    mb_passages str_repr MB_FILE = Ok mb /\
    c1 = cleared del1 c0
         ++ filter (fun e => negb (has_id (cleared del1 c0) (entry_id e))) new1 /\
    c2 = cleared del2 c1
         ++ filter (fun e => negb (has_id (cleared del2 c1) (entry_id e))) new2 /\
    (forall new, new = new1 \/ new = new2 ->
       map (@entry_document vector) new = map fst (kb ++ mb) /\
       map (@entry_metadata vector) new = map snd (kb ++ mb) /\
       forall i e, nth_error new i = Some e ->
                   entry_id e = py "doc-" ++ str_of_Z (Z.of_nat i)) /\
    map (@entry_document vector) c2 = map (@entry_document vector) c1 /\
    map (@entry_metadata vector) c2 = map (@entry_metadata vector) c1 /\
    (del2 c1 = true -> c2 = c1) /\
    (cleared del1 c0 = [] ->
     map (@entry_document vector) c1 = map fst (kb ++ mb) /\
     map (@entry_metadata vector) c1 = map snd (kb ++ mb) /\
     forall c, c = c1 \/ c = c2 ->
       forall i e, nth_error c i = Some e ->
                   entry_id e = py "doc-" ++ str_of_Z (Z.of_nat i)).
Proof.
  intros Hd1 H1 H2.
  apply build_index_Ok_inv in H1 as (kb & mb & new1 & Hkb & Hmb & E1 & Hdoc1 & Hmeta1 & Hid1).
  apply build_index_Ok_inv in H2 as (kb' & mb' & new2 & Hkb' & Hmb' & E2 & Hdoc2 & Hmeta2 & Hid2).
  rewrite Hkb in Hkb'. injection Hkb' as <-. rewrite Hmb in Hmb'. injection Hmb' as <-.
  assert (Hpos : forall new : collection vector,
            map (@entry_id vector) new = doc_ids (List.length (kb ++ mb)) ->
            forall i e, nth_error new i = Some e ->
                        entry_id e = py "doc-" ++ str_of_Z (Z.of_nat i)).
  { intros new Hid i e Hnth.
    pose proof (map_nth_error (@entry_id vector) i new Hnth) as Hm.
    rewrite Hid in Hm.
    assert (Hi : i < List.length (doc_ids (List.length (kb ++ mb))))
      by (apply nth_error_Some; congruence).
    rewrite doc_ids_length in Hi.
    rewrite (doc_ids_nth _ _ Hi) in Hm. now injection Hm as <-. }
  assert (Hraise : del2 c1 = true -> c2 = c1).
  { intros Hd2. unfold cleared in E2. rewrite Hd2 in E2.
    rewrite filter_fresh_known in E2; [now rewrite app_nil_r in E2|].
    rewrite Hid2, <- Hid1, E1. apply ids_held_after_add. }
  assert (Hwipe : del2 c1 = false -> c2 = new2 /\ c1 = new1).
  { intros Hd2. unfold cleared in E2. rewrite Hd2, filter_fresh_nil in E2.
    split; [exact E2|].
    assert (C : cleared del1 c0 = []).
    { unfold cleared. destruct (del1 c0) eqn:Ed; [|reflexivity].
      destruct (Hd1 eq_refl) as [Hc | Hc]; [exact Hc | congruence]. }
    rewrite C, filter_fresh_nil in E1. exact E1. }
  exists kb, mb, new1, new2.
  split; [exact Hkb|]. split; [exact Hmb|]. split; [exact E1|]. split; [exact E2|].
  split.
  { intros new [-> | ->]; (split; [assumption|]; split; [assumption|]); now apply Hpos. }
  split.
  { destruct (del2 c1) eqn:Hd2; [now rewrite Hraise|].
    destruct (Hwipe eq_refl) as [-> ->]. congruence. }
  split.
  { destruct (del2 c1) eqn:Hd2; [now rewrite Hraise|].
    destruct (Hwipe eq_refl) as [-> ->]. congruence. }
  split; [exact Hraise|].
  intros C. rewrite C, filter_fresh_nil in E1. cbn [app] in E1.
  split; [congruence|]. split; [congruence|].
  intros c Hc. apply Hpos.
  destruct Hc as [-> | ->]; [congruence|].
  destruct (del2 c1) eqn:Hd2; [rewrite (Hraise eq_refl); congruence|].
  destruct (Hwipe eq_refl) as [-> _]. exact Hid2.
Qed.

(** A rebuild over an index that holds an entry of an earlier build, on a
    store that rejects the delete both times. *)
Lemma rebuild_same_content_witness :
  let build := build_index Sample.plain_repr Sample.gateway_up Sample.delete_rejects
                 Sample.add_accepts Sample.KB_FILE Sample.MB_FILE in
  let c1 := snd (build [Sample.old_entry]) in
  let c2 := snd (build c1) in
  map (@entry_document Sample.vec) c2 = map (@entry_document Sample.vec) c1 /\
  map (@entry_metadata Sample.vec) c2 = map (@entry_metadata Sample.vec) c1 /\
  c2 = c1.
Proof.
  intros build c1 c2.
  destruct (rebuild_same_content Sample.vec Sample.plain_repr
              Sample.gateway_up Sample.gateway_up Sample.delete_rejects Sample.delete_rejects
              Sample.add_accepts Sample.add_accepts Sample.KB_FILE Sample.MB_FILE
              [Sample.old_entry] c1 c2)
    as (kb & mb & new1 & new2 & _ & _ & _ & _ & _ & Hd & Hm & Hsame & _).
  - intros _. right. reflexivity.
  - vm_compute. reflexivity.
  - vm_compute. reflexivity.
  - split; [exact Hd|]. split; [exact Hm|]. apply Hsame. reflexivity.
Defined.

(** ** The endpoints *)

Lemma question_of_blank (message : option str) :
  blank message <-> question_of message = [].
Proof.
  unfold question_of. destruct message as [[|c s]|]; simpl blank.
  - split; reflexivity.
  - symmetry. apply strip_nil_iff.
  - split; [reflexivity | trivial].
Qed.

Section EndpointFacts.

Variable vector : Type.
Variable requests_post : str -> post_outcome vector.
Variable kb_collection_query : vector -> Z -> result dict.
Variable groq_create : list (str * str) -> completion.

Lemma retrieve_context_gateway_fails (query : str) (k : Z) (calls : list (call vector)) :
  gateway_fails requests_post query ->
  exists e,
    retrieve_context requests_post kb_collection_query query k calls =
    (Raise e, calls ++ [EmbeddingCall query]).
Proof.
  unfold gateway_fails, retrieve_context, bind, called, raise. intros H.
  destruct (requests_post query) as [msg|r]; [eauto|].
  destruct (Z.eqb_spec (status_code r) 200) as [E|E]; [contradiction|].
  simpl. eauto.
Qed.

(** C10, as the code has it.  Both endpoints, given a message that is
    empty, made of whitespace only, or [None], raise the 400 error
    "Message cannot be empty." before any embedding, query or generation
    call is made; a request whose body carries such a string gets that 400
    reply.  A request whose body has no [message] does not reach the
    endpoint: the body fails validation against the declared model and the
    reply is a 422, again with no call made. *)
Theorem blank_message_rejected (message : option str) :
  blank message ->
  chat_endpoint (vector := vector) groq_create message [] = (Raise empty_message_error, []) /\
  rag_endpoint requests_post kb_collection_query groq_create message []
    = (Raise empty_message_error, []) /\
  (forall m, message = Some m ->
     post_api_chat vector groq_create message
       = (JSONReply 400 (JDict [(py "detail", JStr (py "Message cannot be empty."))]), []) /\
     post_api_ask_rag requests_post kb_collection_query groq_create message
       = (JSONReply 400 (JDict [(py "detail", JStr (py "Message cannot be empty."))]), [])) /\
  (message = None ->
     post_api_chat vector groq_create message = (ValidationErrorReply, []) /\
     post_api_ask_rag requests_post kb_collection_query groq_create message
       = (ValidationErrorReply, [])).
Proof.
  intros Hb. apply question_of_blank in Hb.
  assert (Hc : chat_endpoint (vector := vector) groq_create message []
               = (Raise empty_message_error, []))
    by (unfold chat_endpoint; now rewrite Hb).
  assert (Hr : rag_endpoint requests_post kb_collection_query groq_create message []
               = (Raise empty_message_error, []))
    by (unfold rag_endpoint; now rewrite Hb).
  split; [exact Hc|]. split; [exact Hr|]. split.
  - intros m Hm. subst message. unfold post_api_chat, post_api_ask_rag, post_route.
    now rewrite Hc, Hr.
  - intros Hm. subst message. split; reflexivity.
Qed.

(** C7.  At query time, with a question that is not blank: if the
    embedding gateway is unreachable or answers with a status other than
    200, [retrieve_context] raises, [rag_endpoint] raises the same
    exception, the request is answered with status 500, and the embedding
    request is the only call made: no query of the index and no
    generation, hence no answer. *)
Theorem embedding_failure_fails_request (message : option str) :
  question_of message <> [] ->
  gateway_fails requests_post (question_of message) ->
  exists e,
    retrieve_context requests_post kb_collection_query (question_of message) 4 []
      = (Raise e, [EmbeddingCall (question_of message)]) /\
    rag_endpoint requests_post kb_collection_query groq_create message []
      = (Raise e, [EmbeddingCall (question_of message)]) /\
    (forall m, message = Some m ->
       exists rep,
         post_api_ask_rag requests_post kb_collection_query groq_create message
           = (rep, [EmbeddingCall (question_of message)]) /\
         reply_status rep = 500%Z /\
         forall content, rep <> JSONReply 200 content).
Proof.
  intros Hq Hfail.
  destruct (retrieve_context_gateway_fails (question_of message) 4 [] Hfail) as [e He].
  exists e. split; [exact He|].
  assert (Hr : rag_endpoint requests_post kb_collection_query groq_create message []
               = (Raise e, [EmbeddingCall (question_of message)])).
  { unfold rag_endpoint. destruct (question_of message) as [|c q] eqn:Eq; [congruence|].
    unfold bind. now rewrite He. }
  split; [exact Hr|].
  intros m ->. unfold post_api_ask_rag, post_route. rewrite Hr.
  eexists. split; [reflexivity|].
  unfold retrieve_context, bind, called, raise, gateway_fails in He, Hfail.
  destruct (requests_post (question_of (Some m))) as [msg|r].
  - injection He as <-. split; [reflexivity | discriminate].
  - destruct (Z.eqb_spec (status_code r) 200) as [E|E]; [contradiction|].
    simpl in He. injection He as <-. split; [reflexivity | discriminate].
Qed.

End EndpointFacts.

Lemma blank_message_rejected_witness :
  chat_endpoint (vector := Sample.vec) Sample.groq_answers (Some (py "  	 ")) []
    = (Raise empty_message_error, []) /\
  rag_endpoint Sample.gateway_up Sample.query_empty Sample.groq_answers (Some (py "  	 ")) []
    = (Raise empty_message_error, []).
Proof.
  destruct (blank_message_rejected Sample.vec Sample.gateway_up Sample.query_empty
              Sample.groq_answers (Some (py "  	 "))) as (Hc & Hr & _).
  - vm_compute. reflexivity.
  - split; [exact Hc | exact Hr].
Defined.

(** C10 as stated fails for an absent message: the reply is the 422 of the
    body validation, not the 400 of the endpoint. *)
Lemma absent_message_is_not_400 :
  post_api_chat Sample.vec Sample.groq_answers None = (ValidationErrorReply, []) /\
  post_api_ask_rag Sample.gateway_up Sample.query_empty Sample.groq_answers None
    = (ValidationErrorReply, []) /\
  reply_status ValidationErrorReply <> 400%Z.
Proof.
  split; [reflexivity|]. split; [reflexivity | discriminate].
Qed.

Lemma question_of_sample :
  question_of (Some (py " apa itu demam? ")) = py "apa itu demam?".
Proof. vm_compute. reflexivity. Qed.

Lemma embedding_failure_fails_request_witness :
  exists e,
    rag_endpoint Sample.gateway_down Sample.query_empty Sample.groq_answers
      (Some (py " apa itu demam? ")) []
    = (Raise e, [EmbeddingCall (py "apa itu demam?")]).
Proof.
  destruct (embedding_failure_fails_request Sample.vec Sample.gateway_down
              Sample.query_empty Sample.groq_answers (Some (py " apa itu demam? ")))
    as (e & _ & He & _).
  - rewrite question_of_sample. discriminate.
  - exact I.
  - exists e. rewrite question_of_sample in He. exact He.
Defined.

(** ** The prompt assembler *)

Lemma build_rag_prompt_empty (user_question : str) :
  build_rag_prompt user_question (JList []) (JList []) =
  Ok (directive_and_question user_question, []).
Proof. vm_compute. reflexivity. Qed.

(** C8.  An empty result set is not an error: on no documents and no
    metadata [build_rag_prompt] returns the prompt made of the directive
    and the question, and the empty list of sources.  So a question asked
    of an empty index goes all the way: retrieval returns the two empty
    lists, the model is given that prompt, and the reply carries its answer
    with [sources] equal to []. *)
Theorem empty_index_prompt (user_question : str) :
  build_rag_prompt user_question (JList []) (JList []) =
    Ok (directive_and_question user_question, []) /\
  forall (vector : Type)
         (requests_post : str -> post_outcome vector)
         (kb_collection_query : vector -> Z -> result dict)
         (groq_create : list (str * str) -> completion)
         (message : option str) (r : response vector) (v : vector)
         (results : dict) (answer : json) (rest : list json),
    question_of message = user_question ->
    user_question <> [] ->
    requests_post user_question = Answered r ->
    status_code r = 200%Z ->
    json_embedding r = inr v ->
    kb_collection_query v 4%Z = Ok results ->
    get_default results (py "documents") (JList [JList []]) = JList [JList []] ->
    get_default results (py "metadatas") (JList [JList []]) = JList [JList []] ->
    groq_create [(py "system", directive_and_question user_question)]
      = Completed (answer :: rest) ->
    retrieve_context requests_post kb_collection_query user_question 4 []
      = (Ok (JList [], JList []), [EmbeddingCall user_question; QueryCall v 4]) /\
    rag_endpoint requests_post kb_collection_query groq_create message []
      = (Ok (JDict [(py "text", answer); (py "sources", JList [])]),
         [ EmbeddingCall user_question; QueryCall v 4;
           GenerationCall [(py "system", directive_and_question user_question)] ]).
Proof.
  split; [apply build_rag_prompt_empty|].
  intros vector requests_post kb_collection_query groq_create message r v results
         answer rest Hq Hne Hpost Hst Hemb Hquery Hdocs Hmetas Hgroq.
  assert (Hret : retrieve_context requests_post kb_collection_query user_question 4 []
                 = (Ok (JList [], JList []), [EmbeddingCall user_question; QueryCall v 4])).
  { unfold retrieve_context, bind, called, lift, ret.
    rewrite Hpost, Hst, Hemb, Hquery, Hdocs, Hmetas. reflexivity. }
  split; [exact Hret|].
  unfold rag_endpoint. rewrite Hq.
  destruct user_question as [|c q]; [congruence|].
  unfold bind at 1. rewrite Hret.
  unfold lift at 1. cbn [fst snd]. rewrite build_rag_prompt_empty.
  unfold bind, generate, called, ret. cbn [fst snd]. rewrite Hgroq.
  reflexivity.
Qed.

Lemma empty_index_prompt_witness :
  rag_endpoint Sample.gateway_up Sample.query_empty Sample.groq_answers
    (Some (py " apa itu demam? ")) []
  = (Ok (JDict [ (py "text", JStr (py "Minumlah air putih yang cukup."));
                 (py "sources", JList []) ]),
     [ EmbeddingCall (py "apa itu demam?");
       QueryCall [14%Z; 1%Z] 4;
       GenerationCall [(py "system", directive_and_question (py "apa itu demam?"))] ]).
Proof.
  apply (proj2 (empty_index_prompt (py "apa itu demam?")) Sample.vec
           Sample.gateway_up Sample.query_empty Sample.groq_answers
           (Some (py " apa itu demam? ")) (Sample.ok_response [14%Z; 1%Z]) [14%Z; 1%Z]
           Sample.empty_results (JStr (py "Minumlah air putih yang cukup.")) []).
  - apply question_of_sample.
  - discriminate.
  - vm_compute. reflexivity.
  - reflexivity.
  - reflexivity.
  - reflexivity.
  - vm_compute. reflexivity.
  - vm_compute. reflexivity.
  - reflexivity.
Defined.

(** *** Sources of the grounded prompt *)

Lemma existsb_str_eqb (x : str) (acc : list str) :
  existsb (str_eqb x) acc = true <-> In x acc.
Proof.
  rewrite existsb_exists. split.
  - intros (y & Hy & E). apply str_eqb_eq in E. now subst.
  - intros H. exists x. split; [exact H | apply str_eqb_refl].
Qed.

Lemma set_add_JStr (x : str) (acc : list str) :
  set_add (JStr x) (map JStr acc) = map JStr (add_name acc x).
Proof.
  unfold set_add, add_name.
  assert (E : existsb (py_eqb (JStr x)) (map JStr acc) = existsb (str_eqb x) acc).
  { induction acc as [|y acc IH]; simpl; [reflexivity | now rewrite IH]. }
  rewrite E. destruct (existsb (str_eqb x) acc); [reflexivity|].
  now rewrite map_app.
Qed.

Lemma fold_set_add_JStr (parts : list str) (acc : list str) :
  fold_left (fun a part => set_add (JStr (strip part)) a) parts (map JStr acc) =
  map JStr (fold_left add_name (map strip parts) acc).
Proof.
  revert acc. induction parts as [|p parts IH]; intros acc; simpl; [reflexivity|].
  now rewrite set_add_JStr, IH.
Qed.

Lemma add_name_In (acc : list str) (x y : str) :
  In y (add_name acc x) <-> In y acc \/ y = x.
Proof.
  unfold add_name. destruct (existsb (str_eqb x) acc) eqn:E.
  - apply existsb_str_eqb in E. split; [auto | intros [H | ->]; auto].
  - rewrite in_app_iff. simpl. intuition.
Qed.

Lemma add_name_NoDup (acc : list str) (x : str) :
  NoDup acc -> NoDup (add_name acc x).
Proof.
  intros Hnd. unfold add_name. destruct (existsb (str_eqb x) acc) eqn:E; [exact Hnd|].
  assert (Hx : ~ In x acc).
  { intros H. apply existsb_str_eqb in H. congruence. }
  clear E. induction acc as [|a acc IH]; simpl.
  - constructor; [intros [] | constructor].
  - inversion Hnd as [|? ? Ha Hacc]; subst. constructor.
    + rewrite in_app_iff. simpl. intros [H | [H | []]]; [tauto|].
      subst. apply Hx. now left.
    + apply IH; [exact Hacc | intros H; apply Hx; now right].
Qed.

Lemma fold_add_name_In (names acc : list str) (y : str) :
  In y (fold_left add_name names acc) <-> In y acc \/ In y names.
Proof.
  revert acc. induction names as [|x names IH]; intros acc; simpl; [tauto|].
  rewrite IH, add_name_In. intuition.
Qed.

Lemma fold_add_name_NoDup (names acc : list str) :
  NoDup acc -> NoDup (fold_left add_name names acc).
Proof.
  revert acc. induction names as [|x names IH]; intros acc H; simpl; [exact H|].
  now apply IH, add_name_NoDup.
Qed.

(** On attributions whose sources are strings, the loop builds the set of
    their names. *)
Lemma collect_all_names (metas : list dict) (acc : list str) :
  Forall string_sources metas ->
  collect_all (map JDict metas) (map JStr acc) =
  Ok (map JStr (fold_left add_name (all_names metas) acc)).
Proof.
  intros H. revert acc. induction H as [|m metas Hm _ IH]; intros acc; [reflexivity|].
  cbn [map collect_all]. unfold collect_sources, get.
  unfold all_names, sources_strings. cbn [flat_map].
  unfold string_sources in Hm.
  destruct (dict_get (py "sources") m) as [[| | |[|c s]| |]|]; try contradiction;
    cbn [truthy negb rbind app flat_map]; try apply IH.
  rewrite fold_set_add_JStr, IH. unfold names_of at 2.
  now rewrite fold_left_app.
Qed.

Lemma insert_sorted_JStr (x : str) (l : list str) :
  insert_sorted (JStr x) (map JStr l) = Ok (map JStr (insert_name x l)).
Proof.
  induction l as [|y l IH]; simpl; [reflexivity|].
  destruct (str_ltb x y); [reflexivity|]. now rewrite IH.
Qed.

Lemma py_sorted_JStr (l : list str) :
  py_sorted (map JStr l) = Ok (map JStr (sort_names l)).
Proof.
  induction l as [|x l IH]; simpl; [reflexivity|].
  rewrite IH. simpl. apply insert_sorted_JStr.
Qed.

Lemma insert_name_In (x y : str) (l : list str) :
  In y (insert_name x l) <-> y = x \/ In y l.
Proof.
  induction l as [|a l IH]; simpl; [intuition|].
  destruct (str_ltb x a); simpl; [intuition|]. rewrite IH. intuition.
Qed.

Lemma sort_names_In (y : str) (l : list str) : In y (sort_names l) <-> In y l.
Proof.
  induction l as [|x l IH]; simpl; [tauto|].
  rewrite insert_name_In, IH. intuition.
Qed.

Lemma insert_name_sorted (x : str) (l : list str) :
  ~ In x l -> StronglySorted str_lt l -> StronglySorted str_lt (insert_name x l).
Proof.
  intros Hx Hs. induction Hs as [|a l Hs IH Ha]; simpl.
  - constructor; constructor.
  - destruct (str_ltb x a) eqn:E.
    + constructor; [now constructor|]. constructor; [exact E|].
      rewrite Forall_forall in *. intros z Hz.
      eapply str_ltb_trans; [exact E | now apply Ha].
    + assert (Hax : str_lt a x).
      { destruct (str_ltb_total x a) as [H | [H | H]]; [congruence | | exact H].
        subst. exfalso. apply Hx. now left. }
      constructor.
      * apply IH. intros H. apply Hx. now right.
      * rewrite Forall_forall in *. intros z Hz.
        apply insert_name_In in Hz as [-> | Hz]; [exact Hax | now apply Ha].
Qed.

Lemma sort_names_sorted (l : list str) :
  NoDup l -> StronglySorted str_lt (sort_names l).
Proof.
  induction 1 as [|x l Hx _ IH]; simpl; [constructor|].
  apply insert_name_sorted; [|exact IH]. now rewrite sort_names_In.
Qed.

(** A strictly sorted list is determined by its members. *)
Lemma sorted_unique (l1 l2 : list str) :
  StronglySorted str_lt l1 -> StronglySorted str_lt l2 ->
  (forall x, In x l1 <-> In x l2) -> l1 = l2.
Proof.
  intros H1. revert l2. induction H1 as [|a l1 H1 IH Ha]; intros l2 H2 Hmem.
  - destruct l2 as [|b l2]; [reflexivity|]. now destruct (proj2 (Hmem b) (or_introl eq_refl)).
  - destruct H2 as [|b l2 H2 Hb]; [now destruct (proj1 (Hmem a) (or_introl eq_refl))|].
    rewrite Forall_forall in Ha, Hb.
    assert (Hab : a = b).
    { destruct (proj1 (Hmem a) (or_introl eq_refl)) as [E | Hin]; [now symmetry|].
      destruct (proj2 (Hmem b) (or_introl eq_refl)) as [E | Hin']; [exact E|].
      pose proof (Hb a Hin) as Hlt. pose proof (Ha b Hin') as Hlt'.
      unfold str_lt in *. rewrite (str_ltb_asym _ _ Hlt) in Hlt'. discriminate. }
    subst b. f_equal. apply IH; [exact H2|].
    intros x. split; intros Hx.
    + destruct (proj1 (Hmem x) (or_intror Hx)) as [E | Hin]; [|exact Hin].
      subst x. pose proof (Ha a Hx) as Hlt. unfold str_lt in Hlt.
      rewrite str_ltb_irrefl in Hlt. discriminate.
    + destruct (proj2 (Hmem x) (or_intror Hx)) as [E | Hin]; [|exact Hin].
      subst x. pose proof (Hb a Hx) as Hlt. unfold str_lt in Hlt.
      rewrite str_ltb_irrefl in Hlt. discriminate.
Qed.

Lemma all_names_In (metas : list dict) (x : str) :
  In x (all_names metas) <->
  exists m c s, In m metas /\ dict_get (py "sources") m = Some (JStr (c :: s)) /\
                In x (names_of (c :: s)).
Proof.
  unfold all_names, sources_strings. rewrite in_flat_map. split.
  - intros (src & Hsrc & Hx). apply in_flat_map in Hsrc as (m & Hm & Hsrc).
    destruct (dict_get (py "sources") m) as [[| | |[|c s]| |]|] eqn:E; try now destruct Hsrc.
    destruct Hsrc as [<-|[]]. now exists m, c, s.
  - intros (m & c & s & Hm & E & Hx). exists (c :: s). split; [|exact Hx].
    apply in_flat_map. exists m. split; [exact Hm|]. rewrite E. now left.
Qed.

(** What [build_rag_prompt] returns on passages that are strings and
    attributions whose sources are strings. *)
Lemma build_rag_prompt_strings (user_question : str) (docs : list str) (metas : list dict) :
  Forall string_sources metas ->
  build_rag_prompt user_question (JList (map JStr docs)) (JList (map JDict metas)) =
  Ok (grounded_prompt user_question (join context_separator docs),
      map JStr (sort_names (fold_left add_name (all_names metas) []))).
Proof.
  intros H. unfold build_rag_prompt. cbn [py_iter rbind].
  rewrite join_items_strs. cbn [rbind].
  change (collect_all (map JDict metas) [])
    with (collect_all (map JDict metas) (map JStr [])).
  rewrite (collect_all_names metas [] H). cbn [rbind].
  rewrite py_sorted_JStr. cbn [rbind]. unfold grounded_prompt. reflexivity.
Qed.

Lemma sources_sorted_and_complete (metas : list dict) :
  StronglySorted str_lt (sort_names (fold_left add_name (all_names metas) [])) /\
  (forall x, In x (sort_names (fold_left add_name (all_names metas) []))
             <-> In x (all_names metas)).
Proof.
  split.
  - apply sort_names_sorted, fold_add_name_NoDup. constructor.
  - intros x. rewrite sort_names_In, fold_add_name_In. simpl. tauto.
Qed.

(** C2.  On attributions whose [sources] are strings, [build_rag_prompt]
    returns as sources the names of all of them (each string split on
    commas, each part trimmed), without repetition (equal strings are one
    name; case is not folded) and in increasing lexicographic order; the
    result is the same for any other list of the same attributions, in
    whatever order and however often repeated.  "B, A" and "A" give
    ["A", "B"]; "Kemenkes" and "who, Kemenkes" give ["Kemenkes", "who"];
    "who" and "WHO ,who" give ["WHO", "who"]. *)
Theorem build_rag_prompt_sources (user_question : str) (docs : list str) :
  (forall metas : list dict,
     Forall string_sources metas ->
     exists prompt ss,
       build_rag_prompt user_question (JList (map JStr docs)) (JList (map JDict metas))
         = Ok (prompt, map JStr ss) /\
       StronglySorted str_lt ss /\
       (forall x, In x ss <-> In x (all_names metas)) /\
       (forall metas' : list dict,
          (forall m, In m metas' <-> In m metas) ->
          build_rag_prompt user_question (JList (map JStr docs)) (JList (map JDict metas'))
            = Ok (prompt, map JStr ss))) /\
  (exists prompt,
     build_rag_prompt user_question (JList (map JStr docs))
       (JList [ JDict [(py "sources", JStr (py "B, A"))];
                JDict [(py "sources", JStr (py "A"))] ])
     = Ok (prompt, [JStr (py "A"); JStr (py "B")])) /\
  (exists prompt,
     build_rag_prompt user_question (JList (map JStr docs))
       (JList [ JDict [(py "sources", JStr (py "Kemenkes"))];
                JDict [(py "sources", JStr (py "who, Kemenkes"))] ])
     = Ok (prompt, [JStr (py "Kemenkes"); JStr (py "who")])) /\
  (exists prompt,
     build_rag_prompt user_question (JList (map JStr docs))
       (JList [ JDict [(py "sources", JStr (py "who"))];
                JDict [(py "sources", JStr (py "WHO ,who"))] ])
     = Ok (prompt, [JStr (py "WHO"); JStr (py "who")])).
Proof.
  split; [|split; [|split]].
  - intros metas H.
    destruct (sources_sorted_and_complete metas) as [Hsorted Hmem].
    exists (grounded_prompt user_question (join context_separator docs)),
           (sort_names (fold_left add_name (all_names metas) [])).
    split; [now apply build_rag_prompt_strings|]. split; [exact Hsorted|].
    split; [exact Hmem|].
    intros metas' Hsame.
    assert (H' : Forall string_sources metas').
    { rewrite Forall_forall in *. intros m Hm. now apply H, Hsame. }
    rewrite (build_rag_prompt_strings user_question docs metas' H').
    destruct (sources_sorted_and_complete metas') as [Hsorted' Hmem'].
    do 3 f_equal. apply sorted_unique; [exact Hsorted' | exact Hsorted |].
    intros x. rewrite Hmem, Hmem', !all_names_In.
    split; intros (m & c & s & Hm & E & Hx); exists m, c, s;
      (split; [now apply Hsame | now split]).
  - exists (grounded_prompt user_question (join context_separator docs)).
    change [ JDict [(py "sources", JStr (py "B, A"))]; JDict [(py "sources", JStr (py "A"))] ]
      with (map JDict [ [(py "sources", JStr (py "B, A"))]; [(py "sources", JStr (py "A"))] ]).
    rewrite build_rag_prompt_strings.
    + apply f_equal, f_equal. vm_compute. reflexivity.
    + repeat (constructor; try exact I).
  - exists (grounded_prompt user_question (join context_separator docs)).
    change [ JDict [(py "sources", JStr (py "Kemenkes"))];
             JDict [(py "sources", JStr (py "who, Kemenkes"))] ]
      with (map JDict [ [(py "sources", JStr (py "Kemenkes"))];
                        [(py "sources", JStr (py "who, Kemenkes"))] ]).
    rewrite build_rag_prompt_strings.
    + apply f_equal, f_equal. vm_compute. reflexivity.
    + repeat (constructor; try exact I).
  - exists (grounded_prompt user_question (join context_separator docs)).
    change [ JDict [(py "sources", JStr (py "who"))];
             JDict [(py "sources", JStr (py "WHO ,who"))] ]
      with (map JDict [ [(py "sources", JStr (py "who"))];
                        [(py "sources", JStr (py "WHO ,who"))] ]).
    rewrite build_rag_prompt_strings.
    + apply f_equal, f_equal. vm_compute. reflexivity.
    + repeat (constructor; try exact I).
Qed.

Lemma build_rag_prompt_sources_witness :
  exists prompt ss,
    build_rag_prompt (py "apa itu demam?") (JList (map JStr [py "[Demam / gejala]"]))
      (JList (map JDict [ [(py "sources", JStr (py "B, A"))];
                          [(py "sources", JStr (py "A"))] ]))
      = Ok (prompt, map JStr ss) /\
    StronglySorted str_lt ss /\
    (forall x, In x ss <->
               In x (all_names [ [(py "sources", JStr (py "B, A"))];
                                  [(py "sources", JStr (py "A"))] ])).
Proof.
  destruct (proj1 (build_rag_prompt_sources (py "apa itu demam?") [py "[Demam / gejala]"])
              [ [(py "sources", JStr (py "B, A"))]; [(py "sources", JStr (py "A"))] ])
    as (prompt & ss & Hp & Hs & Hm & _).
  - repeat (constructor; try exact I).
  - exists prompt, ss. split; [exact Hp|]. split; [exact Hs | exact Hm].
Defined.

(** * Properties read off the code *)

(** ** Strings: trimming, splitting and printing *)

Lemma lstrip_app_spaces (ws s : str) :
  forallb isspace ws = true -> lstrip (ws ++ s) = lstrip s.
Proof.
  induction ws as [|c ws IH]; simpl; [reflexivity|].
  intros H. apply andb_true_iff in H as [Hc Hws]. rewrite Hc. now apply IH.
Qed.

Lemma lstrip_app_nonblank (s t : str) :
  lstrip s <> [] -> lstrip (s ++ t) = lstrip s ++ t.
Proof.
  induction s as [|c s IH]; simpl; [congruence|].
  destruct (isspace c); [exact IH | reflexivity].
Qed.

Lemma lstrip_idempotent (s : str) : lstrip (lstrip s) = lstrip s.
Proof.
  induction s as [|c s IH]; simpl; [reflexivity|].
  destruct (isspace c) eqn:E; [exact IH|]. simpl. now rewrite E.
Qed.

Lemma rstrip_app_spaces (s ws : str) :
  forallb isspace ws = true -> rstrip (s ++ ws) = rstrip s.
Proof.
  intros H. unfold rstrip. rewrite rev_app_distr, lstrip_app_spaces; [reflexivity|].
  rewrite forallb_forall in *. intros x Hx. apply H. now apply in_rev.
Qed.

Lemma strip_surrounded (a s b : str) :
  forallb isspace a = true -> forallb isspace b = true ->
  strip (a ++ s ++ b) = strip s.
Proof.
  intros Ha Hb. unfold strip. rewrite lstrip_app_spaces by exact Ha.
  destruct (lstrip s) as [|c r] eqn:E.
  - apply lstrip_nil_iff in E.
    assert (H : lstrip (s ++ b) = []).
    { apply lstrip_nil_iff. rewrite forallb_app, E, Hb. reflexivity. }
    now rewrite H.
  - rewrite lstrip_app_nonblank by congruence. rewrite E.
    now apply rstrip_app_spaces.
Qed.

Lemma rstrip_head (c : char) (r : str) :
  isspace c = false -> exists u, rstrip (c :: r) = c :: u.
Proof.
  intros Hc. unfold rstrip. simpl.
  assert (H : exists u, lstrip (rev r ++ [c]) = u ++ [c]).
  { induction (rev r) as [|x l IH]; simpl.
    - rewrite Hc. now exists [].
    - destruct (isspace x); [exact IH|]. now exists (x :: l). }
  destruct H as [u ->]. rewrite rev_app_distr. simpl. eauto.
Qed.

Lemma rstrip_last (s : str) (c : char) (u : str) :
  rstrip s = u ++ [c] -> isspace c = false.
Proof.
  unfold rstrip. intros H.
  assert (H' : lstrip (rev s) = c :: rev u).
  { rewrite <- (rev_involutive (lstrip (rev s))), H, rev_app_distr. reflexivity. }
  exact (lstrip_head _ _ _ H').
Qed.

Lemma strip_idempotent (s : str) : strip (strip s) = strip s.
Proof.
  unfold strip. destruct (lstrip s) as [|c r] eqn:E; [reflexivity|].
  destruct (rstrip_head c r (lstrip_head _ _ _ E)) as [u Hu]. rewrite Hu.
  simpl. rewrite (lstrip_head _ _ _ E). rewrite <- Hu.
  unfold rstrip. rewrite rev_involutive, lstrip_idempotent. reflexivity.
Qed.

Lemma question_of_Some (s : str) : question_of (Some s) = strip s.
Proof. now destruct s. Qed.

Lemma split_no_sep (c : char) (s : str) : ~ In c s -> split c s = [s].
Proof.
  induction s as [|x s IH]; simpl; intros H; [reflexivity|].
  destruct (N.eqb_spec x c) as [->|Hx]; [tauto|].
  rewrite IH by tauto. reflexivity.
Qed.

Lemma split_not_nil (c : char) (s : str) : split c s <> [].
Proof.
  destruct s as [|x s]; simpl; [discriminate|].
  destruct (x =? c)%N; [discriminate|]. destruct (split c s); discriminate.
Qed.

Lemma join_cons_head (sep : str) (x : char) (p : str) (ps : list str) :
  join sep ((x :: p) :: ps) = x :: join sep (p :: ps).
Proof. now destruct ps. Qed.

(** Joining the pieces of a split with the separator gives the string
    back. *)
Lemma join_split (c : char) (s : str) : join [c] (split c s) = s.
Proof.
  induction s as [|x s IH]; [reflexivity|].
  cbn [split]. destruct (N.eqb_spec x c) as [->|Hx].
  - destruct (split c s) as [|p ps] eqn:E; [now destruct (split_not_nil _ _ E)|].
    change (join [c] ([] :: p :: ps)) with (c :: join [c] (p :: ps)). now rewrite IH.
  - destruct (split c s) as [|p ps] eqn:E; [now destruct (split_not_nil _ _ E)|].
    now rewrite join_cons_head, IH.
Qed.

Lemma split_pieces (c : char) (s : str) : Forall (fun p => ~ In c p) (split c s).
Proof.
  induction s as [|x s IH]; [constructor; [intros [] | constructor]|].
  cbn [split]. destruct (N.eqb_spec x c) as [->|Hx].
  - constructor; [intros [] | exact IH].
  - destruct (split c s) as [|p ps]; [constructor; [|constructor]|].
    + intros [H|[]]. congruence.
    + inversion IH as [|? ? Hp Hps]; subst. constructor; [|exact Hps].
      intros [H|H]; [congruence | tauto].
Qed.

Lemma names_of_space_cons (s : str) : names_of (32%N :: s) = names_of s.
Proof.
  unfold names_of. cbn [split]. change (32 =? chr_comma)%N with false. cbv iota.
  destruct (split chr_comma s) as [|p ps] eqn:E; [now destruct (split_not_nil _ _ E)|].
  reflexivity.
Qed.

(** Clean names joined with ", " are the names of the joined string. *)
Lemma names_of_join (ss : list str) :
  ss <> [] -> Forall clean_name ss -> names_of (join (py ", ") ss) = ss.
Proof.
  intros Hne H. induction H as [|s ss (Hs & Hc & Ht) Hss IH]; [congruence|].
  destruct ss as [|s' ss].
  - simpl. unfold names_of. rewrite split_no_sep by exact Hc. simpl. now rewrite Ht.
  - change (join (py ", ") (s :: s' :: ss))
      with (s ++ chr_comma :: 32%N :: join (py ", ") (s' :: ss)).
    unfold names_of. rewrite split_app_sep by exact Hc.
    cbn [map]. rewrite Ht. f_equal.
    change (map strip (split chr_comma (32%N :: join (py ", ") (s' :: ss))))
      with (names_of (32%N :: join (py ", ") (s' :: ss))).
    rewrite names_of_space_cons. apply IH. discriminate.
Qed.

Lemma join_clean_nonempty (ss : list str) :
  ss <> [] -> Forall clean_name ss -> join (py ", ") ss <> [].
Proof.
  intros Hne H. destruct H as [|s ss (Hs & _) _]; [congruence|].
  destruct s as [|c s]; [congruence|]. destruct ss; discriminate.
Qed.

Lemma utf8_decode_ascii (bs : list N) :
  Forall (fun b => (b < 128)%N) bs -> utf8_decode bs = bs.
Proof.
  induction 1 as [|b bs Hb _ IH]; [reflexivity|].
  cbn [utf8_decode]. apply N.ltb_lt in Hb. now rewrite Hb, IH.
Qed.

Lemma string_of_uint_ascii (d : Decimal.uint) :
  Forall (fun b => (b < 128)%N)
         (map N_of_ascii (list_ascii_of_string (NilEmpty.string_of_uint d))).
Proof.
  induction d; cbn [NilEmpty.string_of_uint list_ascii_of_string map];
    constructor; try exact IHd; reflexivity.
Qed.

Lemma string_of_int_ascii (d : Decimal.signed_int) :
  Forall (fun b => (b < 128)%N)
         (map N_of_ascii (list_ascii_of_string (NilZero.string_of_int d))).
Proof.
  assert (H : forall u, Forall (fun b => (b < 128)%N)
                (map N_of_ascii (list_ascii_of_string (NilZero.string_of_uint u)))).
  { intros u. destruct u; try apply string_of_uint_ascii.
    constructor; [reflexivity | constructor]. }
  destruct d as [u|u]; cbn [NilZero.string_of_int list_ascii_of_string map]; [apply H|].
  constructor; [reflexivity | apply H].
Qed.

(** Different integers print differently. *)
Lemma str_of_Z_inj (a b : Z) : str_of_Z a = str_of_Z b -> a = b.
Proof.
  unfold str_of_Z, py. rewrite !utf8_decode_ascii by apply string_of_int_ascii.
  intros H.
  assert (Hl : list_ascii_of_string (NilZero.string_of_int (Z.to_int a)) =
               list_ascii_of_string (NilZero.string_of_int (Z.to_int b))).
  { revert H. generalize (list_ascii_of_string (NilZero.string_of_int (Z.to_int a))).
    generalize (list_ascii_of_string (NilZero.string_of_int (Z.to_int b))).
    intros l2 l1. revert l2. induction l1 as [|x l1 IH]; intros [|y l2] H;
      try discriminate; [reflexivity|].
    simpl in H. injection H as Hx Hr. f_equal; [|now apply IH].
    now rewrite <- (ascii_N_embedding x), <- (ascii_N_embedding y), Hx. }
  apply (f_equal string_of_list_ascii) in Hl.
  rewrite !string_of_list_ascii_of_string in Hl.
  assert (Hn : forall z, Z.to_int z <> Decimal.Pos Decimal.Nil /\
                         Z.to_int z <> Decimal.Neg Decimal.Nil).
  { intros z. rewrite <- (DecimalZ.of_to z), DecimalZ.to_of.
    destruct (Z.to_int z) as [u|u]; simpl.
    - split; [|discriminate]. intros E. injection E as E.
      now apply DecimalFacts.unorm_nonnil in E.
    - destruct (Decimal.nzhead u) eqn:En; split; try discriminate. }
  apply DecimalZ.to_int_inj.
  assert (E : Some (Z.to_int a) = Some (Z.to_int b)).
  { rewrite <- (NilZero.isi (Z.to_int a)), <- (NilZero.isi (Z.to_int b)) by apply Hn.
    now rewrite Hl. }
  now injection E.
Qed.

(** ** Loops and dictionaries, continued *)

Lemma for_each_raises {A B} (f : A -> result (list B)) (before after : list A)
    (a : A) (e : exn) :
  f a = Raise e ->
  exists e', for_each f (before ++ a :: after) = Raise e' /\
             ((exists out, for_each f before = Ok out) -> e' = e).
Proof.
  intros Ha. rewrite for_each_app. cbn [for_each]. rewrite Ha.
  destruct (for_each f before) as [out|e0]; simpl.
  - exists e. split; reflexivity.
  - exists e0. split; [reflexivity|]. now intros [out H].
Qed.

Lemma as_strs_non_string (items : list json) :
  has_non_string items -> as_strs items = Raise TypeError.
Proof.
  intros (x & Hin & Hx). induction items as [|y items IH]; [destruct Hin|].
  destruct Hin as [->|Hin].
  - destruct x; try reflexivity. discriminate.
  - destruct y; try reflexivity. simpl. now rewrite (IH Hin).
Qed.

Lemma dict_get_set_other (k k' : str) (v : json) (d : dict) :
  k' <> k -> dict_get k' (dict_set k v d) = dict_get k' d.
Proof.
  intros Hk. induction d as [|[k0 v0] d IH]; simpl.
  - apply str_eqb_neq in Hk. now rewrite Hk.
  - destruct (str_eqb k k0) eqn:E; simpl.
    + apply str_eqb_eq in E. subst k0. apply str_eqb_neq in Hk. now rewrite Hk.
    + now rewrite IH.
Qed.

Lemma dict_set_keys (k : str) (v : json) (d : dict) :
  dict_get k d <> None -> map fst (dict_set k v d) = map fst d.
Proof.
  induction d as [|[k0 v0] d IH]; simpl; [congruence|].
  destruct (str_eqb k k0) eqn:E; simpl.
  - intros _. apply str_eqb_eq in E. now subst.
  - intros H. now rewrite IH.
Qed.

(** The four fields of the metadata [flatten_kb] builds. *)
Lemma kb_metadata_get (a b c d : json) :
  let meta := [ (py "topic_id", a); (py "topic_name", b);
                (py "section", c); (py "sources", d) ] in
  get meta (py "topic_id") = a /\ get meta (py "topic_name") = b /\
  get meta (py "section") = c /\ get meta (py "sources") = d /\
  map fst meta = [py "topic_id"; py "topic_name"; py "section"; py "sources"].
Proof. repeat split; vm_compute; reflexivity. Qed.

(** ** The structured source, passage by passage *)

Section StructuredPassages.

Variable str_repr : str -> str.

(** A passage of one topic: its section, its text and its metadata. *)
Lemma flatten_topic_passage (topic : dict) (out : list passage) text meta :
  flatten_topic str_repr topic = Ok out -> In (text, meta) out ->
  exists sections section payload s,
    get_default topic (py "data") (JDict []) = JDict sections /\
    In (section, payload) sections /\
    sources_str str_repr (get_default topic (py "sources") (JList [])) = Ok s /\
    text = header str_repr (get topic (py "topic_name")) section ++ nl
           ++ join nl (text_parts str_repr payload) /\
    meta = [ (py "topic_id", get topic (py "topic_id"));
             (py "topic_name", get topic (py "topic_name"));
             (py "section", JStr section);
             (py "sources", JStr s) ].
Proof.
  unfold flatten_topic. intros H Hin.
  destruct (get_default topic (py "data") (JDict [])) as [| | | | |sections];
    try (injection H as <-; now destruct Hin).
  apply for_each_Ok_inv in H as [_ H].
  destruct (H _ Hin) as ([section payload] & o & Hsec & Ho & Hino).
  destruct (sources_str str_repr _) as [s|]; simpl in Ho; [|discriminate].
  injection Ho as <-. destruct Hino as [Heq|[]]. injection Heq as <- <-.
  exists sections, section, payload, s. repeat split; auto.
Qed.

Lemma flatten_kb_passage (topics : list json) (ps : list passage) text meta :
  flatten_kb str_repr topics = Ok ps -> In (text, meta) ps ->
  exists topic out,
    In (JDict topic) topics /\ flatten_topic str_repr topic = Ok out /\ In (text, meta) out.
Proof.
  intros Hps Hin. unfold flatten_kb in Hps.
  apply for_each_Ok_inv in Hps as [_ Hfrom].
  destruct (Hfrom _ Hin) as (a & o & Ha & Ho & Hino).
  destruct a as [| | | | |topic]; try discriminate.
  now exists topic, o.
Qed.

Lemma flatten_topic_Ok (topic : dict) (out : list passage) :
  flatten_topic str_repr topic = Ok out ->
  map (fun p => (get (snd p) (py "topic_id"), get (snd p) (py "section"))) out =
  map (fun sp => (get topic (py "topic_id"), JStr (fst sp))) (sections_of topic).
Proof.
  unfold flatten_topic, sections_of.
  destruct (get_default topic (py "data") (JDict [])) as [| | | | |sections];
    try (intros H; now injection H as <-).
  revert out. induction sections as [|[section payload] sections IH]; intros out H.
  - now injection H as <-.
  - cbn [for_each] in H.
    destruct (sources_str str_repr _) as [s|]; [|discriminate].
    cbn [rbind] in H.
    destruct (for_each _ sections) as [rest|] eqn:Er; [|discriminate].
    cbn [rbind] in H. injection H as <-.
    cbn [map app fst snd]. rewrite <- (IH rest eq_refl).
    destruct (kb_metadata_get (get topic (py "topic_id")) (get topic (py "topic_name"))
                (JStr section) (JStr s)) as (-> & _ & -> & _).
    reflexivity.
Qed.

End StructuredPassages.

(** X1.  The passages of [flatten_kb], on topics that are mappings, are
    one per section: topics in input order and, within a topic, the
    sections in the order of its [data]; a topic whose [data] is absent or
    not a mapping gives none.  So the passages number the sections of the
    topics, and the n-th carries the [topic_id] and the [section] of the
    n-th section. *)
Theorem flatten_kb_one_passage_per_section (str_repr : str -> str)
    (topics : list dict) (ps : list passage) :
  flatten_kb str_repr (map JDict topics) = Ok ps ->
  map (fun p => (get (snd p) (py "topic_id"), get (snd p) (py "section"))) ps =
  flat_map (fun topic => map (fun sp => (get topic (py "topic_id"), JStr (fst sp)))
                             (sections_of topic)) topics /\
  List.length ps = list_sum (map (fun topic => List.length (sections_of topic)) topics).
Proof.
  intros H.
  assert (E : map (fun p => (get (snd p) (py "topic_id"), get (snd p) (py "section"))) ps =
              flat_map (fun topic => map (fun sp => (get topic (py "topic_id"), JStr (fst sp)))
                                         (sections_of topic)) topics).
  { revert ps H. unfold flatten_kb.
    induction topics as [|topic topics IH]; intros ps H.
    - now injection H as <-.
    - cbn [map for_each] in H.
      destruct (flatten_topic str_repr topic) as [out|] eqn:Et; [|discriminate].
      cbn [rbind] in H.
      destruct (for_each _ (map JDict topics)) as [rest|] eqn:Er; [|discriminate].
      cbn [rbind] in H. injection H as <-.
      cbn [flat_map]. rewrite map_app.
      f_equal; [exact (flatten_topic_Ok str_repr _ _ Et) | exact (IH rest eq_refl)]. }
  split; [exact E|].
  apply (f_equal (@List.length _)) in E. rewrite length_map in E.
  etransitivity; [exact E|].
  clear. induction topics as [|topic topics IH]; [reflexivity|].
  cbn [flat_map map list_sum]. now rewrite length_app, length_map, IH.
Qed.

Lemma flatten_kb_one_passage_per_section_witness :
  let topics := [ Sample.demam_topic;
                  [(py "topic_id", JStr (py "kosong")); (py "data", JList [])] ] in
  let ps := Sample.passages_of (flatten_kb Sample.plain_repr (map JDict topics)) in
  map (fun p => (get (snd p) (py "topic_id"), get (snd p) (py "section"))) ps =
  flat_map (fun topic => map (fun sp => (get topic (py "topic_id"), JStr (fst sp)))
                             (sections_of topic)) topics /\
  List.length ps = list_sum (map (fun topic => List.length (sections_of topic)) topics).
Proof.
  intros topics ps.
  apply (flatten_kb_one_passage_per_section Sample.plain_repr topics ps).
  vm_compute. reflexivity.
Defined.

(** X2.  Every passage of [flatten_kb] carries metadata with exactly the
    four fields [topic_id], [topic_name], [section] and [sources], in that
    order; its [section] is a string, and its text begins with the header
    made of the [topic_name] and the [section] of that very metadata,
    followed by a line break. *)
Theorem flatten_kb_header_matches_metadata (str_repr : str -> str)
    (topics : list json) (ps : list passage) (text : str) (meta : dict) :
  flatten_kb str_repr topics = Ok ps -> In (text, meta) ps ->
  map fst meta = [py "topic_id"; py "topic_name"; py "section"; py "sources"] /\
  exists section body,
    get meta (py "section") = JStr section /\
    text = header str_repr (get meta (py "topic_name")) section ++ nl ++ body.
Proof.
  intros Hps Hin.
  destruct (flatten_kb_passage str_repr _ _ _ _ Hps Hin) as (topic & out & _ & Hout & Hino).
  destruct (flatten_topic_passage str_repr _ _ _ _ Hout Hino)
    as (sections & section & payload & s & _ & _ & _ & -> & ->).
  destruct (kb_metadata_get (get topic (py "topic_id")) (get topic (py "topic_name"))
              (JStr section) (JStr s)) as (_ & Hn & Hs & _ & Hk).
  split; [exact Hk|]. exists section, (join nl (text_parts str_repr payload)).
  rewrite Hn. split; [exact Hs | reflexivity].
Qed.

Lemma flatten_kb_header_matches_metadata_witness :
  let text := py "[Demam / gejala]" ++ nl ++ py "tanda: suhu tinggi" ++ nl ++ py "tanda: lemas" in
  let meta := [ (py "topic_id", JStr (py "demam")); (py "topic_name", JStr (py "Demam"));
                (py "section", JStr (py "gejala")); (py "sources", JStr (py "WHO, Kemenkes")) ] in
  map fst meta = [py "topic_id"; py "topic_name"; py "section"; py "sources"] /\
  exists section body,
    get meta (py "section") = JStr section /\
    text = header Sample.plain_repr (get meta (py "topic_name")) section ++ nl ++ body.
Proof.
  intros text meta.
  apply (flatten_kb_header_matches_metadata Sample.plain_repr [Sample.demam]
           [(text, meta)] text meta).
  - vm_compute. reflexivity.
  - now left.
Defined.

(** X3.  A topic whose [sources] is a sequence with an item that is not a
    string: [", ".join] runs once per section, so the topic passes when it
    has no section, and as soon as it has one [flatten_kb] raises
    [TypeError]; no passage of any topic of that input is returned. *)
Theorem flatten_kb_non_string_source (str_repr : str -> str) (topic : dict)
    (items : list json) :
  dict_get (py "sources") topic = Some (JList items) ->
  has_non_string items ->
  (sections_of topic = [] -> flatten_kb str_repr [JDict topic] = Ok []) /\
  (sections_of topic <> [] ->
   flatten_kb str_repr [JDict topic] = Raise TypeError /\
   forall before after,
     exists e, flatten_kb str_repr (before ++ JDict topic :: after) = Raise e).
Proof.
  intros Hsrc Hbad.
  assert (Ht : sections_of topic <> [] -> flatten_topic str_repr topic = Raise TypeError).
  { unfold sections_of, flatten_topic, get_default. rewrite Hsrc.
    destruct (match dict_get (py "data") topic with Some v => v | None => JDict [] end)
      as [| | | | |[|[section payload] sections]]; try congruence.
    intros _. cbn [for_each sources_str]. unfold join_items.
    now rewrite (as_strs_non_string items Hbad). }
  split.
  - unfold flatten_kb, sections_of, flatten_topic. cbn [for_each].
    destruct (get_default topic (py "data") (JDict [])) as [| | | | |sections];
      try reflexivity.
    intros ->. reflexivity.
  - intros Hne. split.
    + unfold flatten_kb. cbn [for_each]. now rewrite (Ht Hne).
    + intros before after. unfold flatten_kb.
      destruct (for_each_raises
                  (fun topic0 => match topic0 with
                                 | JDict t => flatten_topic str_repr t
                                 | _ => Raise AttributeError
                                 end) before after (JDict topic) TypeError (Ht Hne))
        as (e & He & _).
      now exists e.
Qed.

Lemma flatten_kb_non_string_source_witness :
  flatten_kb Sample.plain_repr [JDict Sample.batuk_topic] = Raise TypeError.
Proof.
  destruct (flatten_kb_non_string_source Sample.plain_repr Sample.batuk_topic
              [JStr (py "WHO"); JInt 2020]) as [_ H].
  - vm_compute. reflexivity.
  - exists (JInt 2020). split; [right; now left | reflexivity].
  - destruct H as [H _]; [vm_compute; discriminate | exact H].
Defined.

(** ** The flat source, record by record *)

Lemma flatten_chunk_texts (str_repr : str -> str) (item : dict) (out : list passage) :
  flatten_chunk str_repr item = Ok out -> map fst out = usable_text (JDict item).
Proof.
  unfold flatten_chunk, usable_text, get.
  destruct (dict_get (py "chunk_text") item) as [[| | |[|c t]| |]|];
    cbn [truthy isinstance_str negb orb]; rewrite ?orb_true_r;
    try (intros H; now injection H as <-).
  destruct (get_default item (py "metadata") (JDict [])) as [| | | | |m]; try discriminate.
  destruct (convert_sources str_repr m); simpl; [|discriminate].
  intros H. now injection H as <-.
Qed.

(** X4.  The texts of the passages of [flatten_mb] are the [chunk_text]s
    of the records that have one (a string that is not empty), as they
    came and in input order: no text is changed, repeated or moved, and
    only the records without a usable text are left out. *)
Theorem flatten_mb_texts_in_order (str_repr : str -> str)
    (chunks : list json) (ps : list passage) :
  flatten_mb str_repr chunks = Ok ps ->
  map fst ps = flat_map usable_text chunks /\
  List.length ps <= List.length chunks.
Proof.
  intros H.
  assert (E : map fst ps = flat_map usable_text chunks).
  { revert ps H. unfold flatten_mb. induction chunks as [|item chunks IH]; intros ps H.
    - now injection H as <-.
    - cbn [for_each] in H.
      destruct item as [| | | | |i]; try discriminate.
      destruct (flatten_chunk str_repr i) as [out|] eqn:Ec; [|discriminate].
      cbn [rbind] in H.
      destruct (for_each _ chunks) as [rest|] eqn:Er; [|discriminate].
      cbn [rbind] in H. injection H as <-.
      cbn [flat_map]. rewrite map_app.
      f_equal; [exact (flatten_chunk_texts str_repr _ _ Ec) | exact (IH rest eq_refl)]. }
  split; [exact E|].
  apply (f_equal (@List.length _)) in E. rewrite length_map in E.
  replace (List.length ps) with (List.length (flat_map usable_text chunks))
    by (symmetry; exact E).
  clear. induction chunks as [|item chunks IH]; [simpl; lia|].
  cbn [flat_map]. rewrite length_app.
  assert (List.length (usable_text item) <= 1).
  { unfold usable_text. destruct item as [| | | | |i]; simpl; try lia.
    destruct (dict_get (py "chunk_text") i) as [[| | |[|c t]| |]|]; simpl; lia. }
  simpl. lia.
Qed.

Lemma flatten_mb_texts_in_order_witness :
  let chunks := [Sample.chunk_empty; Sample.chunk_air; JDict Sample.chunk_bab] in
  let ps := Sample.passages_of (flatten_mb Sample.plain_repr chunks) in
  map fst ps = flat_map usable_text chunks /\ List.length ps <= List.length chunks.
Proof.
  intros chunks ps.
  apply (flatten_mb_texts_in_order Sample.plain_repr chunks ps).
  vm_compute. reflexivity.
Defined.

(** X5.  [flatten_mb] touches nothing of a record's metadata but
    [sources]: every other field of an emitted metadata has the value the
    record gave it, the fields keep their order, none is added or removed,
    and a metadata without [sources] is emitted as it came. *)
Theorem flatten_mb_touches_only_sources (str_repr : str -> str)
    (chunks : list json) (ps : list passage) (text : str) (meta : dict) :
  flatten_mb str_repr chunks = Ok ps -> In (text, meta) ps ->
  exists item m,
    In (JDict item) chunks /\
    get item (py "chunk_text") = JStr text /\
    get_default item (py "metadata") (JDict []) = JDict m /\
    (forall k, k <> py "sources" -> dict_get k meta = dict_get k m) /\
    map fst meta = map fst m /\
    (dict_get (py "sources") m = None -> meta = m).
Proof.
  intros Hps Hin.
  destruct (flatten_mb_origin str_repr _ _ _ _ Hps Hin) as (item & m & Hi & Ht & _ & Hm & Hc).
  exists item, m. split; [exact Hi|]. split; [exact Ht|]. split; [exact Hm|].
  unfold convert_sources, get in Hc.
  destruct (dict_get (py "sources") m) as [v|] eqn:E.
  - assert (Hset : forall s, meta = dict_set (py "sources") (JStr s) m ->
                     (forall k, k <> py "sources" -> dict_get k meta = dict_get k m) /\
                     map fst meta = map fst m /\ (Some v = None -> meta = m)).
    { intros s ->. split; [intros k Hk; now apply dict_get_set_other|].
      split; [apply dict_set_keys; congruence | discriminate]. }
    assert (Hsame : meta = m ->
                     (forall k, k <> py "sources" -> dict_get k meta = dict_get k m) /\
                     map fst meta = map fst m /\ (Some v = None -> meta = m)).
    { intros ->. auto. }
    destruct (truthy v); [|injection Hc as <-; now apply Hsame].
    destruct v as [|b|n|s|items|d];
      try (injection Hc as <-; (now apply Hsame) || (eapply Hset; reflexivity)).
    destruct (join_items (py ", ") items) as [s|]; simpl in Hc; [|discriminate].
    injection Hc as <-. eapply Hset; reflexivity.
  - simpl in Hc. injection Hc as <-. auto.
Qed.

Lemma flatten_mb_touches_only_sources_witness :
  let meta := [(py "sources", JStr (py "WHO, Kemenkes")); (py "bab", JInt 3)] in
  exists item m,
    In (JDict item) [JDict Sample.chunk_bab] /\
    get item (py "chunk_text") = JStr (py "Berjemur pagi") /\
    get_default item (py "metadata") (JDict []) = JDict m /\
    (forall k, k <> py "sources" -> dict_get k meta = dict_get k m) /\
    map fst meta = map fst m /\
    (dict_get (py "sources") m = None -> meta = m).
Proof.
  intros meta.
  apply (flatten_mb_touches_only_sources Sample.plain_repr [JDict Sample.chunk_bab]
           [(py "Berjemur pagi", meta)]).
  - vm_compute. reflexivity.
  - now left.
Defined.

(** X6.  A record of the flat source whose [metadata] is present but not
    a mapping ([null], say): the text is looked at first, so the record is
    still skipped when it has no usable text; when it has one,
    [flatten_mb] raises [AttributeError] at that record. *)
Theorem flatten_mb_metadata_not_a_mapping (str_repr : str -> str) (item : dict)
    (c : char) (t : str) (v : json) :
  dict_get (py "metadata") item = Some v ->
  (forall m, v <> JDict m) ->
  (dict_get (py "chunk_text") item = Some (JStr (c :: t)) ->
   forall before after out,
     flatten_mb str_repr before = Ok out ->
     flatten_mb str_repr (before ++ JDict item :: after) = Raise AttributeError) /\
  (malformed item ->
   forall before after,
     flatten_mb str_repr (before ++ JDict item :: after) = flatten_mb str_repr (before ++ after)).
Proof.
  intros Hm Hv. split.
  - intros Ht before after out Hb.
    assert (Hc : flatten_chunk str_repr item = Raise AttributeError).
    { unfold flatten_chunk, get, get_default. rewrite Ht, Hm.
      cbn [truthy isinstance_str negb orb].
      destruct v as [| | | | |m]; try reflexivity. now destruct (Hv m). }
    unfold flatten_mb in *. rewrite for_each_app, Hb. cbn [rbind for_each].
    now rewrite Hc.
  - intros Hmal before after. now apply flatten_mb_skips.
Qed.

Lemma flatten_mb_metadata_not_a_mapping_witness :
  flatten_mb Sample.plain_repr ([Sample.chunk_air] ++ JDict Sample.chunk_null_metadata :: [])
  = Raise AttributeError.
Proof.
  destruct (flatten_mb_metadata_not_a_mapping Sample.plain_repr Sample.chunk_null_metadata
              66%N (py "erjemur pagi") JNull) as [H _].
  - vm_compute. reflexivity.
  - discriminate.
  - apply (H eq_refl [Sample.chunk_air] []
             [(py "Minum air putih cukup", [(py "sources", JStr (py "WHO, Kemenkes"))])]).
    vm_compute. reflexivity.
Defined.

(** ** The index builder, end to end *)

Lemma doc_ids_NoDup (n : nat) : NoDup (doc_ids n).
Proof.
  unfold doc_ids. generalize (seq_NoDup n 0).
  induction 1 as [|i l Hi _ IH]; cbn [map]; constructor; [|exact IH].
  intros H. apply in_map_iff in H as (j & E & Hj).
  apply app_inv_head in E. apply str_of_Z_inj in E.
  apply Hi. now replace i with j by lia.
Qed.

Lemma batches_fuel_sizes {A} (batch_size fuel : nat) (l : list A) :
  0 < batch_size ->
  Forall (fun b => 1 <= List.length b <= batch_size) (batches_fuel fuel batch_size l) /\
  (forall b, In b (removelast (batches_fuel fuel batch_size l)) ->
             List.length b = batch_size).
Proof.
  intros Hb. revert l. induction fuel as [|fuel IH]; intros l.
  - destruct l; split; try constructor; intros b [].
  - destruct l as [|x l]; [split; [constructor | intros b []]|].
    cbn [batches_fuel]. destruct (IH (skipn batch_size (x :: l))) as [IH1 IH2]. split.
    + constructor; [|exact IH1]. rewrite length_firstn.
      change (List.length (x :: l)) with (S (List.length l)). lia.
    + intros b Hin.
      destruct (batches_fuel fuel batch_size (skipn batch_size (x :: l))) as [|b0 bs] eqn:E;
        [destruct Hin|].
      change (removelast (firstn batch_size (x :: l) :: b0 :: bs))
        with (firstn batch_size (x :: l) :: removelast (b0 :: bs)) in Hin.
      destruct Hin as [<-|Hin]; [|now apply IH2].
      rewrite length_firstn.
      assert (Hs : skipn batch_size (x :: l) <> []).
      { intros Hs. rewrite Hs in E. destruct fuel; discriminate. }
      assert (batch_size < List.length (x :: l)); [|lia].
      destruct (Nat.lt_ge_cases batch_size (List.length (x :: l))) as [H|H]; [exact H|].
      now rewrite skipn_all2 in Hs.
Qed.

Section BuilderRuns.

Variable vector : Type.
Variable str_repr : str -> str.
Variable requests_post : str -> post_outcome vector.
Variable delete_raises : collection vector -> bool.
Variable add_raises : collection vector -> list (entry vector) -> option str.

Lemma clear_collection_cleared (c : collection vector) :
  clear_collection delete_raises c = (Ok tt, cleared delete_raises c).
Proof. unfold clear_collection, cleared. now destruct (delete_raises c). Qed.

Lemma build_index_passages_raise (KB_FILE MB_FILE : file) (c : collection vector) (e : exn) :
  kb_passages str_repr KB_FILE = Raise e \/
  (exists kb, kb_passages str_repr KB_FILE = Ok kb) /\ mb_passages str_repr MB_FILE = Raise e ->
  build_index str_repr requests_post delete_raises add_raises KB_FILE MB_FILE c =
  (Raise e, cleared delete_raises c).
Proof.
  unfold build_index, bind, lift. rewrite clear_collection_cleared.
  intros [-> | [[kb ->] ->]]; reflexivity.
Qed.

Lemma embed_doc_answered (doc : str) (v : vector) :
  embed_doc requests_post doc = inr v <-> answered_with requests_post doc v.
Proof.
  unfold embed_doc, answered_with. destruct (requests_post doc) as [msg|r].
  - split; [discriminate | intros (r & H & _); discriminate].
  - destruct (Z.eqb_spec (status_code r) 200) as [E|E]; cbn [negb].
    + split; [intros H; now exists r|]. intros (r' & H & _ & Hv). now injection H as ->.
    + split; [discriminate|]. intros (r' & H & Hs & _). injection H as ->. contradiction.
Qed.

Lemma embed_batch_answered (docs : list str) (vs : list vector) :
  embed_batch requests_post docs = Ok vs -> Forall2 (answered_with requests_post) docs vs.
Proof.
  revert vs. induction docs as [|doc docs IH]; intros vs H.
  - injection H as <-. constructor.
  - cbn [embed_batch] in H. destruct (embed_doc requests_post doc) as [msg|v] eqn:Ed;
      [discriminate|].
    destruct (embed_batch requests_post docs) as [vs'|]; [|discriminate].
    simpl in H. injection H as <-.
    constructor; [now apply embed_doc_answered | now apply IH].
Qed.

Lemma make_entries_answered (docs : list str) :
  forall (vs : list vector) ids metas,
    embed_batch requests_post docs = Ok vs ->
    Forall (fun e => answered_with requests_post (entry_document e) (entry_embedding e))
           (make_entries ids vs docs metas).
Proof.
  induction docs as [|doc docs IH]; intros vs ids metas H.
  - injection H as <-. destruct ids; constructor.
  - cbn [embed_batch] in H. destruct (embed_doc requests_post doc) as [msg|v] eqn:Ed;
      [discriminate|].
    destruct (embed_batch requests_post docs) as [vs'|] eqn:Ev; [|discriminate].
    simpl in H. injection H as <-.
    destruct ids as [|i ids]; [constructor|]. destruct metas as [|m metas]; [constructor|].
    cbn [make_entries]. constructor; [now apply embed_doc_answered | now apply IH].
Qed.

End BuilderRuns.

Section BuilderProperties.

Variable vector : Type.
Variable str_repr : str -> str.
Variable requests_post : str -> post_outcome vector.
Variable delete_raises : collection vector -> bool.
Variable add_raises : collection vector -> list (entry vector) -> option str.

(** X7.  Nothing to index.  A structured file that is missing,
    unreadable, not a mapping or without [knowledge_base] gives no passage,
    and so does a flat file that is missing, unreadable, not a list or
    empty; when neither source gives a passage, [build_index] returns
    without an error, asks for no embedding (the gateway may be down) and
    adds nothing: the collection is left as the clearing step left it. *)
Theorem build_index_nothing_to_index (KB_FILE MB_FILE : file) (c : collection vector) :
  (without_topics KB_FILE -> kb_passages str_repr KB_FILE = Ok []) /\
  (without_chunks MB_FILE -> mb_passages str_repr MB_FILE = Ok []) /\
  (kb_passages str_repr KB_FILE = Ok [] -> mb_passages str_repr MB_FILE = Ok [] ->
   build_index str_repr requests_post delete_raises add_raises KB_FILE MB_FILE c =
   (Ok tt, cleared delete_raises c)).
Proof.
  split; [|split].
  - unfold without_topics, kb_passages, load_kb, get_default.
    destruct KB_FILE as [| |[| | | | |d]]; try reflexivity.
    now intros ->.
  - unfold without_chunks, mb_passages, load_mb.
    destruct MB_FILE as [| |[| | | |[|x l]|]]; try reflexivity. contradiction.
  - intros Hkb Hmb. unfold build_index, bind, lift.
    rewrite clear_collection_cleared, Hkb, Hmb. reflexivity.
Qed.

(** X8.  [load_mb] checks that the flat file holds a list and takes
    anything else as no records; [load_kb] hands on whatever
    [knowledge_base] holds.  When that is [null], a boolean or a number the
    build raises [TypeError], and when it is a mapping or a string that is
    not empty the build raises [AttributeError]; in both cases after the
    clearing step, so the collection is left cleared. *)
Theorem knowledge_base_must_be_a_list (d : dict) (v : json) (MB_FILE : file)
    (c : collection vector) :
  dict_get (py "knowledge_base") d = Some v ->
  (v = JNull \/ (exists b, v = JBool b) \/ (exists n, v = JInt n) ->
   build_index str_repr requests_post delete_raises add_raises (Content (JDict d)) MB_FILE c =
   (Raise TypeError, cleared delete_raises c)) /\
  ((exists k x r, v = JDict ((k, x) :: r)) \/ (exists ch s, v = JStr (ch :: s)) ->
   build_index str_repr requests_post delete_raises add_raises (Content (JDict d)) MB_FILE c =
   (Raise AttributeError, cleared delete_raises c)) /\
  (forall data, (forall l, data <> JList l) -> mb_passages str_repr (Content data) = Ok []).
Proof.
  intros Hv. split; [|split].
  - intros H. apply build_index_passages_raise. left.
    unfold kb_passages, load_kb, get_default. rewrite Hv.
    destruct H as [-> | [[b ->] | [n ->]]]; reflexivity.
  - intros H. apply build_index_passages_raise. left.
    unfold kb_passages, load_kb, get_default. rewrite Hv.
    destruct H as [(k & x & r & ->) | (ch & s & ->)]; reflexivity.
  - intros data Hd. unfold mb_passages, load_mb.
    destruct data as [| | | |l|]; try reflexivity. now destruct (Hd l).
Qed.

(** X9.  Where a build can fail once the collection is open (lines
    169-211), and what it leaves.  The places are four, in this order: the
    reading of the structured source, the reading of the flat source (in
    both the exception leaves [build_index] as it was raised), the
    embedding loop (the exception is wrapped as the [RuntimeError] "Error
    generating embeddings: ..."), and the store's [add], which is reached
    only with one embedding for every passage.  A build that fails in one
    of the first three has handed nothing to the store: the collection is
    as the clearing step left it, so as it was before the build when the
    delete raised. *)
Theorem failed_build_leaves_cleared (KB_FILE MB_FILE : file) (c c' : collection vector)
    (e : exn) :
  build_index str_repr requests_post delete_raises add_raises KB_FILE MB_FILE c = (Raise e, c') ->
  (kb_passages str_repr KB_FILE = Raise e /\ c' = cleared delete_raises c) \/
  (exists kb,
     kb_passages str_repr KB_FILE = Ok kb /\
     mb_passages str_repr MB_FILE = Raise e /\ c' = cleared delete_raises c) \/
  (exists kb mb,
     kb_passages str_repr KB_FILE = Ok kb /\ mb_passages str_repr MB_FILE = Ok mb /\
     let docs := map fst (kb ++ mb) in
     docs <> [] /\
     ((exists msg,
         embed_all requests_post docs = Raise e /\
         e = RuntimeError (py "Error generating embeddings: " ++ msg) /\
         c' = cleared delete_raises c /\
         (delete_raises c = true -> c' = c)) \/
      (exists vs msg,
         embed_all requests_post docs = Ok vs /\
         List.length vs = List.length docs /\
         add_raises (cleared delete_raises c)
           (make_entries (doc_ids (List.length docs)) vs docs (map snd (kb ++ mb)))
         = Some msg /\
         e = LibraryError msg))).
Proof.
  unfold build_index, bind, lift, ret, collection_add. rewrite clear_collection_cleared.
  destruct (kb_passages str_repr KB_FILE) as [kb|e0];
    [|intros H; injection H as <- <-; auto].
  destruct (mb_passages str_repr MB_FILE) as [mb|e0];
    [|intros H; injection H as <- <-; right; left; eauto].
  intros H. right. right. exists kb, mb. split; [reflexivity|]. split; [reflexivity|].
  cbv zeta. destruct (map fst (kb ++ mb)) as [|doc docs] eqn:Ed; [discriminate|].
  split; [discriminate|].
  rewrite embed_all_sequential in *.
  destruct (embed_batch requests_post (doc :: docs)) as [vs|e0] eqn:Ev.
  - right. destruct (add_raises _ _) as [msg|] eqn:Ea; [|discriminate].
    injection H as <- <-. exists vs, msg. split; [reflexivity|].
    split; [exact (embed_batch_length vector requests_post _ _ Ev)|].
    split; [exact Ea | reflexivity].
  - left. injection H as <- <-.
    assert (Hmsg : exists msg, e0 = RuntimeError (py "Error generating embeddings: " ++ msg)).
    { clear Ed. revert e0 Ev. generalize (doc :: docs). intros l.
      induction l as [|x l IH]; intros e0 Ev; [discriminate|].
      cbn [embed_batch] in Ev. destruct (embed_doc requests_post x) as [msg|v].
      - injection Ev as <-. now exists msg.
      - destruct (embed_batch requests_post l) as [vs|e1]; [discriminate|].
        simpl in Ev. injection Ev as <-. now apply IH. }
    destruct Hmsg as [msg ->]. exists msg. split; [reflexivity|]. split; [reflexivity|].
    split; [reflexivity|]. intros Hd. unfold cleared. now rewrite Hd.
Qed.

(** X10.  The embedding requests go in input order and stop at the first
    that fails: when the passages before [doc] are embedded and the request
    for [doc] fails with the message [msg], the build raises
    [RuntimeError] "Error generating embeddings: [msg]" and leaves the
    collection cleared.  For a gateway answer with a status other than 200
    [msg] is "Error from Ollama: " followed by the body of the answer; for
    an unreachable gateway it is the message of the exception raised. *)
Theorem first_failing_document_is_reported (KB_FILE MB_FILE : file) (c : collection vector)
    (kb mb : list passage) (before after : list str) (doc msg : str) :
  kb_passages str_repr KB_FILE = Ok kb ->
  mb_passages str_repr MB_FILE = Ok mb ->
  map fst (kb ++ mb) = before ++ doc :: after ->
  (forall d, In d before -> exists v, answered_with requests_post d v) ->
  embed_doc requests_post doc = inl msg ->
  build_index str_repr requests_post delete_raises add_raises KB_FILE MB_FILE c =
    (Raise (RuntimeError (py "Error generating embeddings: " ++ msg)), cleared delete_raises c) /\
  (forall r, requests_post doc = Answered r -> status_code r <> 200%Z ->
             msg = py "Error from Ollama: " ++ text r) /\
  (forall m, requests_post doc = PostRaises m -> msg = m).
Proof.
  intros Hkb Hmb Hdocs Hbefore Hdoc. split; [|split].
  - unfold build_index, bind, lift. rewrite clear_collection_cleared, Hkb, Hmb, Hdocs.
    destruct (before ++ doc :: after) as [|d0 ds] eqn:E; [now destruct before|].
    rewrite embed_all_sequential, <- E, embed_batch_app.
    destruct (embed_batch_success vector requests_post before) as [vs ->].
    { intros d Hd. destruct (Hbefore d Hd) as [v Hv]. exists v. now apply embed_doc_answered. }
    cbn [rbind embed_batch]. now rewrite Hdoc.
  - intros r Hr Hs. unfold embed_doc in Hdoc. rewrite Hr in Hdoc.
    destruct (Z.eqb_spec (status_code r) 200) as [E'|E']; [contradiction|].
    cbn [negb] in Hdoc. now injection Hdoc as <-.
  - intros m Hr. unfold embed_doc in Hdoc. rewrite Hr in Hdoc. now injection Hdoc as <-.
Qed.

(** X11.  After a build that ends well, the collection is the cleared
    collection followed by new entries, and each new entry holds, beside
    its document, the embedding that the gateway returned, with status
    200, for that very document: embeddings and documents are never
    paired across positions.  When the clearing step emptied the
    collection, the new entries are all of it, and their documents are the
    texts of the passages of the two sources, in input order. *)
Theorem stored_embeddings_match_documents (KB_FILE MB_FILE : file) (c c' : collection vector) :
  build_index str_repr requests_post delete_raises add_raises KB_FILE MB_FILE c = (Ok tt, c') ->
  exists new,
    c' = cleared delete_raises c ++ new /\
    Forall (fun e => answered_with requests_post (entry_document e) (entry_embedding e)) new /\
    (cleared delete_raises c = [] ->
     exists kb mb,
       kb_passages str_repr KB_FILE = Ok kb /\
       mb_passages str_repr MB_FILE = Ok mb /\
       map (@entry_document vector) new = map fst (kb ++ mb)).
Proof.
  intros H.
  assert (Hdocs : forall new, c' = cleared delete_raises c ++ new ->
            cleared delete_raises c = [] ->
            exists kb mb,
              kb_passages str_repr KB_FILE = Ok kb /\
              mb_passages str_repr MB_FILE = Ok mb /\
              map (@entry_document vector) new = map fst (kb ++ mb)).
  { intros new Hnew Hc.
    destruct (build_index_Ok_inv vector str_repr requests_post delete_raises add_raises
                KB_FILE MB_FILE c c' H) as (kb & mb & new' & Hkb & Hmb & E & Hd & _).
    exists kb, mb. split; [exact Hkb|]. split; [exact Hmb|].
    rewrite Hc, filter_fresh_nil in E. rewrite Hc in Hnew. cbn [app] in E, Hnew.
    congruence. }
  assert (Hgoal : exists new,
            c' = cleared delete_raises c ++ new /\
            Forall (fun e => answered_with requests_post (entry_document e)
                               (entry_embedding e)) new);
    [|destruct Hgoal as (new & Hnew & Hall); exists new; auto].
  clear Hdocs. revert H.
  unfold build_index, bind, lift, ret, collection_add. rewrite clear_collection_cleared.
  destruct (kb_passages str_repr KB_FILE) as [kb|e0]; [|discriminate].
  destruct (mb_passages str_repr MB_FILE) as [mb|e0]; [|discriminate].
  destruct (map fst (kb ++ mb)) as [|doc docs] eqn:Ed.
  - intros H. injection H as <-. exists []. rewrite app_nil_r. split; [reflexivity | constructor].
  - rewrite embed_all_sequential.
    destruct (embed_batch requests_post (doc :: docs)) as [vs|e0] eqn:Ev; [|discriminate].
    destruct (add_raises _ _) as [msg|]; [discriminate|].
    intros H. injection H as <-. eexists. split; [reflexivity|].
    apply Forall_forall. intros e He. apply filter_In in He as [He _].
    pose proof (make_entries_answered vector requests_post (doc :: docs) vs
                  (doc_ids (List.length (doc :: docs))) (map snd (kb ++ mb)) Ev) as Hall.
    rewrite Forall_forall in Hall. exact (Hall e He).
Qed.

(** X12.  The identifiers "doc-0", "doc-1", ... that a build makes are
    pairwise different, and a build that ends well on a collection whose
    identifiers are unique after the clearing step leaves a collection whose
    identifiers are unique. *)
Theorem build_index_keeps_ids_unique (KB_FILE MB_FILE : file) (c c' : collection vector) :
  (forall n, NoDup (doc_ids n)) /\
  (NoDup (map (@entry_id vector) (cleared delete_raises c)) ->
   build_index str_repr requests_post delete_raises add_raises KB_FILE MB_FILE c = (Ok tt, c') ->
   NoDup (map (@entry_id vector) c')).
Proof.
  split; [exact doc_ids_NoDup|]. intros Hnd H.
  apply build_index_Ok_inv in H as (kb & mb & new & _ & _ & -> & _ & _ & Hid).
  pose proof (doc_ids_NoDup (List.length (kb ++ mb))) as Hnew. rewrite <- Hid in Hnew.
  clear Hid. set (cl := cleared delete_raises c) in *. clearbody cl.
  induction new as [|e new IH]; [now rewrite app_nil_r|].
  cbn [map] in Hnew. inversion Hnew as [|? ? Hx Hnew']; subst.
  cbn [filter]. destruct (has_id cl (entry_id e)) eqn:Eh; cbn [negb]; [now apply IH|].
  rewrite map_app. cbn [map]. apply NoDup_Add with (a := entry_id e)
    (l := map (@entry_id vector) cl ++
          map (@entry_id vector) (filter (fun e0 => negb (has_id cl (entry_id e0))) new)).
  - apply Add_app.
  - split.
    + rewrite <- map_app. now apply IH.
    + rewrite in_app_iff. intros [Hin|Hin].
      * apply has_id_In in Hin. congruence.
      * apply Hx. apply in_map_iff in Hin as (e' & E & He'). apply filter_In in He' as [He' _].
        rewrite <- E. now apply in_map.
Qed.

(** X13.  The batches of the embedding loop are consecutive slices of the
    documents: put end to end they are the documents, each holds between 1
    and 64 of them, and all but the last hold 64.  Batching does not show
    in the outcome: the loop returns what one pass over the documents
    returns, and when it returns embeddings there is one per document, in
    input order, each the gateway's 200 answer for its document. *)
Theorem batching_is_transparent (docs : list str) :
  List.concat (batches 64 docs) = docs /\
  Forall (fun batch_docs => 1 <= List.length batch_docs <= 64) (batches 64 docs) /\
  (forall batch_docs, In batch_docs (removelast (batches 64 docs)) ->
                      List.length batch_docs = 64) /\
  embed_all requests_post docs = embed_batch requests_post docs /\
  (forall vs, embed_all requests_post docs = Ok vs ->
              Forall2 (answered_with requests_post) docs vs).
Proof.
  split; [apply batches_concat; lia|].
  destruct (batches_fuel_sizes 64 (List.length docs) docs) as [H1 H2]; [lia|].
  split; [exact H1|]. split; [exact H2|]. split; [apply embed_all_sequential|].
  intros vs. rewrite embed_all_sequential. apply embed_batch_answered.
Qed.

End BuilderProperties.

Lemma build_index_nothing_to_index_witness :
  build_index Sample.plain_repr Sample.gateway_down Sample.delete_wipes Sample.add_accepts
    Missing Unreadable [Sample.old_entry]
  = (Ok tt, cleared Sample.delete_wipes [Sample.old_entry]).
Proof.
  destruct (build_index_nothing_to_index Sample.vec Sample.plain_repr Sample.gateway_down
              Sample.delete_wipes Sample.add_accepts Missing Unreadable [Sample.old_entry])
    as (Hkb & Hmb & H).
  apply H; [apply Hkb; exact I | apply Hmb; exact I].
Defined.

Lemma knowledge_base_must_be_a_list_witness :
  build_index Sample.plain_repr Sample.gateway_up Sample.delete_wipes Sample.add_accepts
    (Content (JDict [(py "knowledge_base", JDict [(py "demam", Sample.demam)])]))
    Sample.MB_FILE [Sample.old_entry]
  = (Raise AttributeError, cleared Sample.delete_wipes [Sample.old_entry]).
Proof.
  destruct (knowledge_base_must_be_a_list Sample.vec Sample.plain_repr Sample.gateway_up
              Sample.delete_wipes Sample.add_accepts
              [(py "knowledge_base", JDict [(py "demam", Sample.demam)])]
              (JDict [(py "demam", Sample.demam)]) Sample.MB_FILE [Sample.old_entry])
    as (_ & H & _).
  - vm_compute. reflexivity.
  - apply H. left. now exists (py "demam"), Sample.demam, [].
Defined.

(** The gateway answers 500 to a rebuild over an index that holds an
    entry, on a store that rejects the delete: the failure is that of the
    embedding loop and the entry is still there. *)
Lemma failed_build_leaves_cleared_witness :
  snd (build_index Sample.plain_repr Sample.gateway_error Sample.delete_rejects
         Sample.add_accepts Sample.KB_FILE Sample.MB_FILE [Sample.old_entry])
  = [Sample.old_entry].
Proof.
  destruct (failed_build_leaves_cleared Sample.vec Sample.plain_repr Sample.gateway_error
              Sample.delete_rejects Sample.add_accepts Sample.KB_FILE Sample.MB_FILE
              [Sample.old_entry]
              (snd (build_index Sample.plain_repr Sample.gateway_error Sample.delete_rejects
                      Sample.add_accepts Sample.KB_FILE Sample.MB_FILE [Sample.old_entry]))
              (RuntimeError (py "Error generating embeddings: Error from Ollama: model not found")))
    as [[H _] | [(kb & _ & H & _) | (kb & mb & _ & _ & _ & H)]].
  - vm_compute. reflexivity.
  - vm_compute in H. discriminate.
  - vm_compute in H. discriminate.
  - destruct H as [(msg & _ & _ & _ & Hc) | (vs & msg & _ & _ & _ & H)]; [|discriminate].
    apply Hc. reflexivity.
Defined.

Lemma first_failing_document_is_reported_witness :
  build_index Sample.plain_repr Sample.gateway_flaky Sample.delete_wipes Sample.add_accepts
    Sample.KB_FILE Sample.MB_FILE [Sample.old_entry]
  = (Raise (RuntimeError (py "Error generating embeddings: "
                          ++ py "Error from Ollama: model not found")),
     cleared Sample.delete_wipes [Sample.old_entry]).
Proof.
  apply (first_failing_document_is_reported Sample.vec Sample.plain_repr Sample.gateway_flaky
           Sample.delete_wipes Sample.add_accepts Sample.KB_FILE Sample.MB_FILE
           [Sample.old_entry]
           (Sample.passages_of (kb_passages Sample.plain_repr Sample.KB_FILE))
           (Sample.passages_of (mb_passages Sample.plain_repr Sample.MB_FILE))
           [py "[Demam / gejala]" ++ nl ++ py "tanda: suhu tinggi" ++ nl ++ py "tanda: lemas"]
           [] (py "Minum air putih cukup") (py "Error from Ollama: model not found")).
  - vm_compute. reflexivity.
  - vm_compute. reflexivity.
  - vm_compute. reflexivity.
  - intros d [<-|[]].
    exists (match Sample.gateway_up
                    (py "[Demam / gejala]" ++ nl ++ py "tanda: suhu tinggi" ++ nl
                     ++ py "tanda: lemas") with
            | Answered r => match json_embedding r with inr v => v | inl _ => [] end
            | PostRaises _ => []
            end).
    eexists. split; [vm_compute; reflexivity|]. split; vm_compute; reflexivity.
  - vm_compute. reflexivity.
Defined.

Lemma stored_embeddings_match_documents_witness :
  let c' := snd (build_index Sample.plain_repr Sample.gateway_up Sample.delete_wipes
                   Sample.add_accepts Sample.KB_FILE Sample.MB_FILE [Sample.old_entry]) in
  exists new,
    c' = cleared Sample.delete_wipes [Sample.old_entry] ++ new /\
    Forall (fun e => answered_with Sample.gateway_up (entry_document e) (entry_embedding e)) new /\
    (cleared Sample.delete_wipes [Sample.old_entry] = [] ->
     exists kb mb,
       kb_passages Sample.plain_repr Sample.KB_FILE = Ok kb /\
       mb_passages Sample.plain_repr Sample.MB_FILE = Ok mb /\
       map (@entry_document Sample.vec) new = map fst (kb ++ mb)).
Proof.
  intros c'.
  apply (stored_embeddings_match_documents Sample.vec Sample.plain_repr Sample.gateway_up
           Sample.delete_wipes Sample.add_accepts Sample.KB_FILE Sample.MB_FILE
           [Sample.old_entry] c').
  vm_compute. reflexivity.
Defined.

Lemma build_index_keeps_ids_unique_witness :
  let c' := snd (build_index Sample.plain_repr Sample.gateway_up Sample.delete_wipes
                   Sample.add_accepts Sample.KB_FILE Sample.MB_FILE [Sample.old_entry]) in
  NoDup (map (@entry_id Sample.vec) c').
Proof.
  intros c'.
  apply (proj2 (build_index_keeps_ids_unique Sample.vec Sample.plain_repr Sample.gateway_up
                  Sample.delete_wipes Sample.add_accepts Sample.KB_FILE Sample.MB_FILE
                  [Sample.old_entry] c')).
  - constructor.
  - vm_compute. reflexivity.
Defined.

(** ** From the index to the prompt *)

Lemma convert_sources_normalised (str_repr : str -> str) (m m' : dict) :
  convert_sources str_repr m = Ok m' -> normalised_sources m'.
Proof.
  unfold convert_sources, get, normalised_sources.
  destruct (dict_get (py "sources") m) as [v|] eqn:E.
  - destruct (truthy v) eqn:Ht.
    + destruct v as [|b|n|s|items|d]; try discriminate;
        try (intros H; injection H as <-; now rewrite dict_get_set_same).
      * intros H. injection H as <-. now rewrite E.
      * destruct (join_items (py ", ") items) as [s|e]; simpl; [|discriminate].
        intros H. injection H as <-. now rewrite dict_get_set_same.
    + intros H. injection H as <-. rewrite E. now destruct v.
  - simpl. intros H. injection H as <-. now rewrite E.
Qed.

Lemma collect_all_app (a b : list json) (s : list json) :
  collect_all (a ++ b) s = let* s' := collect_all a s in collect_all b s'.
Proof.
  revert s. induction a as [|x a IH]; intros s; [reflexivity|].
  cbn [app collect_all]. destruct (collect_sources x s) as [s'|e]; [|reflexivity].
  cbn [rbind]. apply IH.
Qed.

Lemma collect_all_normalised (metas : list dict) (acc : list str) :
  Forall normalised_sources metas ->
  collect_all (map JDict metas) (map JStr acc) =
  Ok (map JStr (fold_left add_name (all_names metas) acc)).
Proof.
  intros H. revert acc. induction H as [|m metas Hm _ IH]; intros acc; [reflexivity|].
  cbn [map collect_all]. unfold collect_sources, get.
  unfold all_names, sources_strings. cbn [flat_map].
  unfold normalised_sources in Hm.
  destruct (dict_get (py "sources") m) as [[|[|]|n|[|c s]|[|x l]|[|kv d]]|];
    try discriminate; cbn [truthy negb rbind app flat_map]; try apply IH.
  - cbn [truthy] in Hm. rewrite Hm. cbn [negb rbind]. apply IH.
  - rewrite fold_set_add_JStr, IH. unfold names_of at 2.
    now rewrite fold_left_app.
Qed.

Lemma build_rag_prompt_normalised (user_question : str) (docs : list str)
    (metas : list dict) :
  Forall normalised_sources metas ->
  build_rag_prompt user_question (JList (map JStr docs)) (JList (map JDict metas)) =
  Ok (grounded_prompt user_question (join context_separator docs),
      map JStr (sort_names (fold_left add_name (all_names metas) []))).
Proof.
  intros H. unfold build_rag_prompt. cbn [py_iter rbind].
  rewrite join_items_strs. cbn [rbind].
  change (collect_all (map JDict metas) [])
    with (collect_all (map JDict metas) (map JStr [])).
  rewrite (collect_all_normalised metas [] H). cbn [rbind].
  rewrite py_sorted_JStr. cbn [rbind]. unfold grounded_prompt. reflexivity.
Qed.

Lemma flatten_emits_normalised (str_repr : str -> str) (topics chunks : list json)
    (kb mb : list passage) :
  flatten_kb str_repr topics = Ok kb -> flatten_mb str_repr chunks = Ok mb ->
  Forall (fun p => normalised_sources (snd p)) (kb ++ mb).
Proof.
  intros Hkb Hmb. apply Forall_forall. intros [text meta] Hin.
  apply in_app_or in Hin as [Hin|Hin]; cbn [snd].
  - destruct (flatten_kb_sources_flat str_repr topics kb text meta Hkb Hin) as [s Hs].
    unfold normalised_sources. now rewrite Hs.
  - destruct (flatten_mb_origin str_repr _ _ _ _ Hmb Hin) as (item & m & _ & _ & _ & _ & Hc).
    eapply convert_sources_normalised, Hc.
Qed.

Lemma names_recovered (user_question text : str) (meta : dict) (ss : list str) :
  Forall clean_name ss ->
  dict_get (py "sources") meta = Some (JStr (join (py ", ") ss)) \/
  ss = [] /\ dict_get (py "sources") meta = Some (JList []) ->
  exists names,
    build_rag_prompt user_question (JList [JStr text]) (JList [JDict meta])
    = Ok (grounded_prompt user_question text, map JStr names) /\
    StronglySorted str_lt names /\
    forall x, In x names <-> In x ss.
Proof.
  intros Hclean Hmeta.
  exists (sort_names (fold_left add_name (all_names [meta]) [])).
  destruct (sources_sorted_and_complete [meta]) as [Hsorted Hmem].
  split; [|split; [exact Hsorted|]].
  - apply (build_rag_prompt_normalised user_question [text] [meta]).
    constructor; [|constructor]. unfold normalised_sources.
    destruct Hmeta as [-> | [_ ->]]; reflexivity.
  - intros x. rewrite Hmem. unfold all_names, sources_strings. cbn [flat_map].
    destruct Hmeta as [E | [-> E]]; rewrite E; [|simpl; tauto].
    destruct ss as [|s ss]; [simpl; tauto|].
    destruct (join (py ", ") (s :: ss)) as [|c j] eqn:Ej.
    + now destruct (join_clean_nonempty (s :: ss)).
    + cbn [app flat_map]. rewrite app_nil_r, <- Ej, names_of_join;
        [tauto | discriminate | exact Hclean].
Qed.

(** X14.  Source names survive the trip through the index.  A topic, or a
    record of the flat source, lists its sources as a sequence of names,
    each of them not empty, without comma and without whitespace at either
    end.  The normaliser joins them with ", " into the one string the index
    stores; [build_rag_prompt], given a passage emitted for that topic or
    record with its metadata, splits that string on commas and trims the
    parts, and returns as sources exactly the names listed, sorted. *)
Theorem sources_survive_the_index (str_repr : str -> str) (user_question : str)
    (ss : list str) :
  Forall clean_name ss ->
  (forall (topic : dict) ps text meta,
     dict_get (py "sources") topic = Some (JList (map JStr ss)) ->
     flatten_kb str_repr [JDict topic] = Ok ps -> In (text, meta) ps ->
     exists names,
       build_rag_prompt user_question (JList [JStr text]) (JList [JDict meta])
       = Ok (grounded_prompt user_question text, map JStr names) /\
       StronglySorted str_lt names /\
       forall x, In x names <-> In x ss) /\
  (forall (item m : dict) ps text meta,
     dict_get (py "metadata") item = Some (JDict m) ->
     dict_get (py "sources") m = Some (JList (map JStr ss)) ->
     flatten_mb str_repr [JDict item] = Ok ps -> In (text, meta) ps ->
     exists names,
       build_rag_prompt user_question (JList [JStr text]) (JList [JDict meta])
       = Ok (grounded_prompt user_question text, map JStr names) /\
       StronglySorted str_lt names /\
       forall x, In x names <-> In x ss).
Proof.
  intros Hclean. split.
  - intros topic ps text meta Hsrc Hps Hin.
    destruct (flatten_kb_passage str_repr _ _ _ _ Hps Hin) as (topic' & out & Ht & Hout & Hino).
    destruct Ht as [Ht|[]]. injection Ht as <-.
    destruct (flatten_topic_passage str_repr _ _ _ _ Hout Hino)
      as (sections & section & payload & s & _ & _ & Hs & _ & ->).
    unfold get_default in Hs. rewrite Hsrc in Hs. cbn [sources_str] in Hs.
    rewrite join_items_strs in Hs. injection Hs as <-.
    apply names_recovered; [exact Hclean|]. left. vm_compute. reflexivity.
  - intros item m ps text meta Hm Hsrc Hps Hin.
    destruct (flatten_mb_origin str_repr _ _ _ _ Hps Hin) as (item' & m' & Hi & _ & _ & Hm' & Hc).
    destruct Hi as [Hi|[]]. injection Hi as <-.
    unfold get_default in Hm'. rewrite Hm in Hm'. injection Hm' as <-.
    apply names_recovered; [exact Hclean|].
    destruct ss as [|s ss].
    + right. split; [reflexivity|].
      unfold convert_sources, get in Hc. rewrite Hsrc in Hc. cbn in Hc.
      injection Hc as <-. exact Hsrc.
    + left. rewrite (convert_sources_strs str_repr _ _ _ Hsrc) in Hc.
      injection Hc as <-. apply dict_get_set_same.
Qed.

Lemma sources_survive_the_index_witness :
  let text := py "[Demam / gejala]" ++ nl ++ py "tanda: suhu tinggi" ++ nl ++ py "tanda: lemas" in
  let meta := [ (py "topic_id", JStr (py "demam")); (py "topic_name", JStr (py "Demam"));
                (py "section", JStr (py "gejala")); (py "sources", JStr (py "WHO, Kemenkes")) ] in
  exists names,
    build_rag_prompt (py "apa itu demam?") (JList [JStr text]) (JList [JDict meta])
    = Ok (grounded_prompt (py "apa itu demam?") text, map JStr names) /\
    StronglySorted str_lt names /\
    forall x, In x names <-> In x [py "WHO"; py "Kemenkes"].
Proof.
  intros text meta.
  apply (proj1 (sources_survive_the_index Sample.plain_repr (py "apa itu demam?")
                  [py "WHO"; py "Kemenkes"]
                  ltac:(repeat constructor; try discriminate;
                        try (vm_compute; intuition discriminate)))
           Sample.demam_topic [(text, meta)] text meta).
  - vm_compute. reflexivity.
  - vm_compute. reflexivity.
  - now left.
Defined.

(** X15.  What the normaliser emits, the prompt assembler accepts.  For
    any structured and flat source the two traversals get through, and any
    selection of their passages in any order and number, [build_rag_prompt]
    raises nothing: it returns the prompt around the selected texts, joined
    by the separator, and a sorted list of strings as sources. *)
Theorem emitted_passages_make_a_prompt (str_repr : str -> str)
    (topics chunks : list json) (kb mb retrieved : list passage) (user_question : str) :
  flatten_kb str_repr topics = Ok kb ->
  flatten_mb str_repr chunks = Ok mb ->
  incl retrieved (kb ++ mb) ->
  exists names,
    build_rag_prompt user_question
      (JList (map (fun p => JStr (fst p)) retrieved))
      (JList (map (fun p => JDict (snd p)) retrieved))
    = Ok (grounded_prompt user_question (join context_separator (map fst retrieved)),
          map JStr names) /\
    StronglySorted str_lt names.
Proof.
  intros Hkb Hmb Hincl.
  pose proof (flatten_emits_normalised str_repr topics chunks kb mb Hkb Hmb) as Hn.
  exists (sort_names (fold_left add_name (all_names (map snd retrieved)) [])). split.
  - rewrite <- (map_map fst JStr), <- (map_map snd JDict).
    apply build_rag_prompt_normalised.
    apply Forall_forall. intros m Hm. apply in_map_iff in Hm as (p & <- & Hp).
    rewrite Forall_forall in Hn. apply Hn, Hincl, Hp.
  - apply sources_sorted_and_complete.
Qed.

Lemma emitted_passages_make_a_prompt_witness :
  let kb := Sample.passages_of (flatten_kb Sample.plain_repr [Sample.demam]) in
  let mb := Sample.passages_of
              (flatten_mb Sample.plain_repr [Sample.chunk_empty_sources; Sample.chunk_air]) in
  let retrieved := mb ++ kb in
  exists names,
    build_rag_prompt (py "apa itu demam?")
      (JList (map (fun p => JStr (fst p)) retrieved))
      (JList (map (fun p => JDict (snd p)) retrieved))
    = Ok (grounded_prompt (py "apa itu demam?")
            (join context_separator (map fst retrieved)),
          map JStr names) /\
    StronglySorted str_lt names.
Proof.
  intros kb mb retrieved.
  apply (emitted_passages_make_a_prompt Sample.plain_repr [Sample.demam]
           [Sample.chunk_empty_sources; Sample.chunk_air] kb mb retrieved).
  - vm_compute. reflexivity.
  - vm_compute. reflexivity.
  - intros p Hp. apply in_or_app. apply in_app_or in Hp. tauto.
Defined.

(** X16.  What [build_rag_prompt] does not accept.  A retrieved document
    that is not a string makes the join of the context raise [TypeError],
    whatever the metadata; with documents that are strings, a metadata
    entry that is not a mapping ([None], say), coming after entries the
    loop gets through, makes the loop raise [AttributeError].  In both
    cases no prompt is returned. *)
Theorem build_rag_prompt_rejects (user_question : str) :
  (forall (docs : list json) (context_metas : json),
     has_non_string docs ->
     build_rag_prompt user_question (JList docs) context_metas = Raise TypeError) /\
  (forall (docs : list str) (before : list dict) (meta : json) (after : list json),
     Forall normalised_sources before ->
     (forall m, meta <> JDict m) ->
     build_rag_prompt user_question (JList (map JStr docs))
       (JList (map JDict before ++ meta :: after)) = Raise AttributeError).
Proof.
  split.
  - intros docs context_metas Hbad. unfold build_rag_prompt, join_items. cbn [py_iter rbind].
    now rewrite (as_strs_non_string docs Hbad).
  - intros docs before meta after Hn Hmeta. unfold build_rag_prompt. cbn [py_iter rbind].
    rewrite join_items_strs. cbn [rbind]. rewrite collect_all_app.
    change (collect_all (map JDict before) [])
      with (collect_all (map JDict before) (map JStr [])).
    rewrite (collect_all_normalised before [] Hn). cbn [rbind collect_all].
    destruct meta as [| | | | |m]; try reflexivity. now destruct (Hmeta m).
Qed.

Lemma build_rag_prompt_rejects_witness :
  build_rag_prompt (py "apa itu demam?") (JList (map JStr [py "[Demam / gejala]"; py "Minum air"]))
    (JList (map JDict [[(py "sources", JStr (py "WHO"))]] ++ JNull :: []))
  = Raise AttributeError.
Proof.
  apply (proj2 (build_rag_prompt_rejects (py "apa itu demam?"))).
  - repeat constructor.
  - discriminate.
Defined.

(** ** The endpoints, call by call *)

Section EndpointProperties.

Variable vector : Type.
Variable requests_post : str -> post_outcome vector.
Variable kb_collection_query : vector -> Z -> result dict.
Variable groq_create : list (str * str) -> completion.

Lemma retrieve_context_cases (query : str) (k : Z) (r : result (json * json))
    (calls : list (call vector)) :
  retrieve_context requests_post kb_collection_query query k [] = (r, calls) ->
  (calls = [EmbeddingCall query] /\ (exists e, r = Raise e) /\
   forall v, ~ answered_with requests_post query v) \/
  (exists v, answered_with requests_post query v /\
             calls = [EmbeddingCall query; QueryCall v k]).
Proof.
  unfold retrieve_context, bind, called, raise, lift, ret, answered_with. cbn [app].
  destruct (requests_post query) as [msg|resp] eqn:Ep.
  - intros H. injection H as <- <-. left. split; [reflexivity|]. split; [eauto|].
    intros v (r' & Hr & _). discriminate.
  - destruct (Z.eqb_spec (status_code resp) 200) as [Es|Es]; cbn [negb].
    + destruct (json_embedding resp) as [msg|v] eqn:Ev.
      * intros H. injection H as <- <-. left. split; [reflexivity|]. split; [eauto|].
        intros v (r' & Hr & _ & Hv). injection Hr as <-. congruence.
      * intros H. right. exists v. split; [now exists resp|].
        destruct (kb_collection_query v k) as [results|e]; [|now injection H as _ <-].
        destruct (getitem0 _) as [docs|e]; [|now injection H as _ <-].
        destruct (getitem0 _) as [metas|e]; now injection H as _ <-.
    + intros H. injection H as <- <-. left. split; [reflexivity|]. split; [eauto|].
      intros v (r' & Hr & Hs & _). injection Hr as <-. contradiction.
Qed.

(** X17.  The calls of [rag_endpoint], in every run.  A blank message
    makes none.  Otherwise the first call is the embedding request for the
    trimmed question; the index is queried next, only when the gateway
    answered 200 with an embedding, with that embedding and for 4 results;
    the model is called last, only when retrieval and [build_rag_prompt]
    both returned, with the prompt as its single system message.  No call is
    made twice, and an answer is returned only after all three: it is the
    first choice of the completion beside the sources of
    [build_rag_prompt]; an exception of the completion call becomes the 500
    error "Error from Groq: ...". *)
Theorem rag_endpoint_call_order (message : option str) (r : result json)
    (calls : list (call vector)) :
  rag_endpoint requests_post kb_collection_query groq_create message [] = (r, calls) ->
  let q := question_of message in
  (q = [] /\ calls = [] /\ r = Raise empty_message_error) \/
  (q <> [] /\ calls = [EmbeddingCall q] /\ (exists e, r = Raise e) /\
   forall v, ~ answered_with requests_post q v) \/
  (exists v, q <> [] /\ answered_with requests_post q v /\
     (calls = [EmbeddingCall q; QueryCall v 4] /\ (exists e, r = Raise e) \/
      exists docs metas prompt sources,
        build_rag_prompt q docs metas = Ok (prompt, sources) /\
        calls = [ EmbeddingCall q; QueryCall v 4;
                  GenerationCall [(py "system", prompt)] ] /\
        match groq_create [(py "system", prompt)] with
        | Completed (answer :: _) =>
          r = Ok (JDict [(py "text", answer); (py "sources", JList sources)])
        | Completed [] => r = Raise IndexError
        | CreateRaises msg => r = Raise (HTTPException 500 (py "Error from Groq: " ++ msg))
        end)).
Proof.
  intros H q. subst q. unfold rag_endpoint in H.
  destruct (question_of message) as [|c q] eqn:Eq.
  - left. injection H as <- <-. repeat split.
  - right. unfold bind at 1 in H.
    destruct (retrieve_context requests_post kb_collection_query (c :: q) 4 [])
      as [r0 calls0] eqn:Er.
    destruct (retrieve_context_cases _ _ _ _ Er) as [(Hc & [e He] & Hno) | (v & Hv & Hc)].
    + left. subst r0 calls0. injection H as <- <-.
      split; [discriminate|]. split; [reflexivity|]. split; [eauto | exact Hno].
    + right. exists v. split; [discriminate|]. split; [exact Hv|]. subst calls0.
      destruct r0 as [[docs metas]|e]; [|injection H as <- <-; left; eauto].
      unfold bind, lift in H. cbn [fst snd] in H.
      destruct (build_rag_prompt (c :: q) docs metas) as [[prompt sources]|e] eqn:Ep;
        [|injection H as <- <-; left; eauto].
      right. exists docs, metas, prompt, sources. split; [exact Ep|].
      unfold generate, bind, called, raise, ret in H. cbn [fst snd app] in H.
      destruct (groq_create [(py "system", prompt)]) as [msg|[|answer rest]];
        injection H as <- <-; split; reflexivity.
Qed.

(** X18.  [chat_endpoint] on a message that is not blank.  The question
    handed on is trimmed: its first and its last character are not
    whitespace.  Exactly one call is made, the completion call with the
    directive as system message and the question as user message, and never
    an embedding request or a query of the index.  The answer is the first
    choice of the completion; an exception of the completion call becomes
    the 500 error "Error from Groq: ...", and a completion without choices
    an [IndexError].  So the route answers 200 or 500, and 200 exactly when
    the completion came with a choice. *)
Theorem chat_endpoint_outcomes (message : option str) (c : char) (q : str) :
  question_of message = c :: q ->
  let messages := [ (py "system", BAYMAX_SYSTEM_PROMPT); (py "user", c :: q) ] in
  isspace c = false /\ isspace (last q c) = false /\
  snd (chat_endpoint groq_create message []) = [GenerationCall (vector := vector) messages] /\
  fst (chat_endpoint (vector := vector) groq_create message []) =
    match groq_create messages with
    | Completed (answer :: _) => Ok (JDict [(py "text", answer)])
    | Completed [] => Raise IndexError
    | CreateRaises msg => Raise (HTTPException 500 (py "Error from Groq: " ++ msg))
    end /\
  (forall m, message = Some m ->
     let rep := fst (post_api_chat vector groq_create message) in
     (reply_status rep = 200%Z \/ reply_status rep = 500%Z) /\
     (reply_status rep = 200%Z <->
      exists answer rest, groq_create messages = Completed (answer :: rest))).
Proof.
  intros Hq messages.
  assert (Hc : isspace c = false).
  { unfold question_of, strip in Hq.
    destruct (lstrip _) as [|c0 r0] eqn:El; [discriminate|].
    destruct (rstrip_head c0 r0 (lstrip_head _ _ _ El)) as [u Hu].
    rewrite Hu in Hq. injection Hq as <- _. exact (lstrip_head _ _ _ El). }
  assert (Hl : isspace (last q c) = false).
  { unfold question_of, strip in Hq.
    destruct (@exists_last _ (c :: q)) as (u & x & E); [discriminate|].
    assert (Hx : last q c = x).
    { transitivity (last (c :: q) c); [now destruct q|]. rewrite E. apply last_last. }
    rewrite Hx. rewrite E in Hq. exact (rstrip_last _ _ _ Hq). }
  split; [exact Hc|]. split; [exact Hl|].
  assert (Hrun : chat_endpoint (vector := vector) groq_create message [] =
                 (match groq_create messages with
                  | Completed (answer :: _) => Ok (JDict [(py "text", answer)])
                  | Completed [] => Raise IndexError
                  | CreateRaises msg => Raise (HTTPException 500 (py "Error from Groq: " ++ msg))
                  end, [GenerationCall messages])).
  { subst messages. unfold chat_endpoint. rewrite Hq.
    unfold generate, bind, called, raise, ret. cbn [app].
    now destruct (groq_create _) as [msg|[|a rest]]. }
  rewrite Hrun. cbn [fst snd]. split; [reflexivity|]. split; [reflexivity|].
  intros m ->. unfold post_api_chat, post_route. rewrite Hrun.
  destruct (groq_create messages) as [msg|[|a rest]]; cbn [fst respond reply_status].
  - split; [now right|]. split; [discriminate | intros (a & rest & H); discriminate].
  - split; [now right|]. split; [discriminate | intros (a & rest & H); discriminate].
  - split; [now left|]. split; [eauto | reflexivity].
Qed.

(** X19.  Whitespace around a message is ignored: a message with any
    whitespace added in front of it and after it gives the same question,
    hence the same run of [chat_endpoint] and of [rag_endpoint], with the
    same calls and the same outcome; and a question, sent again as a
    message, is its own question. *)
Theorem surrounding_whitespace_ignored (a m b : str) :
  forallb isspace a = true -> forallb isspace b = true ->
  question_of (Some (a ++ m ++ b)) = question_of (Some m) /\
  question_of (Some (question_of (Some m))) = question_of (Some m) /\
  chat_endpoint (vector := vector) groq_create (Some (a ++ m ++ b)) =
    chat_endpoint groq_create (Some m) /\
  rag_endpoint requests_post kb_collection_query groq_create (Some (a ++ m ++ b)) =
    rag_endpoint requests_post kb_collection_query groq_create (Some m).
Proof.
  intros Ha Hb.
  assert (E : question_of (Some (a ++ m ++ b)) = question_of (Some m)).
  { rewrite !question_of_Some. now apply strip_surrounded. }
  split; [exact E|]. split; [rewrite !question_of_Some; apply strip_idempotent|].
  unfold chat_endpoint, rag_endpoint. rewrite E. split; reflexivity.
Qed.

End EndpointProperties.

Lemma rag_endpoint_call_order_witness :
  let q := question_of (Some (py " apa itu demam? ")) in
  let r := Ok (JDict [ (py "text", JStr (py "Minumlah air putih yang cukup."));
                       (py "sources", JList []) ]) in
  let calls := [ EmbeddingCall q; QueryCall [14%Z; 1%Z] 4;
                 GenerationCall [(py "system", directive_and_question (py "apa itu demam?"))] ] in
  (q = [] /\ calls = [] /\ r = Raise empty_message_error) \/
  (q <> [] /\ calls = [EmbeddingCall q] /\ (exists e, r = Raise e) /\
   forall v, ~ answered_with Sample.gateway_up q v) \/
  (exists v, q <> [] /\ answered_with Sample.gateway_up q v /\
     (calls = [EmbeddingCall q; QueryCall v 4] /\ (exists e, r = Raise e) \/
      exists docs metas prompt sources,
        build_rag_prompt q docs metas = Ok (prompt, sources) /\
        calls = [ EmbeddingCall q; QueryCall v 4;
                  GenerationCall [(py "system", prompt)] ] /\
        match Sample.groq_answers [(py "system", prompt)] with
        | Completed (answer :: _) =>
          r = Ok (JDict [(py "text", answer); (py "sources", JList sources)])
        | Completed [] => r = Raise IndexError
        | CreateRaises msg => r = Raise (HTTPException 500 (py "Error from Groq: " ++ msg))
        end)).
Proof.
  intros q r calls.
  apply (rag_endpoint_call_order Sample.vec Sample.gateway_up Sample.query_empty
           Sample.groq_answers (Some (py " apa itu demam? ")) r calls).
  vm_compute. reflexivity.
Defined.

Lemma chat_endpoint_outcomes_witness :
  snd (chat_endpoint Sample.groq_answers (Some (py " apa itu demam? ")) [])
  = [GenerationCall (vector := Sample.vec)
       [ (py "system", BAYMAX_SYSTEM_PROMPT); (py "user", 97%N :: py "pa itu demam?") ]].
Proof.
  destruct (chat_endpoint_outcomes Sample.vec Sample.groq_answers
              (Some (py " apa itu demam? ")) 97%N (py "pa itu demam?"))
    as (_ & _ & H & _).
  - vm_compute. reflexivity.
  - exact H.
Defined.

Lemma surrounding_whitespace_ignored_witness :
  question_of (Some (py "  " ++ py "apa itu demam?" ++ py " 	")) =
  question_of (Some (py "apa itu demam?")).
Proof.
  destruct (surrounding_whitespace_ignored Sample.vec Sample.gateway_up Sample.query_empty
              Sample.groq_answers (py "  ") (py "apa itu demam?") (py " 	")) as [H _].
  - vm_compute. reflexivity.
  - vm_compute. reflexivity.
  - exact H.
Defined.

(** ** Cross-origin configuration *)

(** X20.  Outside debug mode the allowed origins are, for every host of
    [ALLOWED_HOSTS], "https://" and "http://" followed by that host, and
    nothing else: never the wildcard "*", never an empty list, two origins
    per host.  The hosts are the pieces of the variable between its commas,
    as they stand (nothing is trimmed): joined by commas they give the
    variable back, and none holds a comma.  An unset variable gives the
    four origins of localhost and 127.0.0.1. *)
Theorem production_origins (env : option str) :
  let hosts := ALLOWED_HOSTS env in
  let origins := allow_origins false env in
  ~ In (py "*") origins /\
  origins <> [] /\
  List.length origins = 2 * List.length hosts /\
  (forall o, In o origins <->
             exists host, In host hosts /\
                          (o = py "https://" ++ host \/ o = py "http://" ++ host)) /\
  join [chr_comma] hosts = match env with Some s => s | None => py "localhost,127.0.0.1" end /\
  Forall (fun host => ~ In chr_comma host) hosts /\
  allow_origins false None =
    [ py "https://localhost"; py "https://127.0.0.1";
      py "http://localhost"; py "http://127.0.0.1" ].
Proof.
  intros hosts origins.
  assert (Hmem : forall o, In o origins <->
             exists host, In host hosts /\
                          (o = py "https://" ++ host \/ o = py "http://" ++ host)).
  { intros o. unfold origins, allow_origins, allowed_origins. fold hosts.
    rewrite in_app_iff, !in_map_iff. split.
    - intros [(h & <- & Hh) | (h & <- & Hh)]; exists h; auto.
    - intros (h & Hh & [-> | ->]); [left | right]; exists h; auto. }
  split; [|split; [|split; [|split; [exact Hmem|]]]].
  - intros H. apply Hmem in H as (h & _ & [H | H]); discriminate.
  - unfold origins, allow_origins, allowed_origins, ALLOWED_HOSTS.
    destruct (split chr_comma _) as [|p ps] eqn:E; [now destruct (split_not_nil _ _ E)|].
    discriminate.
  - unfold origins, allow_origins, allowed_origins. fold hosts.
    rewrite length_app, !length_map. unfold str. lia.
  - split; [apply join_split|]. split; [apply split_pieces|]. vm_compute. reflexivity.
Qed.

(** ** Speech synthesis *)

Section SpeechProperties.

Variable audio : Type.
Variable str_lower : str -> str.
Variable TTS_MODEL : str.
Variable ELEVENLABS_API_KEY : option str.
Variable VOICE_ID_PRO : option str.
Variable VOICE_ID_MAX : option str.
Variable VOICE_ID_KIDS : option str.
Variable local_tts_post : str -> str -> str -> str + audio.
Variable elevenlabs_post : str -> str -> str -> str + tts_response audio.

Lemma get_voice_id_Ok (mode : option str) (vid : str) :
  get_voice_id str_lower VOICE_ID_PRO VOICE_ID_MAX VOICE_ID_KIDS mode = Ok vid ->
  vid <> [] /\
  (VOICE_ID_PRO = Some vid \/ VOICE_ID_MAX = Some vid \/ VOICE_ID_KIDS = Some vid).
Proof.
  unfold get_voice_id.
  destruct (str_eqb _ (py "max")); [|destruct (str_eqb _ (py "kids"))].
  - destruct VOICE_ID_MAX as [[|c s]|]; try discriminate.
    intros H. injection H as <-. split; [discriminate | auto].
  - destruct VOICE_ID_KIDS as [[|c s]|]; try discriminate.
    intros H. injection H as <-. split; [discriminate | auto].
  - destruct VOICE_ID_PRO as [[|c s]|]; try discriminate.
    intros H. injection H as <-. split; [discriminate | auto].
Qed.

Lemma get_voice_id_Raise (mode : option str) (e : exn) :
  get_voice_id str_lower VOICE_ID_PRO VOICE_ID_MAX VOICE_ID_KIDS mode = Raise e ->
  e = HTTPException 500
        (py "Voice ID for mode '" ++ str_lower (or_default mode (py "pro"))
         ++ py "' is not configured.").
Proof.
  unfold get_voice_id.
  destruct (str_eqb _ (py "max")); [|destruct (str_eqb _ (py "kids"))].
  - destruct VOICE_ID_MAX as [[|c s]|]; try discriminate; intros H; now injection H as <-.
  - destruct VOICE_ID_KIDS as [[|c s]|]; try discriminate; intros H; now injection H as <-.
  - destruct VOICE_ID_PRO as [[|c s]|]; try discriminate; intros H; now injection H as <-.
Qed.

(** One run of [tts_endpoint] on a text that is not blank. *)
Lemma tts_endpoint_run (text mode : option str) (c : char) (t : str) :
  question_of text = c :: t ->
  let md := or_default mode (py "pro") in
  let local := LocalTTSCall TTS_MODEL (c :: t) (local_voice md) in
  tts_endpoint str_lower TTS_MODEL ELEVENLABS_API_KEY VOICE_ID_PRO VOICE_ID_MAX VOICE_ID_KIDS
    local_tts_post elevenlabs_post text mode [] =
  match local_tts_post TTS_MODEL (c :: t) (local_voice md) with
  | inr content => (Ok content, [local])
  | inl local_error =>
    match ELEVENLABS_API_KEY with
    | Some (k :: key) =>
      match get_voice_id str_lower VOICE_ID_PRO VOICE_ID_MAX VOICE_ID_KIDS (Some md) with
      | Raise e => (Raise e, [local])
      | Ok voice_id =>
        (match elevenlabs_post (k :: key) voice_id (c :: t) with
         | inl ex => Raise (HTTPException 500 (py "TTS error: " ++ ex))
         | inr response =>
           if negb (tts_status_code response =? 200)%Z then
             Raise (HTTPException (tts_status_code response)
                      (py "ElevenLabs returned error: " ++ tts_text response))
           else Ok (tts_content response)
         end, [local; ElevenLabsCall voice_id (c :: t)])
      end
    | _ =>
      (Raise (HTTPException 500
                (py "Local TTS failed and no ElevenLabs API key configured: " ++ local_error)),
       [local])
    end
  end.
Proof.
  intros Hq md local. unfold tts_endpoint. rewrite Hq. fold md.
  unfold bind, tts_called, lift, raise, ret. cbn [app]. subst local.
  destruct (local_tts_post _ _ _) as [err|content]; [|reflexivity].
  destruct ELEVENLABS_API_KEY as [[|k key]|]; try reflexivity.
  destruct (get_voice_id _ _ _ _ _) as [vid|e]; [|reflexivity].
  cbn [app]. destruct (elevenlabs_post _ _ _) as [ex|resp]; [reflexivity|].
  now destruct (negb _).
Qed.

(** X21.  [get_voice_id] returns only a voice that is configured: the
    value is one of the three identifiers of the environment and is not
    empty; otherwise it raises the 500 error that names the lowered mode.
    A mode that lowers to neither "max" nor "kids" gets the Pro voice, and
    an absent or empty mode is the mode "pro". *)
Theorem get_voice_id_configured (mode : option str) :
  let m := str_lower (or_default mode (py "pro")) in
  (forall vid,
     get_voice_id str_lower VOICE_ID_PRO VOICE_ID_MAX VOICE_ID_KIDS mode = Ok vid ->
     vid <> [] /\
     (VOICE_ID_PRO = Some vid \/ VOICE_ID_MAX = Some vid \/ VOICE_ID_KIDS = Some vid)) /\
  (forall e,
     get_voice_id str_lower VOICE_ID_PRO VOICE_ID_MAX VOICE_ID_KIDS mode = Raise e ->
     e = HTTPException 500 (py "Voice ID for mode '" ++ m ++ py "' is not configured.")) /\
  (m <> py "max" -> m <> py "kids" ->
   forall c s, VOICE_ID_PRO = Some (c :: s) ->
     get_voice_id str_lower VOICE_ID_PRO VOICE_ID_MAX VOICE_ID_KIDS mode = Ok (c :: s)) /\
  (mode = None \/ mode = Some [] ->
   get_voice_id str_lower VOICE_ID_PRO VOICE_ID_MAX VOICE_ID_KIDS mode =
   get_voice_id str_lower VOICE_ID_PRO VOICE_ID_MAX VOICE_ID_KIDS (Some (py "pro"))).
Proof.
  intros m. split; [intros vid; apply get_voice_id_Ok|].
  split; [intros e; apply get_voice_id_Raise|]. split.
  - intros Hmax Hkids c s Hpro. unfold get_voice_id. fold m.
    apply str_eqb_neq in Hmax, Hkids. now rewrite Hmax, Hkids, Hpro.
  - intros [-> | ->]; reflexivity.
Qed.

(** X22.  Whatever goes wrong in [tts_endpoint], the client gets an HTTP
    error: every exception that leaves the endpoint is an [HTTPException],
    with a status other than 200.  A blank text gives 400 before any call;
    after that the status is 500, or the status ElevenLabs answered
    with. *)
Theorem tts_errors_are_http_errors (text mode : option str) (e : exn)
    (calls : list tts_call) :
  tts_endpoint str_lower TTS_MODEL ELEVENLABS_API_KEY VOICE_ID_PRO VOICE_ID_MAX VOICE_ID_KIDS
    local_tts_post elevenlabs_post text mode [] = (Raise e, calls) ->
  exists status detail,
    e = HTTPException status detail /\ status <> 200%Z /\
    (question_of text = [] -> status = 400%Z /\ calls = []) /\
    (question_of text <> [] ->
     status = 500%Z \/
     exists key voice_id response,
       elevenlabs_post key voice_id (question_of text) = inr response /\
       status = tts_status_code response).
Proof.
  destruct (question_of text) as [|c t] eqn:Hq.
  - unfold tts_endpoint. rewrite Hq. intros H. injection H as <- <-.
    eexists _, _. split; [reflexivity|]. split; [discriminate|]. split; [auto | congruence].
  - rewrite (tts_endpoint_run text mode c t Hq).
    destruct (local_tts_post _ _ _) as [err|content]; [|discriminate].
    destruct ELEVENLABS_API_KEY as [[|k key]|].
    + intros H. injection H as <- <-. eexists _, _. split; [reflexivity|].
      split; [discriminate|]. split; [discriminate | auto].
    + destruct (get_voice_id _ _ _ _ _) as [vid|e0] eqn:Ev.
      * destruct (elevenlabs_post _ _ _) as [ex|resp] eqn:Ee.
        -- intros H. injection H as <- <-. eexists _, _. split; [reflexivity|].
           split; [discriminate|]. split; [discriminate | auto].
        -- destruct (Z.eqb_spec (tts_status_code resp) 200) as [E|E]; cbn [negb];
             [discriminate|].
           intros H. injection H as <- <-. eexists _, _. split; [reflexivity|].
           split; [exact E|]. split; [discriminate|]. intros _. right. eauto.
      * intros H. injection H as <- <-. apply get_voice_id_Raise in Ev. subst e0.
        eexists _, _. split; [reflexivity|]. split; [discriminate|].
        split; [discriminate | auto].
    + intros H. injection H as <- <-. eexists _, _. split; [reflexivity|].
      split; [discriminate|]. split; [discriminate | auto].
Qed.

(** X23.  ElevenLabs is only a fallback.  A blank text makes no call; any
    other text goes to the local server first, trimmed, with the voice of
    the mode, and when the local server answers, its audio is the result
    and no other call is made.  ElevenLabs is called at most once, after
    the local call, and only when the local call failed, an API key is
    configured, and [get_voice_id] returned the voice that is asked for,
    which is not empty; it is given the same trimmed text. *)
Theorem elevenlabs_is_only_a_fallback (text mode : option str) (r : result audio)
    (calls : list tts_call) :
  tts_endpoint str_lower TTS_MODEL ELEVENLABS_API_KEY VOICE_ID_PRO VOICE_ID_MAX VOICE_ID_KIDS
    local_tts_post elevenlabs_post text mode [] = (r, calls) ->
  let t := question_of text in
  let md := or_default mode (py "pro") in
  let local := LocalTTSCall TTS_MODEL t (local_voice md) in
  (t = [] -> calls = []) /\
  (t <> [] -> calls = [local] \/ exists voice_id, calls = [local; ElevenLabsCall voice_id t]) /\
  (forall content, t <> [] -> local_tts_post TTS_MODEL t (local_voice md) = inr content ->
                   r = Ok content /\ calls = [local]) /\
  (forall voice_id input, In (ElevenLabsCall voice_id input) calls ->
     input = t /\
     (exists local_error, local_tts_post TTS_MODEL t (local_voice md) = inl local_error) /\
     (exists k key, ELEVENLABS_API_KEY = Some (k :: key)) /\
     get_voice_id str_lower VOICE_ID_PRO VOICE_ID_MAX VOICE_ID_KIDS (Some md) = Ok voice_id /\
     voice_id <> []).
Proof.
  intros H t md local. subst t local.
  destruct (question_of text) as [|c t] eqn:Hq.
  - unfold tts_endpoint in H. rewrite Hq in H. injection H as <- <-.
    split; [reflexivity|]. split; [congruence|]. split; [congruence|]. intros ? ? [].
  - rewrite (tts_endpoint_run text mode c t Hq) in H. fold md in H.
    assert (Hone : forall r0 : result audio,
              (r0, [LocalTTSCall TTS_MODEL (c :: t) (local_voice md)]) = (r, calls) ->
              forall voice_id input, ~ In (ElevenLabsCall voice_id input) calls).
    { intros r0 H0 voice_id input. injection H0 as _ <-. intros [E|[]]. discriminate. }
    split; [discriminate|].
    destruct (local_tts_post TTS_MODEL (c :: t) (local_voice md)) as [err|content] eqn:El.
    + destruct ELEVENLABS_API_KEY as [[|k key]|] eqn:Ek.
      * pose proof (Hone _ H) as Hn. injection H as <- <-.
        split; [auto|]. split; [discriminate|]. intros v i Hin. now destruct (Hn v i).
      * destruct (get_voice_id _ _ _ _ _) as [vid|e0] eqn:Ev.
        -- injection H as <- <-. split; [eauto|]. split; [discriminate|].
           intros v i [E|[E|[]]]; [discriminate|]. injection E as <- <-.
           split; [reflexivity|]. split; [eauto|]. split; [eauto|].
           split; [reflexivity|]. exact (proj1 (get_voice_id_Ok _ _ Ev)).
        -- pose proof (Hone _ H) as Hn. injection H as <- <-.
           split; [auto|]. split; [discriminate|]. intros v i Hin. now destruct (Hn v i).
      * pose proof (Hone _ H) as Hn. injection H as <- <-.
        split; [auto|]. split; [discriminate|]. intros v i Hin. now destruct (Hn v i).
    + pose proof (Hone _ H) as Hn. injection H as <- <-.
      split; [auto|]. split; [intros content' _ E; now injection E as <-|].
      intros v i Hin. now destruct (Hn v i).
Qed.

End SpeechProperties.

Lemma get_voice_id_configured_witness :
  get_voice_id Sample.lower_ascii (Some (py "suara-pro")) None None (Some (py "Dewasa"))
  = Ok (py "suara-pro").
Proof.
  destruct (get_voice_id_configured Sample.lower_ascii (Some (py "suara-pro")) None None
              (Some (py "Dewasa"))) as (_ & _ & H & _).
  apply (H ltac:(vm_compute; discriminate) ltac:(vm_compute; discriminate)
           115%N (py "uara-pro")).
  vm_compute. reflexivity.
Defined.

Lemma tts_errors_are_http_errors_witness :
  let e := HTTPException 500
             (py "Local TTS failed and no ElevenLabs API key configured: "
              ++ py "All connection attempts failed") in
  let calls := [LocalTTSCall (py "tts-1") (py "Halo") (py "ardhi")] in
  exists status detail,
    e = HTTPException status detail /\ status <> 200%Z /\
    (question_of (Some (py " Halo ")) = [] -> status = 400%Z /\ calls = []) /\
    (question_of (Some (py " Halo ")) <> [] ->
     status = 500%Z \/
     exists key voice_id response,
       Sample.elevenlabs_answers 200 key voice_id (question_of (Some (py " Halo ")))
         = inr response /\
       status = tts_status_code response).
Proof.
  intros e calls.
  apply (tts_errors_are_http_errors Sample.clip Sample.lower_ascii (py "tts-1") None
           None None None Sample.local_down (Sample.elevenlabs_answers 200)
           (Some (py " Halo ")) None e calls).
  vm_compute. reflexivity.
Defined.

Lemma elevenlabs_is_only_a_fallback_witness :
  let r := Ok [73; 68; 51]%N in
  let t := question_of (Some (py " Halo ")) in
  let md := or_default (Some (py "kids")) (py "pro") in
  let local := LocalTTSCall (py "tts-1") t (local_voice md) in
  let calls := [local; ElevenLabsCall (py "suara-anak") t] in
  (t = [] -> calls = []) /\
  (t <> [] -> calls = [local] \/ exists voice_id, calls = [local; ElevenLabsCall voice_id t]) /\
  (forall content, t <> [] -> Sample.local_down (py "tts-1") t (local_voice md) = inr content ->
                   r = Ok content /\ calls = [local]) /\
  (forall voice_id input, In (ElevenLabsCall voice_id input) calls ->
     input = t /\
     (exists local_error,
        Sample.local_down (py "tts-1") t (local_voice md) = inl local_error) /\
     (exists k key, Some (py "kunci") = Some (k :: key)) /\
     get_voice_id Sample.lower_ascii (Some (py "suara-pro")) None (Some (py "suara-anak"))
       (Some md) = Ok voice_id /\
     voice_id <> []).
Proof.
  intros r t md local calls.
  apply (elevenlabs_is_only_a_fallback Sample.clip Sample.lower_ascii (py "tts-1")
           (Some (py "kunci")) (Some (py "suara-pro")) None (Some (py "suara-anak"))
           Sample.local_down (Sample.elevenlabs_answers 200)
           (Some (py " Halo ")) (Some (py "kids")) r calls).
  vm_compute. reflexivity.
Defined.

(** ** The two speech servers agree on the voices *)

(** X24.  The voice [tts_endpoint] asks the local server for is, whatever
    the mode, a key of the server's [VOICE_MAPPING], so [create_speech]
    never falls back on its default voice for it: the mode "pro" (also an
    absent or empty mode) is spoken by id-ID-ArdhiNeural, the mode "max" by
    en-US-AriaNeural, any other mode by id-ID-GadisNeural.  And every voice
    [list_voices] lists is spoken by [create_speech] with the name listed
    beside it. *)
Theorem local_voices_are_known (mode : option str) :
  let md := or_default mode (py "pro") in
  dict_get (local_voice md) VOICE_MAPPING = Some (edge_voice (local_voice md)) /\
  edge_voice (local_voice md) =
    (if str_eqb md (py "pro") then JStr (py "id-ID-ArdhiNeural")
     else if str_eqb md (py "max") then JStr (py "en-US-AriaNeural")
     else JStr (py "id-ID-GadisNeural")) /\
  (mode = None \/ mode = Some [] -> edge_voice (local_voice md) = JStr (py "id-ID-ArdhiNeural")) /\
  (forall voices voice_id voice_name,
     list_voices = JDict [(py "data", JList voices)] ->
     In (JDict [ (py "id", JStr voice_id); (py "name", voice_name);
                 (py "object", JStr (py "voice")) ]) voices ->
     edge_voice voice_id = voice_name).
Proof.
  intros md. split; [|split; [|split]].
  - unfold local_voice. destruct (str_eqb md (py "pro")); [vm_compute; reflexivity|].
    destruct (str_eqb md (py "max")); vm_compute; reflexivity.
  - unfold local_voice. destruct (str_eqb md (py "pro")); [vm_compute; reflexivity|].
    destruct (str_eqb md (py "max")); vm_compute; reflexivity.
  - subst md. intros [-> | ->]; vm_compute; reflexivity.
  - intros voices voice_id voice_name Hl Hin. unfold list_voices in Hl.
    injection Hl as <-. cbn [map VOICE_MAPPING] in Hin.
    repeat (destruct Hin as [Hin|Hin];
            [injection Hin as <- <-; vm_compute; reflexivity|]).
    destruct Hin.
Qed.
